(** * AI Todo App: the hybrid translation pipeline and the JSON import

    A shallow embedding of [src/app_todo.py] (class [AITodoApp]):

    - [translate_text_with_dictionary], [translate_text_with_gpt] and
      [translate_text], the dictionary-then-model translation with its
      session cache and API usage counter;
    - [import_tasks_json], the loop that appends decoded records to the
      task list of the session, and [export_tasks_json];
    - [create_task], [update_task], [delete_task], [get_filtered_tasks]
      and the order of the task cards;
    - [setup_openai_client] and [get_ui_text].

    Python [str] values are embedded as [string]: the sequence of their
    UTF-8 bytes.  Equality, concatenation, the substring test and the
    replacement of an ASCII character agree on both readings.  [str.lower],
    [str.strip] and the iteration over a [str] work on the characters, read
    off the bytes by [decode], with the tables of the Unicode character
    database (version 14.0) that the interpreter carries.

    Streamlit's [st.session_state] is threaded explicitly as a [world];
    Python exceptions are the [Raise] outcome of a small state-and-exception
    monad, and [try ... except Exception] is [try_except]. *)

From Stdlib Require Import Ascii String ZArith List Bool Lia QArith Sorted.
From stdpp Require Import base option gmap strings list fin_maps.

Local Open Scope Z_scope.

(** ** Python strings

    A [str] is a sequence of Unicode characters; a [string] holds its UTF-8
    bytes.  [decode] reads the characters off the bytes and [encode] writes
    them back.  A byte that is not part of a well-formed UTF-8 sequence
    cannot occur in a [str]; [decode] carries it as a number from [raw_base]
    on, so that no method below touches it. *)

Definition raw_base : N := 1114112.

Definition is_continuation (n : N) : bool := (128 <=? n)%N && (n <=? 191)%N.

Fixpoint decode (s : string) : list N :=
  match s with
  | EmptyString => []
  | String b0 s1 =>
      let n0 := N_of_ascii b0 in
      if (n0 <? 128)%N then n0 :: decode s1
      else
        match s1 with
        | EmptyString => [(raw_base + n0)%N]
        | String b1 s2 =>
            let n1 := N_of_ascii b1 in
            if (194 <=? n0)%N && (n0 <=? 223)%N && is_continuation n1 then
              ((n0 - 192) * 64 + (n1 - 128))%N :: decode s2
            else
              match s2 with
              | EmptyString => (raw_base + n0)%N :: decode s1
              | String b2 s3 =>
                  let n2 := N_of_ascii b2 in
                  if (224 <=? n0)%N && (n0 <=? 239)%N
                     && is_continuation n1 && is_continuation n2
                     && (negb (n0 =? 224)%N || (160 <=? n1)%N)
                     && (negb (n0 =? 237)%N || (n1 <=? 159)%N) then
                    ((n0 - 224) * 4096 + (n1 - 128) * 64 + (n2 - 128))%N :: decode s3
                  else
                    match s3 with
                    | EmptyString => (raw_base + n0)%N :: decode s1
                    | String b3 s4 =>
                        let n3 := N_of_ascii b3 in
                        if (240 <=? n0)%N && (n0 <=? 244)%N
                           && is_continuation n1 && is_continuation n2
                           && is_continuation n3
                           && (negb (n0 =? 240)%N || (144 <=? n1)%N)
                           && (negb (n0 =? 244)%N || (n1 <=? 143)%N) then
                          ((n0 - 240) * 262144 + (n1 - 128) * 4096
                           + (n2 - 128) * 64 + (n3 - 128))%N :: decode s4
                        else (raw_base + n0)%N :: decode s1
                    end
              end
        end
  end.

Definition bytes (l : list N) : string :=
  fold_right (fun n s => String (ascii_of_N n) s) EmptyString l.

Definition encode_char (c : N) : string :=
  if (c <? 128)%N then bytes [c]
  else if (c <? 2048)%N then bytes [192 + c / 64; 128 + c mod 64]%N
  else if (c <? 65536)%N then
    bytes [224 + c / 4096; 128 + (c / 64) mod 64; 128 + c mod 64]%N
  else if (c <? raw_base)%N then
    bytes [240 + c / 262144; 128 + (c / 4096) mod 64; 128 + (c / 64) mod 64;
           128 + c mod 64]%N
  else bytes [c - raw_base]%N.

Fixpoint encode (l : list N) : string :=
  match l with
  | [] => EmptyString
  | c :: l' => encode_char c +:+ encode l'
  end.

Definition in_ranges (ranges : list (N * N)) (c : N) : bool :=
  existsb (fun r => (fst r <=? c)%N && (c <=? snd r)%N) ranges.

(** The characters [str.isspace] accepts, which are those [str.strip] trims. *)
Definition whitespace_table : list N :=
  [ 9; 10; 11; 12; 13; 28; 29; 30; 31; 32; 133; 160;
   5760; 8192; 8193; 8194; 8195; 8196; 8197; 8198; 8199; 8200; 8201; 8202;
   8232; 8233; 8239; 8287; 12288 ]%N.

(** The one-character lower-case mappings: an entry (first, last, step,
    target) sends [first + k * step], up to [last], to [target + k * step]. *)
Definition lowercase_table : list (N * N * N * N) :=
  [ (65, 90, 1, 97); (192, 214, 1, 224); (216, 222, 1, 248); (256, 302, 2, 257);
   (306, 310, 2, 307); (313, 327, 2, 314); (330, 374, 2, 331); (376, 376, 1, 255);
   (377, 381, 2, 378); (385, 385, 1, 595); (386, 388, 2, 387); (390, 390, 1, 596);
   (391, 391, 1, 392); (393, 394, 1, 598); (395, 395, 1, 396); (398, 398, 1, 477);
   (399, 399, 1, 601); (400, 400, 1, 603); (401, 401, 1, 402); (403, 403, 1, 608);
   (404, 404, 1, 611); (406, 406, 1, 617); (407, 407, 1, 616); (408, 408, 1, 409);
   (412, 412, 1, 623); (413, 413, 1, 626); (415, 415, 1, 629); (416, 420, 2, 417);
   (422, 422, 1, 640); (423, 423, 1, 424); (425, 425, 1, 643); (428, 428, 1, 429);
   (430, 430, 1, 648); (431, 431, 1, 432); (433, 434, 1, 650); (435, 437, 2, 436);
   (439, 439, 1, 658); (440, 440, 1, 441); (444, 444, 1, 445); (452, 452, 1, 454);
   (453, 453, 1, 454); (455, 455, 1, 457); (456, 456, 1, 457); (458, 458, 1, 460);
   (459, 475, 2, 460); (478, 494, 2, 479); (497, 497, 1, 499); (498, 500, 2, 499);
   (502, 502, 1, 405); (503, 503, 1, 447); (504, 542, 2, 505); (544, 544, 1, 414);
   (546, 562, 2, 547); (570, 570, 1, 11365); (571, 571, 1, 572); (573, 573, 1, 410);
   (574, 574, 1, 11366); (577, 577, 1, 578); (579, 579, 1, 384); (580, 580, 1, 649);
   (581, 581, 1, 652); (582, 590, 2, 583); (880, 882, 2, 881); (886, 886, 1, 887);
   (895, 895, 1, 1011); (902, 902, 1, 940); (904, 906, 1, 941); (908, 908, 1, 972);
   (910, 911, 1, 973); (913, 929, 1, 945); (932, 939, 1, 964); (975, 975, 1, 983);
   (984, 1006, 2, 985); (1012, 1012, 1, 952); (1015, 1015, 1, 1016); (1017, 1017, 1, 1010);
   (1018, 1018, 1, 1019); (1021, 1023, 1, 891); (1024, 1039, 1, 1104); (1040, 1071, 1, 1072);
   (1120, 1152, 2, 1121); (1162, 1214, 2, 1163); (1216, 1216, 1, 1231); (1217, 1229, 2, 1218);
   (1232, 1326, 2, 1233); (1329, 1366, 1, 1377); (4256, 4293, 1, 11520); (4295, 4295, 1, 11559);
   (4301, 4301, 1, 11565); (5024, 5103, 1, 43888); (5104, 5109, 1, 5112); (7312, 7354, 1, 4304);
   (7357, 7359, 1, 4349); (7680, 7828, 2, 7681); (7838, 7838, 1, 223); (7840, 7934, 2, 7841);
   (7944, 7951, 1, 7936); (7960, 7965, 1, 7952); (7976, 7983, 1, 7968); (7992, 7999, 1, 7984);
   (8008, 8013, 1, 8000); (8025, 8031, 2, 8017); (8040, 8047, 1, 8032); (8072, 8079, 1, 8064);
   (8088, 8095, 1, 8080); (8104, 8111, 1, 8096); (8120, 8121, 1, 8112); (8122, 8123, 1, 8048);
   (8124, 8124, 1, 8115); (8136, 8139, 1, 8050); (8140, 8140, 1, 8131); (8152, 8153, 1, 8144);
   (8154, 8155, 1, 8054); (8168, 8169, 1, 8160); (8170, 8171, 1, 8058); (8172, 8172, 1, 8165);
   (8184, 8185, 1, 8056); (8186, 8187, 1, 8060); (8188, 8188, 1, 8179); (8486, 8486, 1, 969);
   (8490, 8490, 1, 107); (8491, 8491, 1, 229); (8498, 8498, 1, 8526); (8544, 8559, 1, 8560);
   (8579, 8579, 1, 8580); (9398, 9423, 1, 9424); (11264, 11311, 1, 11312); (11360, 11360, 1, 11361);
   (11362, 11362, 1, 619); (11363, 11363, 1, 7549); (11364, 11364, 1, 637); (11367, 11371, 2, 11368);
   (11373, 11373, 1, 593); (11374, 11374, 1, 625); (11375, 11375, 1, 592); (11376, 11376, 1, 594);
   (11378, 11378, 1, 11379); (11381, 11381, 1, 11382); (11390, 11391, 1, 575); (11392, 11490, 2, 11393);
   (11499, 11501, 2, 11500); (11506, 11506, 1, 11507); (42560, 42604, 2, 42561); (42624, 42650, 2, 42625);
   (42786, 42798, 2, 42787); (42802, 42862, 2, 42803); (42873, 42875, 2, 42874); (42877, 42877, 1, 7545);
   (42878, 42886, 2, 42879); (42891, 42891, 1, 42892); (42893, 42893, 1, 613); (42896, 42898, 2, 42897);
   (42902, 42920, 2, 42903); (42922, 42922, 1, 614); (42923, 42923, 1, 604); (42924, 42924, 1, 609);
   (42925, 42925, 1, 620); (42926, 42926, 1, 618); (42928, 42928, 1, 670); (42929, 42929, 1, 647);
   (42930, 42930, 1, 669); (42931, 42931, 1, 43859); (42932, 42946, 2, 42933); (42948, 42948, 1, 42900);
   (42949, 42949, 1, 642); (42950, 42950, 1, 7566); (42951, 42953, 2, 42952); (42960, 42960, 1, 42961);
   (42966, 42968, 2, 42967); (42997, 42997, 1, 42998); (65313, 65338, 1, 65345); (66560, 66599, 1, 66600);
   (66736, 66771, 1, 66776); (66928, 66938, 1, 66967); (66940, 66954, 1, 66979); (66956, 66962, 1, 66995);
   (66964, 66965, 1, 67003); (68736, 68786, 1, 68800); (71840, 71871, 1, 71872); (93760, 93791, 1, 93792);
   (125184, 125217, 1, 125218) ]%N.

(** The ranges of the cased characters (lower case, upper case or title
    case). *)
Definition cased_table : list (N * N) :=
  [ (65, 90); (97, 122); (170, 170); (181, 181); (186, 186); (192, 214);
   (216, 246); (248, 442); (444, 447); (452, 659); (661, 696); (704, 705);
   (736, 740); (837, 837); (880, 883); (886, 887); (890, 893); (895, 895);
   (902, 902); (904, 906); (908, 908); (910, 929); (931, 1013); (1015, 1153);
   (1162, 1327); (1329, 1366); (1376, 1416); (4256, 4293); (4295, 4295); (4301, 4301);
   (4304, 4346); (4349, 4351); (5024, 5109); (5112, 5117); (7296, 7304); (7312, 7354);
   (7357, 7359); (7424, 7615); (7680, 7957); (7960, 7965); (7968, 8005); (8008, 8013);
   (8016, 8023); (8025, 8025); (8027, 8027); (8029, 8029); (8031, 8061); (8064, 8116);
   (8118, 8124); (8126, 8126); (8130, 8132); (8134, 8140); (8144, 8147); (8150, 8155);
   (8160, 8172); (8178, 8180); (8182, 8188); (8305, 8305); (8319, 8319); (8336, 8348);
   (8450, 8450); (8455, 8455); (8458, 8467); (8469, 8469); (8473, 8477); (8484, 8484);
   (8486, 8486); (8488, 8488); (8490, 8493); (8495, 8500); (8505, 8505); (8508, 8511);
   (8517, 8521); (8526, 8526); (8544, 8575); (8579, 8580); (9398, 9449); (11264, 11492);
   (11499, 11502); (11506, 11507); (11520, 11557); (11559, 11559); (11565, 11565); (42560, 42605);
   (42624, 42653); (42786, 42887); (42891, 42894); (42896, 42954); (42960, 42961); (42963, 42963);
   (42965, 42969); (42997, 42998); (43000, 43002); (43824, 43866); (43868, 43880); (43888, 43967);
   (64256, 64262); (64275, 64279); (65313, 65338); (65345, 65370); (66560, 66639); (66736, 66771);
   (66776, 66811); (66928, 66938); (66940, 66954); (66956, 66962); (66964, 66965); (66967, 66977);
   (66979, 66993); (66995, 67001); (67003, 67004); (67456, 67456); (67459, 67461); (67463, 67504);
   (67506, 67514); (68736, 68786); (68800, 68850); (71840, 71903); (93760, 93823); (119808, 119892);
   (119894, 119964); (119966, 119967); (119970, 119970); (119973, 119974); (119977, 119980); (119982, 119993);
   (119995, 119995); (119997, 120003); (120005, 120069); (120071, 120074); (120077, 120084); (120086, 120092);
   (120094, 120121); (120123, 120126); (120128, 120132); (120134, 120134); (120138, 120144); (120146, 120485);
   (120488, 120512); (120514, 120538); (120540, 120570); (120572, 120596); (120598, 120628); (120630, 120654);
   (120656, 120686); (120688, 120712); (120714, 120744); (120746, 120770); (120772, 120779); (122624, 122633);
   (122635, 122654); (125184, 125251); (127280, 127305); (127312, 127337); (127344, 127369) ]%N.

(** The ranges of the case-ignorable characters. *)
Definition case_ignorable_table : list (N * N) :=
  [ (39, 39); (46, 46); (58, 58); (94, 94); (96, 96); (168, 168);
   (173, 173); (175, 175); (180, 180); (183, 184); (688, 879); (884, 885);
   (890, 890); (900, 901); (903, 903); (1155, 1161); (1369, 1369); (1375, 1375);
   (1425, 1469); (1471, 1471); (1473, 1474); (1476, 1477); (1479, 1479); (1524, 1524);
   (1536, 1541); (1552, 1562); (1564, 1564); (1600, 1600); (1611, 1631); (1648, 1648);
   (1750, 1757); (1759, 1768); (1770, 1773); (1807, 1807); (1809, 1809); (1840, 1866);
   (1958, 1968); (2027, 2037); (2042, 2042); (2045, 2045); (2070, 2093); (2137, 2139);
   (2184, 2184); (2192, 2193); (2200, 2207); (2249, 2306); (2362, 2362); (2364, 2364);
   (2369, 2376); (2381, 2381); (2385, 2391); (2402, 2403); (2417, 2417); (2433, 2433);
   (2492, 2492); (2497, 2500); (2509, 2509); (2530, 2531); (2558, 2558); (2561, 2562);
   (2620, 2620); (2625, 2626); (2631, 2632); (2635, 2637); (2641, 2641); (2672, 2673);
   (2677, 2677); (2689, 2690); (2748, 2748); (2753, 2757); (2759, 2760); (2765, 2765);
   (2786, 2787); (2810, 2815); (2817, 2817); (2876, 2876); (2879, 2879); (2881, 2884);
   (2893, 2893); (2901, 2902); (2914, 2915); (2946, 2946); (3008, 3008); (3021, 3021);
   (3072, 3072); (3076, 3076); (3132, 3132); (3134, 3136); (3142, 3144); (3146, 3149);
   (3157, 3158); (3170, 3171); (3201, 3201); (3260, 3260); (3263, 3263); (3270, 3270);
   (3276, 3277); (3298, 3299); (3328, 3329); (3387, 3388); (3393, 3396); (3405, 3405);
   (3426, 3427); (3457, 3457); (3530, 3530); (3538, 3540); (3542, 3542); (3633, 3633);
   (3636, 3642); (3654, 3662); (3761, 3761); (3764, 3772); (3782, 3782); (3784, 3789);
   (3864, 3865); (3893, 3893); (3895, 3895); (3897, 3897); (3953, 3966); (3968, 3972);
   (3974, 3975); (3981, 3991); (3993, 4028); (4038, 4038); (4141, 4144); (4146, 4151);
   (4153, 4154); (4157, 4158); (4184, 4185); (4190, 4192); (4209, 4212); (4226, 4226);
   (4229, 4230); (4237, 4237); (4253, 4253); (4348, 4348); (4957, 4959); (5906, 5908);
   (5938, 5939); (5970, 5971); (6002, 6003); (6068, 6069); (6071, 6077); (6086, 6086);
   (6089, 6099); (6103, 6103); (6109, 6109); (6155, 6159); (6211, 6211); (6277, 6278);
   (6313, 6313); (6432, 6434); (6439, 6440); (6450, 6450); (6457, 6459); (6679, 6680);
   (6683, 6683); (6742, 6742); (6744, 6750); (6752, 6752); (6754, 6754); (6757, 6764);
   (6771, 6780); (6783, 6783); (6823, 6823); (6832, 6862); (6912, 6915); (6964, 6964);
   (6966, 6970); (6972, 6972); (6978, 6978); (7019, 7027); (7040, 7041); (7074, 7077);
   (7080, 7081); (7083, 7085); (7142, 7142); (7144, 7145); (7149, 7149); (7151, 7153);
   (7212, 7219); (7222, 7223); (7288, 7293); (7376, 7378); (7380, 7392); (7394, 7400);
   (7405, 7405); (7412, 7412); (7416, 7417); (7468, 7530); (7544, 7544); (7579, 7679);
   (8125, 8125); (8127, 8129); (8141, 8143); (8157, 8159); (8173, 8175); (8189, 8190);
   (8203, 8207); (8216, 8217); (8228, 8228); (8231, 8231); (8234, 8238); (8288, 8292);
   (8294, 8303); (8305, 8305); (8319, 8319); (8336, 8348); (8400, 8432); (11388, 11389);
   (11503, 11505); (11631, 11631); (11647, 11647); (11744, 11775); (11823, 11823); (12293, 12293);
   (12330, 12333); (12337, 12341); (12347, 12347); (12441, 12446); (12540, 12542); (40981, 40981);
   (42232, 42237); (42508, 42508); (42607, 42610); (42612, 42621); (42623, 42623); (42652, 42655);
   (42736, 42737); (42752, 42785); (42864, 42864); (42888, 42890); (42994, 42996); (43000, 43001);
   (43010, 43010); (43014, 43014); (43019, 43019); (43045, 43046); (43052, 43052); (43204, 43205);
   (43232, 43249); (43263, 43263); (43302, 43309); (43335, 43345); (43392, 43394); (43443, 43443);
   (43446, 43449); (43452, 43453); (43471, 43471); (43493, 43494); (43561, 43566); (43569, 43570);
   (43573, 43574); (43587, 43587); (43596, 43596); (43632, 43632); (43644, 43644); (43696, 43696);
   (43698, 43700); (43703, 43704); (43710, 43711); (43713, 43713); (43741, 43741); (43756, 43757);
   (43763, 43764); (43766, 43766); (43867, 43871); (43881, 43883); (44005, 44005); (44008, 44008);
   (44013, 44013); (64286, 64286); (64434, 64450); (65024, 65039); (65043, 65043); (65056, 65071);
   (65106, 65106); (65109, 65109); (65279, 65279); (65287, 65287); (65294, 65294); (65306, 65306);
   (65342, 65342); (65344, 65344); (65392, 65392); (65438, 65439); (65507, 65507); (65529, 65531);
   (66045, 66045); (66272, 66272); (66422, 66426); (67456, 67461); (67463, 67504); (67506, 67514);
   (68097, 68099); (68101, 68102); (68108, 68111); (68152, 68154); (68159, 68159); (68325, 68326);
   (68900, 68903); (69291, 69292); (69446, 69456); (69506, 69509); (69633, 69633); (69688, 69702);
   (69744, 69744); (69747, 69748); (69759, 69761); (69811, 69814); (69817, 69818); (69821, 69821);
   (69826, 69826); (69837, 69837); (69888, 69890); (69927, 69931); (69933, 69940); (70003, 70003);
   (70016, 70017); (70070, 70078); (70089, 70092); (70095, 70095); (70191, 70193); (70196, 70196);
   (70198, 70199); (70206, 70206); (70367, 70367); (70371, 70378); (70400, 70401); (70459, 70460);
   (70464, 70464); (70502, 70508); (70512, 70516); (70712, 70719); (70722, 70724); (70726, 70726);
   (70750, 70750); (70835, 70840); (70842, 70842); (70847, 70848); (70850, 70851); (71090, 71093);
   (71100, 71101); (71103, 71104); (71132, 71133); (71219, 71226); (71229, 71229); (71231, 71232);
   (71339, 71339); (71341, 71341); (71344, 71349); (71351, 71351); (71453, 71455); (71458, 71461);
   (71463, 71467); (71727, 71735); (71737, 71738); (71995, 71996); (71998, 71998); (72003, 72003);
   (72148, 72151); (72154, 72155); (72160, 72160); (72193, 72202); (72243, 72248); (72251, 72254);
   (72263, 72263); (72273, 72278); (72281, 72283); (72330, 72342); (72344, 72345); (72752, 72758);
   (72760, 72765); (72767, 72767); (72850, 72871); (72874, 72880); (72882, 72883); (72885, 72886);
   (73009, 73014); (73018, 73018); (73020, 73021); (73023, 73029); (73031, 73031); (73104, 73105);
   (73109, 73109); (73111, 73111); (73459, 73460); (78896, 78904); (92912, 92916); (92976, 92982);
   (92992, 92995); (94031, 94031); (94095, 94111); (94176, 94177); (94179, 94180); (110576, 110579);
   (110581, 110587); (110589, 110590); (113821, 113822); (113824, 113827); (118528, 118573); (118576, 118598);
   (119143, 119145); (119155, 119170); (119173, 119179); (119210, 119213); (119362, 119364); (121344, 121398);
   (121403, 121452); (121461, 121461); (121476, 121476); (121499, 121503); (121505, 121519); (122880, 122886);
   (122888, 122904); (122907, 122913); (122915, 122916); (122918, 122922); (123184, 123197); (123566, 123566);
   (123628, 123631); (125136, 125142); (125252, 125259); (127995, 127999); (917505, 917505); (917536, 917631);
   (917760, 917999) ]%N.

(** [c.isspace()] *)
Definition isspace (c : N) : bool := existsb (N.eqb c) whitespace_table.

Definition cased (c : N) : bool := in_ranges cased_table c.
Definition case_ignorable (c : N) : bool := in_ranges case_ignorable_table c.

Fixpoint lstrip_chars (l : list N) : list N :=
  match l with
  | [] => []
  | c :: l' => if isspace c then lstrip_chars l' else l
  end.

Fixpoint rstrip_chars (l : list N) : list N :=
  match l with
  | [] => []
  | c :: l' =>
      match rstrip_chars l' with
      | [] => if isspace c then [] else [c]
      | r => c :: r
      end
  end.

(** [s.strip()] *)
Definition str_strip (s : string) : string :=
  encode (rstrip_chars (lstrip_chars (decode s))).

Fixpoint lowercase_lookup (table : list (N * N * N * N)) (c : N) : N :=
  match table with
  | [] => c
  | (first, last, step, target) :: table' =>
      if (first <=? c)%N && (c <=? last)%N && ((c - first) mod step =? 0)%N
      then (target + (c - first))%N
      else lowercase_lookup table' c
  end.

(** The lower case of one character other than the capital sigma: U+0130
    is the one character with a two-character lower case. *)
Definition lower_char (c : N) : list N :=
  if (c =? 304)%N then [105; 775]%N else [lowercase_lookup lowercase_table c].

Fixpoint skip_case_ignorable (l : list N) : list N :=
  match l with
  | [] => []
  | c :: l' => if case_ignorable c then skip_case_ignorable l' else l
  end.

(** The capital sigma U+03A3 is lowered to the final sigma when a cased
    character comes before it and none comes after it, case-ignorable
    characters in between not counting. *)
Definition final_sigma (before_reversed after : list N) : bool :=
  match skip_case_ignorable before_reversed with
  | [] => false
  | c :: _ =>
      cased c
      && match skip_case_ignorable after with
         | [] => true
         | c' :: _ => negb (cased c')
         end
  end.

Fixpoint lower_chars (before_reversed l : list N) : list N :=
  match l with
  | [] => []
  | c :: l' =>
      (if (c =? 931)%N
       then [if final_sigma before_reversed l' then 962%N else 963%N]
       else lower_char c)
      ++ lower_chars (c :: before_reversed) l'
  end.

(** [s.lower()] *)
Definition str_lower (s : string) : string := encode (lower_chars [] (decode s)).

(** [s.replace(old, new)] for a one-character [old]. *)
Fixpoint str_replace (old : ascii) (new : string) (s : string) : string :=
  match s with
  | EmptyString => EmptyString
  | String c s' =>
      if Ascii.eqb c old then new +:+ str_replace old new s'
      else String c (str_replace old new s')
  end.

(** [needle in hay]: [needle] occurs in [hay] as a contiguous substring. *)
Fixpoint str_in (needle hay : string) : bool :=
  String.prefix needle hay ||
  match hay with
  | EmptyString => false
  | String _ hay' => str_in needle hay'
  end.

(** Truth value of a Python [str]: every string but the empty one. *)
Definition truthy (s : string) : bool := negb (String.eqb s "").

(** ** The phrase tables

    [self.predefined_translations], built once by
    [setup_predefined_translations].  A Python [dict] iterates in insertion
    order and the partial-match scan depends on it, so each table is an
    association list in source order.  No key is repeated. *)

Definition predefined_translations_ui : list (string * list (string * string)) :=
  [ ("English",
     [ ("app_title", "AI Todo App");
       ("app_subtitle", "Intelligent Multilingual Task Management");
       ("add_task", "Add New Task");
       ("task_title", "Task Title");
       ("task_description", "Task Description");
       ("priority", "Priority");
       ("status", "Status");
       ("tags", "Tags (comma-separated)");
       ("create_task", "Create Task");
       ("update_task", "Update Task");
       ("delete_task", "Delete Task");
       ("translate", "Translate");
       ("language", "Language");
       ("filter_by_status", "Filter by Status");
       ("filter_by_priority", "Filter by Priority");
       ("search_tasks", "Search Tasks");
       ("no_tasks_found", "No tasks found. Create your first task!");
       ("translation_cached", "Translation cached");
       ("translation_from_gpt", "Translated with AI");
       ("translation_from_dict", "Quick translation");
       ("api_error", "Translation service unavailable");
       ("all", "All") ]);
    ("Spanish",
     [ ("app_title", "App de Tareas IA");
       ("app_subtitle", "Gestión Inteligente de Tareas Multiidioma");
       ("add_task", "Agregar Nueva Tarea");
       ("task_title", "Título de la Tarea");
       ("task_description", "Descripción de la Tarea");
       ("priority", "Prioridad");
       ("status", "Estado");
       ("tags", "Etiquetas (separadas por comas)");
       ("create_task", "Crear Tarea");
       ("update_task", "Actualizar Tarea");
       ("delete_task", "Eliminar Tarea");
       ("translate", "Traducir");
       ("language", "Idioma");
       ("filter_by_status", "Filtrar por Estado");
       ("filter_by_priority", "Filtrar por Prioridad");
       ("search_tasks", "Buscar Tareas");
       ("no_tasks_found", "¡No se encontraron tareas. Crea tu primera tarea!");
       ("translation_cached", "Traducción almacenada");
       ("translation_from_gpt", "Traducido con IA");
       ("translation_from_dict", "Traducción rápida");
       ("api_error", "Servicio de traducción no disponible");
       ("all", "Todos") ]);
    ("French",
     [ ("app_title", "App Todo IA");
       ("app_subtitle", "Gestion Intelligente de Tâches Multilingue");
       ("add_task", "Ajouter Nouvelle Tâche");
       ("task_title", "Titre de la Tâche");
       ("task_description", "Description de la Tâche");
       ("priority", "Priorité");
       ("status", "Statut");
       ("tags", "Étiquettes (séparées par virgules)");
       ("create_task", "Créer Tâche");
       ("update_task", "Mettre à Jour Tâche");
       ("delete_task", "Supprimer Tâche");
       ("translate", "Traduire");
       ("language", "Langue");
       ("filter_by_status", "Filtrer par Statut");
       ("filter_by_priority", "Filtrer par Priorité");
       ("search_tasks", "Rechercher Tâches");
       ("no_tasks_found", "Aucune tâche trouvée. Créez votre première tâche!");
       ("translation_cached", "Traduction mise en cache");
       ("translation_from_gpt", "Traduit avec IA");
       ("translation_from_dict", "Traduction rapide");
       ("api_error", "Service de traduction indisponible");
       ("all", "Tous") ]);
    ("German",
     [ ("app_title", "KI Todo App");
       ("app_subtitle", "Intelligente Mehrsprachige Aufgabenverwaltung");
       ("add_task", "Neue Aufgabe Hinzufügen");
       ("task_title", "Aufgabentitel");
       ("task_description", "Aufgabenbeschreibung");
       ("priority", "Priorität");
       ("status", "Status");
       ("tags", "Tags (durch Kommas getrennt)");
       ("create_task", "Aufgabe Erstellen");
       ("update_task", "Aufgabe Aktualisieren");
       ("delete_task", "Aufgabe Löschen");
       ("translate", "Übersetzen");
       ("language", "Sprache");
       ("filter_by_status", "Nach Status Filtern");
       ("filter_by_priority", "Nach Priorität Filtern");
       ("search_tasks", "Aufgaben Suchen");
       ("no_tasks_found", "Keine Aufgaben gefunden. Erstellen Sie Ihre erste Aufgabe!");
       ("translation_cached", "Übersetzung zwischengespeichert");
       ("translation_from_gpt", "Mit KI übersetzt");
       ("translation_from_dict", "Schnellübersetzung");
       ("api_error", "Übersetzungsdienst nicht verfügbar");
       ("all", "Alle") ]);
    ("Italian",
     [ ("app_title", "App Todo IA");
       ("app_subtitle", "Gestione Intelligente Attività Multilingue");
       ("add_task", "Aggiungi Nuova Attività");
       ("task_title", "Titolo Attività");
       ("task_description", "Descrizione Attività");
       ("priority", "Priorità");
       ("status", "Stato");
       ("tags", "Tag (separati da virgole)");
       ("create_task", "Crea Attività");
       ("update_task", "Aggiorna Attività");
       ("delete_task", "Elimina Attività");
       ("translate", "Traduci");
       ("language", "Lingua");
       ("filter_by_status", "Filtra per Stato");
       ("filter_by_priority", "Filtra per Priorità");
       ("search_tasks", "Cerca Attività");
       ("no_tasks_found", "Nessuna attività trovata. Crea la tua prima attività!");
       ("translation_cached", "Traduzione memorizzata");
       ("translation_from_gpt", "Tradotto con IA");
       ("translation_from_dict", "Traduzione veloce");
       ("api_error", "Servizio di traduzione non disponibile");
       ("all", "Tutti") ]);
    ("Hindi",
     [ ("app_title", "एआई टूडू ऐप");
       ("app_subtitle", "बुद्धिमान बहुभाषी कार्य प्रबंधन");
       ("add_task", "नया कार्य जोड़ें");
       ("task_title", "कार्य शीर्षक");
       ("task_description", "कार्य विवरण");
       ("priority", "प्राथमिकता");
       ("status", "स्थिति");
       ("tags", "टैग (कॉमा से अलग करें)");
       ("create_task", "कार्य बनाएं");
       ("update_task", "कार्य अपडेट करें");
       ("delete_task", "कार्य हटाएं");
       ("translate", "अनुवाद करें");
       ("language", "भाषा");
       ("filter_by_status", "स्थिति के अनुसार फ़िल्टर करें");
       ("filter_by_priority", "प्राथमिकता के अनुसार फ़िल्टर करें");
       ("search_tasks", "कार्य खोजें");
       ("no_tasks_found", "कोई कार्य नहीं मिला। अपना पहला कार्य बनाएं!");
       ("translation_cached", "अनुवाद संग्रहीत");
       ("translation_from_gpt", "एआई से अनुवादित");
       ("translation_from_dict", "त्वरित अनुवाद");
       ("api_error", "अनुवाद सेवा उपलब्ध नहीं");
       ("all", "सभी") ]) ].

Definition predefined_translations_tasks : list (string * list (string * string)) :=
  [ ("English",
     [ ("buy_groceries", "Buy groceries");
       ("call_doctor", "Call doctor");
       ("finish_project", "Finish project");
       ("pay_bills", "Pay bills");
       ("clean_house", "Clean house");
       ("exercise", "Exercise");
       ("study", "Study");
       ("meeting", "Meeting");
       ("deadline", "Deadline");
       ("urgent", "Urgent");
       ("important", "Important");
       ("work", "Work");
       ("personal", "Personal");
       ("health", "Health");
       ("finance", "Finance");
       ("shopping", "Shopping");
       ("appointment", "Appointment") ]);
    ("Spanish",
     [ ("buy_groceries", "Comprar comestibles");
       ("call_doctor", "Llamar al doctor");
       ("finish_project", "Terminar proyecto");
       ("pay_bills", "Pagar facturas");
       ("clean_house", "Limpiar casa");
       ("exercise", "Hacer ejercicio");
       ("study", "Estudiar");
       ("meeting", "Reunión");
       ("deadline", "Fecha límite");
       ("urgent", "Urgente");
       ("important", "Importante");
       ("work", "Trabajo");
       ("personal", "Personal");
       ("health", "Salud");
       ("finance", "Finanzas");
       ("shopping", "Compras");
       ("appointment", "Cita") ]);
    ("French",
     [ ("buy_groceries", "Acheter des courses");
       ("call_doctor", "Appeler le docteur");
       ("finish_project", "Terminer le projet");
       ("pay_bills", "Payer les factures");
       ("clean_house", "Nettoyer la maison");
       ("exercise", "Faire de l'exercice");
       ("study", "Étudier");
       ("meeting", "Réunion");
       ("deadline", "Date limite");
       ("urgent", "Urgent");
       ("important", "Important");
       ("work", "Travail");
       ("personal", "Personnel");
       ("health", "Santé");
       ("finance", "Finance");
       ("shopping", "Achats");
       ("appointment", "Rendez-vous") ]);
    ("German",
     [ ("buy_groceries", "Lebensmittel kaufen");
       ("call_doctor", "Arzt anrufen");
       ("finish_project", "Projekt beenden");
       ("pay_bills", "Rechnungen bezahlen");
       ("clean_house", "Haus putzen");
       ("exercise", "Sport treiben");
       ("study", "Lernen");
       ("meeting", "Besprechung");
       ("deadline", "Frist");
       ("urgent", "Dringend");
       ("important", "Wichtig");
       ("work", "Arbeit");
       ("personal", "Persönlich");
       ("health", "Gesundheit");
       ("finance", "Finanzen");
       ("shopping", "Einkaufen");
       ("appointment", "Termin") ]);
    ("Italian",
     [ ("buy_groceries", "Comprare generi alimentari");
       ("call_doctor", "Chiamare il dottore");
       ("finish_project", "Finire il progetto");
       ("pay_bills", "Pagare le bollette");
       ("clean_house", "Pulire casa");
       ("exercise", "Fare esercizio");
       ("study", "Studiare");
       ("meeting", "Riunione");
       ("deadline", "Scadenza");
       ("urgent", "Urgente");
       ("important", "Importante");
       ("work", "Lavoro");
       ("personal", "Personale");
       ("health", "Salute");
       ("finance", "Finanza");
       ("shopping", "Shopping");
       ("appointment", "Appuntamento") ]);
    ("Hindi",
     [ ("buy_groceries", "किराना खरीदना");
       ("call_doctor", "डॉक्टर को कॉल करना");
       ("finish_project", "प्रोजेक्ट पूरा करना");
       ("pay_bills", "बिल भुगतान");
       ("clean_house", "घर साफ करना");
       ("exercise", "व्यायाम");
       ("study", "अध्ययन");
       ("meeting", "बैठक");
       ("deadline", "समय सीमा");
       ("urgent", "तत्काल");
       ("important", "महत्वपूर्ण");
       ("work", "काम");
       ("personal", "व्यक्तिगत");
       ("health", "स्वास्थ्य");
       ("finance", "वित्त");
       ("shopping", "खरीदारी");
       ("appointment", "अपॉइंटमेंट") ]) ].
Definition supported_languages : list string :=
  ["English"; "Spanish"; "French"; "German"; "Italian"; "Hindi"].

(** [d.get(k)] on an insertion-ordered dictionary. *)
Fixpoint dict_get {V : Type} (d : list (string * V)) (k : string) : option V :=
  match d with
  | [] => None
  | (k', v) :: d' => if String.eqb k' k then Some v else dict_get d' k
  end.

(** [d.get(k, {})] for a table of tables. *)
Definition dict_get_table (d : list (string * list (string * string))) (k : string)
  : list (string * string) :=
  default [] (dict_get d k).

(** The normalisation chain that opens [translate_text_with_dictionary]:
    [text.lower().strip().replace(' ', '_').replace('.', '').replace(',', '')
     .replace('!', '').replace('?', '')]. *)
Definition normalize (text : string) : string :=
  str_replace "?" ""
    (str_replace "!" ""
      (str_replace "," ""
        (str_replace "." ""
          (str_replace " " "_" (str_strip (str_lower text)))))).

(** The test of the partial-match loop:
    [normalized_text in key or key in normalized_text]. *)
Definition partial_match (normalized_text key : string) : bool :=
  str_in normalized_text key || str_in key normalized_text.

(** The [for key, value in ...items()] loop: the value of the first entry
    that passes the test, [None] when the loop runs out. *)
Fixpoint partial_scan (normalized_text : string) (items : list (string * string))
  : option string :=
  match items with
  | [] => None
  | (key, value) :: items' =>
      if partial_match normalized_text key then Some value
      else partial_scan normalized_text items'
  end.

(** [if x:] for an [Optional[str]]: [None] and the empty string are false. *)
Definition opt_truthy (o : option string) : bool :=
  match o with
  | Some s => truthy s
  | None => false
  end.

Definition translate_text_with_dictionary (text target_language : string)
  : option string :=
  let normalized_text := normalize text in
  let ui_translation :=
    dict_get (dict_get_table predefined_translations_ui target_language) normalized_text in
  if opt_truthy ui_translation then ui_translation
  else
    let task_translation :=
      dict_get (dict_get_table predefined_translations_tasks target_language) normalized_text in
    if opt_truthy task_translation then task_translation
    else partial_scan normalized_text
           (dict_get_table predefined_translations_tasks target_language).

(** ** Decoded JSON and tasks

    What [json.loads] returns.  An object keeps its members in document
    order, a repeated member name already resolved to its last value. *)

#[warnings="-register-all"]
Inductive json : Type :=
| JNull
| JBool (b : bool)
| JInt (n : Z)
| JFloat (literal : string)
| JString (s : string)
| JArray (items : list json)
| JObject (members : list (string * json)).

(** The dataclass [Task].  Its annotations are not enforced at run time, so
    a field holds whatever value the caller passed. *)
Record Task := mkTask {
  id : json;
  title : json;
  description : json;
  priority : json;
  status : json;
  created_at : json;
  tags : json;
  translations : json
}.

(** [Task.__post_init__]: [None] tags become [[]], [None] translations [{}]. *)
Definition post_init (t : Task) : Task :=
  mkTask (id t) (title t) (description t) (priority t) (status t) (created_at t)
    (match tags t with JNull => JArray [] | v => v end)
    (match translations t with JNull => JObject [] | v => v end).

(** ** Exceptions, the model service and the world *)

Inductive exn : Type :=
| KeyError (key : string)
| AttributeError
| TypeError
| IndexError
| JSONDecodeError
| APIError (message : string).

Inductive outcome (A : Type) : Type :=
| Return (a : A)
| Raise (e : exn).
Arguments Return {A} a.
Arguments Raise {A} e.

(** The keyword arguments of [chat.completions.create]. *)
Record chat_request := mkRequest {
  model : string;
  system_content : string;
  user_content : string;
  max_tokens : Z;
  temperature : Q
}.

Record chat_choice := mkChoice { message_content : option string }.
Record chat_response := mkResponse { choices : list chat_choice }.

(** A configured client: the service answers a request, given the requests
    it has already received in this session (most recent first), with a
    response or by raising. *)
Definition OpenAI : Type := list chat_request -> chat_request -> outcome chat_response.

(** The application object: its phrase tables are the constants above, its
    client is [None] when [setup_openai_client] found no usable key. *)
Record AITodoApp := mkApp { openai_client : option OpenAI }.

(** What a run leaves behind besides the session state.  [EvDictionary] and
    [EvGpt] record that the resolver and the model translator were entered;
    the others are the calls to the service and to Streamlit. *)
Inductive event : Type :=
| EvDictionary (text target_language : string)
| EvGpt (text target_language : string)
| EvChatCompletion (request : chat_request)
| EvStError (message : string) (e : exn)
| EvStSuccess (imported_count : Z).

(** [st.session_state] ([tasks], [translation_cache], [api_usage_count]),
    the number of identifiers drawn from [uuid.uuid4] and the events so far,
    most recent first. *)
Record world := mkWorld {
  tasks : list Task;
  translation_cache : gmap string string;
  api_usage_count : Z;
  uuid_drawn : nat;
  trace : list event
}.

Definition set_tasks (ts : list Task) (w : world) : world :=
  mkWorld ts (translation_cache w) (api_usage_count w) (uuid_drawn w) (trace w).
Definition set_translation_cache (c : gmap string string) (w : world) : world :=
  mkWorld (tasks w) c (api_usage_count w) (uuid_drawn w) (trace w).
Definition set_api_usage_count (n : Z) (w : world) : world :=
  mkWorld (tasks w) (translation_cache w) n (uuid_drawn w) (trace w).
Definition set_uuid_drawn (n : nat) (w : world) : world :=
  mkWorld (tasks w) (translation_cache w) (api_usage_count w) n (trace w).
Definition set_trace (t : list event) (w : world) : world :=
  mkWorld (tasks w) (translation_cache w) (api_usage_count w) (uuid_drawn w) t.

(** The state after [init_session_state] on a fresh session. *)
Definition init_session_state : world := mkWorld [] ∅ 0 0%nat [].

(** ** State and exceptions *)

Definition M (A : Type) : Type := world -> outcome A * world.

Definition ret {A} (a : A) : M A := fun w => (Return a, w).
Definition raise {A} (e : exn) : M A := fun w => (Raise e, w).
Definition bind {A B} (m : M A) (k : A -> M B) : M B :=
  fun w =>
    match m w with
    | (Return a, w') => k a w'
    | (Raise e, w') => (Raise e, w')
    end.
(** [try: body except Exception as e: handler]: the state reached when the
    exception was raised is the state the handler starts from. *)
Definition try_except {A} (body : M A) (handler : exn -> M A) : M A :=
  fun w =>
    match body w with
    | (Return a, w') => (Return a, w')
    | (Raise e, w') => handler e w'
    end.
Definition gets {A} (f : world -> A) : M A := fun w => (Return (f w), w).
Definition modify (f : world -> world) : M unit := fun w => (Return tt, f w).
Definition emit (ev : event) : M unit := modify (fun w => set_trace (ev :: trace w) w).
Definition lift {A} (o : outcome A) : M A := fun w => (o, w).

Declare Scope py_scope.
Delimit Scope py_scope with py.
Notation "x <- c ;; k" := (bind c (fun x => k))
  (at level 100, c at next level, right associativity) : py_scope.
Notation "c ;;; k" := (bind c (fun _ => k))
  (at level 100, right associativity) : py_scope.
Local Open Scope py_scope.

(** ** The model translator *)

Fixpoint api_requests (t : list event) : list chat_request :=
  match t with
  | [] => []
  | EvChatCompletion r :: t' => r :: api_requests t'
  | _ :: t' => api_requests t'
  end.

(** [client.chat.completions.create(...)] *)
Definition chat_completions_create (client : OpenAI) (r : chat_request) : M chat_response :=
  history <- gets (fun w => api_requests (trace w)) ;;
  emit (EvChatCompletion r) ;;;
  lift (client history r).

Definition system_prompt (target_language : string) : string :=
  if String.eqb target_language "English" then
    "You are a professional translator. Translate the given text to English. Return only the English translation, no additional text or explanations."
  else
    "You are a professional translator. Translate the given text to " +:+ target_language
    +:+ ". Return only the translation, no additional text or explanations.".

(** The request of [translate_text_with_gpt]: the model name, the system
    and user messages, [max_tokens=150] and [temperature=0.3]. *)
Definition gpt_request (text target_language : string) : chat_request :=
  mkRequest "gpt-4o-mini-2024-07-18" (system_prompt target_language) text 150 (3 # 10).

(** [response.choices[0].message.content.strip()] *)
Definition first_content (response : chat_response) : outcome string :=
  match choices response with
  | [] => Raise IndexError
  | choice :: _ =>
      match message_content choice with
      | None => Raise AttributeError
      | Some content => Return (str_strip content)
      end
  end.

Definition translate_text_with_gpt (self : AITodoApp) (text target_language : string)
  : M string :=
  emit (EvGpt text target_language) ;;;
  match openai_client self with
  | None => ret ("[Mock AI Translation to " +:+ target_language +:+ "] " +:+ text)
  | Some client =>
      try_except
        (response <- chat_completions_create client (gpt_request text target_language) ;;
         modify (fun w => set_api_usage_count (api_usage_count w + 1) w) ;;;
         lift (first_content response))
        (fun e => emit (EvStError "GPT Translation Error: " e) ;;; ret text)
  end.

(** ** The orchestrator *)

(** The f-string [f"{text}_{target_language}_{context}"]. *)
Definition cache_key (text target_language context : string) : string :=
  text +:+ "_" +:+ target_language +:+ "_" +:+ context.

Definition translate_text (self : AITodoApp) (text target_language context : string)
  : M (string * string) :=
  if negb (truthy (str_strip text)) then ret (text, "original")
  else
    let key := cache_key text target_language context in
    cache <- gets translation_cache ;;
    match cache !! key with
    | Some cached => ret (cached, "cached")
    | None =>
        emit (EvDictionary text target_language) ;;;
        let gpt_fallback :=
          (gpt_translation <- translate_text_with_gpt self text target_language ;;
           modify (fun w =>
                     set_translation_cache
                       (<[key := gpt_translation]> (translation_cache w)) w) ;;;
           ret (gpt_translation, "gpt")) in
        match translate_text_with_dictionary text target_language with
        | Some dict_translation =>
            if truthy dict_translation && negb (String.eqb dict_translation text) then
              modify (fun w =>
                        set_translation_cache
                          (<[key := dict_translation]> (translation_cache w)) w) ;;;
              ret (dict_translation, "dictionary")
            else gpt_fallback
        | None => gpt_fallback
        end
    end.

(** ** Importing tasks *)

(** [for task_data in tasks_data]: what the loop iterates over, or the
    [TypeError] of a value that is not iterable.  A [dict] yields its keys,
    a [str] its characters. *)
Definition py_iter (tasks_data : json) : outcome (list json) :=
  match tasks_data with
  | JArray items => Return items
  | JObject members => Return (map (fun kv => JString (fst kv)) members)
  | JString s => Return (map (fun c => JString (encode_char c)) (decode s))
  | _ => Raise TypeError
  end.

(** The attribute [task_data.get]: only a [dict] has it. *)
Definition py_get_method (task_data : json) : outcome (string -> json -> json) :=
  match task_data with
  | JObject members => Return (fun k dflt => default dflt (dict_get members k))
  | _ => Raise AttributeError
  end.

(** The subscript [task_data[k]] for a string [k]. *)
Definition py_getitem (task_data : json) (k : string) : outcome json :=
  match task_data with
  | JObject members =>
      match dict_get members k with
      | Some v => Return v
      | None => Raise (KeyError k)
      end
  | _ => Raise TypeError
  end.

Section ImportTasks.

(** [json.loads] and [uuid.uuid4] belong to the Python library: the
    decoder is any function from texts to a value or an exception, and
    [uuid4 n] is the text of the [n]-th identifier drawn in the session. *)
Variable json_loads : string -> outcome json.
Variable uuid4 : nat -> string.

Definition draw_uuid : M string :=
  n <- gets uuid_drawn ;;
  modify (set_uuid_drawn (S n)) ;;;
  ret (uuid4 n).

(** The [Task(...)] expression of the loop body, its keyword arguments
    evaluated left to right: the default of [get('id', ...)] is drawn
    whether or not the record has an [id]. *)
Definition build_task (task_data : json) : M Task :=
  get <- lift (py_get_method task_data) ;;
  fresh <- draw_uuid ;;
  let id := get "id" (JString fresh) in
  title <- lift (py_getitem task_data "title") ;;
  description <- lift (py_getitem task_data "description") ;;
  priority <- lift (py_getitem task_data "priority") ;;
  status <- lift (py_getitem task_data "status") ;;
  created_at <- lift (py_getitem task_data "created_at") ;;
  get' <- lift (py_get_method task_data) ;;
  let tags := get' "tags" (JArray []) in
  let translations := get' "translations" (JObject []) in
  ret (post_init (mkTask id title description priority status created_at tags translations)).

Fixpoint import_loop (tasks_data : list json) (imported_count : Z) : M Z :=
  match tasks_data with
  | [] => ret imported_count
  | task_data :: rest =>
      task <- build_task task_data ;;
      modify (fun w => set_tasks (tasks w ++ [task]) w) ;;;
      import_loop rest (imported_count + 1)
  end.

(** [st.success] shows [f"Successfully imported {imported_count} tasks!"],
    recorded as [EvStSuccess imported_count]. *)
Definition import_tasks_json (json_data : string) : M bool :=
  try_except
    (tasks_data <- lift (json_loads json_data) ;;
     items <- lift (py_iter tasks_data) ;;
     imported_count <- import_loop items 0 ;;
     emit (EvStSuccess imported_count) ;;;
     ret true)
    (fun e => emit (EvStError "❌ Import failed: " e) ;;; ret false).

End ImportTasks.

(** ** Vocabulary of the statements *)

(** How often the dictionary resolver, the model translator and the service
    were entered, read off a trace. *)
Fixpoint dictionary_runs (t : list event) : nat :=
  match t with
  | [] => 0
  | EvDictionary _ _ :: t' => S (dictionary_runs t')
  | _ :: t' => dictionary_runs t'
  end.

Fixpoint gpt_runs (t : list event) : nat :=
  match t with
  | [] => 0
  | EvGpt _ _ :: t' => S (gpt_runs t')
  | _ :: t' => gpt_runs t'
  end.

(** A session without a usable key, and two configured clients: one whose
    every call raises, one that always answers with a fixed text. *)
Definition offline : AITodoApp := mkApp None.
Definition failing_client : OpenAI := fun _ _ => Raise (APIError "connection error").
Definition answering_client (answer : string) : OpenAI :=
  fun _ _ => Return (mkResponse [mkChoice (Some answer)]).

(** The entry an exact match finds: the UI-label table is asked first, the
    task-phrase table second. *)
Definition exact_entry (target_language key : string) : option string :=
  match dict_get (dict_get_table predefined_translations_ui target_language) key with
  | Some v => Some v
  | None => dict_get (dict_get_table predefined_translations_tasks target_language) key
  end.

(** Every value of a table of tables is a non-empty string; no key is empty. *)
Definition values_truthy (tables : list (string * list (string * string))) : bool :=
  forallb (fun lt => forallb (fun kv => truthy (snd kv)) (snd lt)) tables.
Definition keys_truthy (tables : list (string * list (string * string))) : bool :=
  forallb (fun lt => forallb (fun kv => truthy (fst kv)) (snd lt)) tables.

(** A session goes on: the world after a sequence of further
    [translate_text] calls, each given as (text, language, context). *)
Fixpoint run_translations (self : AITodoApp) (calls : list (string * string * string))
    (w : world) : world :=
  match calls with
  | [] => w
  | (text, target_language, context) :: calls' =>
      run_translations self calls' (snd (translate_text self text target_language context w))
  end.

(** The scenario of the specification, run in a fresh session without a key. *)
Definition quantum_offline_run : outcome (string * string) * world :=
  translate_text offline "Quantum flux capacitor repair" "Spanish" "title" init_session_state.

(** What the chain of replacements does to one character of the trimmed,
    lower-cased text: a space becomes an underscore, the four punctuation
    marks disappear, anything else stays. *)
Definition normalize_char (c : ascii) : string :=
  if Ascii.eqb c " " then "_"
  else if Ascii.eqb c "." || Ascii.eqb c "," || Ascii.eqb c "!" || Ascii.eqb c "?" then ""
  else String c "".

Fixpoint str_flat_map (f : ascii -> string) (s : string) : string :=
  match s with
  | EmptyString => EmptyString
  | String c s' => f c +:+ str_flat_map f s'
  end.

Fixpoint count_char (c : ascii) (s : string) : nat :=
  match s with
  | EmptyString => 0
  | String c' s' => (if Ascii.eqb c' c then 1 else 0) + count_char c s'
  end.

Fixpoint str_forall (p : ascii -> bool) (s : string) : bool :=
  match s with
  | EmptyString => true
  | String c s' => p c && str_forall p s'
  end.

(** A byte a key may hold: no space and none of the four punctuation marks. *)
Definition key_char (c : ascii) : bool :=
  negb (Ascii.eqb c " " || Ascii.eqb c "." || Ascii.eqb c "," || Ascii.eqb c "!"
        || Ascii.eqb c "?").

(** A text of blanks only, and a text with no blank at either end. *)
Definition blank (l : list N) : Prop := Forall (fun c => isspace c = true) l.

Definition trimmed (l : list N) : Prop :=
  (forall c r, l = c :: r -> isspace c = false)
  /\ (forall r c, l = r ++ [c] -> isspace c = false).

(** A text of ASCII characters only, and the lower case of such a text:
    the letters [A] to [Z] become [a] to [z]. *)
Definition ascii_text (s : string) : bool :=
  str_forall (fun c => (N_of_ascii c <? 128)%N) s.

Definition ascii_lower (c : ascii) : ascii :=
  let n := N_of_ascii c in
  if (65 <=? n)%N && (n <=? 90)%N then ascii_of_N (n + 32) else c.

Fixpoint str_map (f : ascii -> ascii) (s : string) : string :=
  match s with
  | EmptyString => EmptyString
  | String c s' => String (f c) (str_map f s')
  end.

(** [needle] occurs in [hay]: some text before it and some text after it
    make up [hay]. *)
Definition occurs (needle hay : string) : Prop :=
  exists before after, hay = before +:+ needle +:+ after.

(** Characters outside ASCII for the examples: the no-break space U+00A0,
    the Kelvin sign U+212A, whose lower case is the letter [k], and the
    capital I with a dot U+0130. *)
Definition no_break_space : string := String "194" (String "160" "").
Definition kelvin_sign : string := String "226" (String "132" (String "170" "")).
Definition capital_i_with_dot : string := String "196" (String "176" "").

(** The fields [import_tasks_json] reads with a subscript. *)
Definition required_fields : list string :=
  ["title"; "description"; "priority"; "status"; "created_at"].

Definition has_field (members : list (string * json)) (k : string) : bool :=
  match dict_get members k with
  | Some _ => true
  | None => false
  end.

(** A record with every required field, and a record (an object) that
    lacks at least one of them. *)
Definition complete_record (v : json) : bool :=
  match v with
  | JObject members => forallb (has_field members) required_fields
  | _ => false
  end.

Definition lacks_field (v : json) : bool :=
  match v with
  | JObject members => negb (forallb (has_field members) required_fields)
  | _ => false
  end.

(** The task a complete record stands for, given the identifier drawn for
    it: its own [id] when it has one, absent tags and translations empty. *)
Definition task_of_record (fresh : string) (v : json) : Task :=
  let members := match v with JObject members => members | _ => [] end in
  post_init
    (mkTask (default (JString fresh) (dict_get members "id"))
       (default JNull (dict_get members "title"))
       (default JNull (dict_get members "description"))
       (default JNull (dict_get members "priority"))
       (default JNull (dict_get members "status"))
       (default JNull (dict_get members "created_at"))
       (default (JArray []) (dict_get members "tags"))
       (default (JObject []) (dict_get members "translations"))).

Fixpoint tasks_of_records (uuid4 : nat -> string) (n : nat) (records : list json)
  : list Task :=
  match records with
  | [] => []
  | r :: records' => task_of_record (uuid4 n) r :: tasks_of_records uuid4 (S n) records'
  end.

(** The two ways a batch fails in the sense of the specification: the
    decoder raises, nothing kept; or the decoded array has a first record
    that lacks a required field, the complete records before it kept. *)
Inductive failing_batch : list json -> outcome json -> Prop :=
| batch_malformed e :
    failing_batch [] (Raise e)
| batch_defective good bad rest :
    forallb complete_record good = true ->
    lacks_field bad = true ->
    failing_batch good (Return (JArray (good ++ bad :: rest))).

(** A JSON text written with apostrophes for its double quotes. *)
Definition json_text (s : string) : string := str_replace "'" (String "034" "") s.

(** A batch of two records, the second without [status], and its decoding. *)
Definition partial_batch_text : string :=
  json_text
    "[{'id': 't1', 'title': 'Buy milk', 'description': '', 'priority': 'High', 'status': 'Todo', 'created_at': '2024-01-01T09:00:00'}, {'id': 't2', 'title': 'Call doctor', 'description': '', 'priority': 'Low', 'created_at': '2024-01-02T09:00:00'}]".

Definition partial_batch_first : json :=
  JObject [("id", JString "t1"); ("title", JString "Buy milk"); ("description", JString "");
           ("priority", JString "High"); ("status", JString "Todo");
           ("created_at", JString "2024-01-01T09:00:00")].

Definition partial_batch_second : json :=
  JObject [("id", JString "t2"); ("title", JString "Call doctor"); ("description", JString "");
           ("priority", JString "Low"); ("created_at", JString "2024-01-02T09:00:00")].

(** [json.loads] on the text of the example; any other text plays no role
    below and is reported as malformed. *)
Definition example_loads (s : string) : outcome json :=
  if String.eqb s partial_batch_text
  then Return (JArray [partial_batch_first; partial_batch_second])
  else Raise JSONDecodeError.

Definition example_uuid4 (n : nat) : string := "123e4567-e89b-42d3-a456-426614174000".

(** Importing the example batch into a fresh session. *)
Definition partial_import_run : outcome bool * world :=
  import_tasks_json example_loads example_uuid4 partial_batch_text init_session_state.

(** The guard of the dictionary step in [translate_text]:
    [dict_translation and dict_translation != text]. *)
Definition dictionary_hit (dict_translation : option string) (text : string) : bool :=
  match dict_translation with
  | Some v => truthy v && negb (String.eqb v text)
  | None => false
  end.

(** ** The rest of the translation surface *)

(** [get_ui_text(key, language)]; [selected_language] stands for
    [st.session_state.selected_language], read when [language] is [None]. *)
Definition get_ui_text (key : string) (language : option string)
    (selected_language : string) : string :=
  let language := default selected_language language in
  default key (dict_get (dict_get_table predefined_translations_ui language) key).

(** The assignment [st.session_state.translation_cache = {}] behind the
    "Clear Translation Cache" button of [render_statistics]. *)
Definition clear_translation_cache (w : world) : world :=
  set_translation_cache ∅ w.

(** The scenario's call against a service that fails, and the same call
    again once the cache has been cleared. *)
Definition quantum_failed_run : outcome (string * string) * world :=
  translate_text (mkApp (Some failing_client)) "Quantum flux capacitor repair" "Spanish"
    "title" init_session_state.

Definition quantum_retry_run : outcome (string * string) * world :=
  translate_text (mkApp (Some failing_client)) "Quantum flux capacitor repair" "Spanish"
    "title" (clear_translation_cache (snd quantum_failed_run)).

(** The source tags [translate_text] can return. *)
Definition source_tags : list string := ["original"; "cached"; "dictionary"; "gpt"].

(** ** Exporting tasks *)

(** [dataclasses.asdict(task)]: the fields in declaration order. *)
Definition asdict (t : Task) : json :=
  JObject [("id", id t); ("title", title t); ("description", description t);
           ("priority", priority t); ("status", status t); ("created_at", created_at t);
           ("tags", tags t); ("translations", translations t)].

Section ExportTasks.

(** [json.dumps(..., indent=2, ensure_ascii=False)], a function of the
    Python library. *)
Variable json_dumps : json -> string.

Definition export_tasks_json : M string :=
  ts <- gets tasks ;;
  ret (json_dumps (JArray (map asdict ts))).

End ExportTasks.

(** A decoded document over which the import loop runs zero times although
    it is no array: the empty object and the empty string. *)
Definition empty_container (v : json) : bool :=
  match v with
  | JObject [] => true
  | JString EmptyString => true
  | _ => false
  end.

Definition is_array (v : json) : bool :=
  match v with
  | JArray _ => true
  | _ => false
  end.

(** A task as [__post_init__] leaves it: tags and translations are not [None]. *)
Definition initialised (t : Task) : Prop :=
  tags t <> JNull /\ translations t <> JNull.

(** A session holding one task, and a codec pair for its export. *)
Definition one_task_session : world :=
  mkWorld
    [mkTask (JString "t1") (JString "Buy milk") (JString "") (JString "High")
       (JString "Todo") (JString "2024-01-01T09:00:00") (JArray [JString "food"])
       (JObject [])]
    ∅ 0 0%nat [].

Definition one_task_dumps (v : json) : string := "one-task-export".

Definition one_task_loads (s : string) : outcome json :=
  if String.eqb s "one-task-export"
  then Return (JArray (map asdict (tasks one_task_session)))
  else Raise JSONDecodeError.

(** ** The task store and the rest of the session

    The functions below also show Streamlit notices and read the clock, so
    they run on a [session]: the [world] of the translation functions, the
    notices shown so far (most recent first), the number of clock readings
    and the flag [st.session_state.api_key_warning_shown]. *)

Inductive notice : Type :=
| st_success (message : string)
| st_info (message : string)
| st_warning (message : string) (e : exn)
| st_error (message : string) (e : exn).

Record session := mkSession {
  state : world;
  notices : list notice;
  now_drawn : nat;
  api_key_warning_shown : bool
}.

Definition set_state (w : world) (s : session) : session :=
  mkSession w (notices s) (now_drawn s) (api_key_warning_shown s).
Definition set_notices (n : list notice) (s : session) : session :=
  mkSession (state s) n (now_drawn s) (api_key_warning_shown s).
Definition set_now_drawn (n : nat) (s : session) : session :=
  mkSession (state s) (notices s) n (api_key_warning_shown s).
Definition set_api_key_warning_shown (b : bool) (s : session) : session :=
  mkSession (state s) (notices s) (now_drawn s) b.

Definition App (A : Type) : Type := session -> outcome A * session.

Definition app_ret {A} (a : A) : App A := fun s => (Return a, s).
Definition app_bind {A B} (m : App A) (k : A -> App B) : App B :=
  fun s =>
    match m s with
    | (Return a, s') => k a s'
    | (Raise e, s') => (Raise e, s')
    end.
Definition app_gets {A} (f : session -> A) : App A := fun s => (Return (f s), s).
Definition app_modify (f : session -> session) : App unit := fun s => (Return tt, f s).
Definition app_lift {A} (o : outcome A) : App A := fun s => (o, s).
Definition notify (n : notice) : App unit :=
  app_modify (fun s => set_notices (n :: notices s) s).
Definition set_session_tasks (ts : list Task) : App unit :=
  app_modify (fun s => set_state (set_tasks ts (state s)) s).

Declare Scope app_scope.
Delimit Scope app_scope with app.
Notation "x <- c ;; k" := (app_bind c (fun x => k))
  (at level 100, c at next level, right associativity) : app_scope.
Notation "c ;;; k" := (app_bind c (fun _ => k))
  (at level 100, right associativity) : app_scope.

(** The values of the enumerations [Priority] and [Status]. *)
Definition Priority_LOW : string := "🟢 Low".
Definition Priority_MEDIUM : string := "🟡 Medium".
Definition Priority_HIGH : string := "🔴 High".
Definition Status_TODO : string := "📝 Todo".
Definition Status_IN_PROGRESS : string := "⏳ In Progress".
Definition Status_COMPLETED : string := "✅ Completed".

(** [v == s] and [v != s] for a decoded value [v] and a [str] [s]: only a
    string with the same characters equals a string. *)
Definition json_eq_str (v : json) (s : string) : bool :=
  match v with
  | JString x => String.eqb x s
  | _ => false
  end.

(** The names of the fields of [Task], the keyword names [update_task] is
    modelled for, and [setattr] on them. *)
Inductive task_field : Type :=
| f_id | f_title | f_description | f_priority | f_status | f_created_at | f_tags
| f_translations.

Definition setattr (t : Task) (f : task_field) (v : json) : Task :=
  match f with
  | f_id => mkTask v (title t) (description t) (priority t) (status t) (created_at t)
              (tags t) (translations t)
  | f_title => mkTask (id t) v (description t) (priority t) (status t) (created_at t)
                 (tags t) (translations t)
  | f_description => mkTask (id t) (title t) v (priority t) (status t) (created_at t)
                       (tags t) (translations t)
  | f_priority => mkTask (id t) (title t) (description t) v (status t) (created_at t)
                    (tags t) (translations t)
  | f_status => mkTask (id t) (title t) (description t) (priority t) v (created_at t)
                  (tags t) (translations t)
  | f_created_at => mkTask (id t) (title t) (description t) (priority t) (status t) v
                      (tags t) (translations t)
  | f_tags => mkTask (id t) (title t) (description t) (priority t) (status t)
                (created_at t) v (translations t)
  | f_translations => mkTask (id t) (title t) (description t) (priority t) (status t)
                        (created_at t) (tags t) v
  end.

Section TaskStore.

Local Open Scope app_scope.

(** [uuid.uuid4] as before, and [datetime.datetime.now().isoformat()] at the
    [n]-th reading of the clock. *)
Variable uuid4 : nat -> string.
Variable now_isoformat : nat -> string.

Definition app_draw_uuid : App string :=
  n <- app_gets (fun s => uuid_drawn (state s)) ;;
  app_modify (fun s => set_state (set_uuid_drawn (S n) (state s)) s) ;;;
  app_ret (uuid4 n).

Definition app_now : App string :=
  n <- app_gets now_drawn ;;
  app_modify (set_now_drawn (S n)) ;;;
  app_ret (now_isoformat n).

(** [create_task(title, description, priority, tags)]; [tags or []] turns
    [None] into the empty list, and the omitted [translations] is set by
    [__post_init__]. *)
Definition create_task (title description priority : string) (tags : option (list string))
  : App unit :=
  fresh <- app_draw_uuid ;;
  created <- app_now ;;
  let task :=
    post_init
      (mkTask (JString fresh) (JString title) (JString description) (JString priority)
         (JString Status_TODO) (JString created)
         (JArray (map JString (default [] tags))) JNull) in
  ts <- app_gets (fun s => tasks (state s)) ;;
  set_session_tasks (ts ++ [task]) ;;;
  notify (st_success "✅ Task created successfully!").

(** The loop of [update_task]: the first task with the identifier gets the
    keyword values, the others are not looked at.  The list is taken to
    hold distinct objects, as [create_task] and [import_tasks_json] build it. *)
Fixpoint update_first (task_id : string) (kwargs : list (task_field * json))
    (ts : list Task) : list Task :=
  match ts with
  | [] => []
  | task :: ts' =>
      if json_eq_str (id task) task_id then
        fold_left (fun t kv => setattr t (fst kv) (snd kv)) kwargs task :: ts'
      else task :: update_first task_id kwargs ts'
  end.

Definition update_task (task_id : string) (kwargs : list (task_field * json)) : App unit :=
  ts <- app_gets (fun s => tasks (state s)) ;;
  set_session_tasks (update_first task_id kwargs ts).

Definition delete_task (task_id : string) : App unit :=
  ts <- app_gets (fun s => tasks (state s)) ;;
  set_session_tasks (List.filter (fun task => negb (json_eq_str (id task) task_id)) ts) ;;;
  notify (st_success "🗑️ Task deleted successfully!").

End TaskStore.

(** ** Filtering *)

(** [x.lower()] on a field: anything but a string has no such method. *)
Definition py_lower (v : json) : outcome string :=
  match v with
  | JString s => Return (str_lower s)
  | _ => Raise AttributeError
  end.

(** [any(search_lower in tag.lower() for tag in ...)], left to right, stopping
    at the first match. *)
Fixpoint any_tag_matches (search_lower : string) (items : list json) : outcome bool :=
  match items with
  | [] => Return false
  | tag :: items' =>
      match py_lower tag with
      | Raise e => Raise e
      | Return lowered =>
          if str_in search_lower lowered then Return true
          else any_tag_matches search_lower items'
      end
  end.

(** The condition of the search comprehension, its [or] short-circuiting. *)
Definition search_condition (search_lower : string) (task : Task) : outcome bool :=
  match py_lower (title task) with
  | Raise e => Raise e
  | Return lowered_title =>
      if str_in search_lower lowered_title then Return true
      else
        match py_lower (description task) with
        | Raise e => Raise e
        | Return lowered_description =>
            if str_in search_lower lowered_description then Return true
            else
              match py_iter (tags task) with
              | Raise e => Raise e
              | Return items => any_tag_matches search_lower items
              end
        end
  end.

(** A list comprehension [[x for x in l if cond(x)]] whose condition may raise. *)
Fixpoint comprehension {A} (cond : A -> outcome bool) (l : list A) : outcome (list A) :=
  match l with
  | [] => Return []
  | x :: l' =>
      match cond x with
      | Raise e => Raise e
      | Return keep =>
          match comprehension cond l' with
          | Raise e => Raise e
          | Return rest => Return (if keep then x :: rest else rest)
          end
      end
  end.

Definition get_filtered_tasks (search_query status_filter priority_filter : string)
  : App (list Task) :=
  (ts <- app_gets (fun s => tasks (state s)) ;;
   ts <- (if truthy search_query
          then app_lift (comprehension (search_condition (str_lower search_query)) ts)
          else app_ret ts) ;;
   let ts := if negb (String.eqb status_filter "All")
             then List.filter (fun task => json_eq_str (status task) status_filter) ts
             else ts in
   let ts := if negb (String.eqb priority_filter "All")
             then List.filter (fun task => json_eq_str (priority task) priority_filter) ts
             else ts in
   app_ret ts)%app.

(** The first option of the status and priority select boxes of
    [render_task_filters], the one selected when the page opens. *)
Definition all_option (selected_language : string) : string :=
  get_ui_text "all" None selected_language.

(** The filter step of [run] ("Manage Tasks"): the localised label of the
    first option is turned back into "All" before [get_filtered_tasks] is
    called with the choices of the filter bar. *)
Definition manage_tasks_filter (selected_language : string)
    (search_query status_filter priority_filter : string) : App (list Task) :=
  let status_filter :=
    if String.eqb status_filter (get_ui_text "all" None selected_language)
    then "All" else status_filter in
  let priority_filter :=
    if String.eqb priority_filter (get_ui_text "all" None selected_language)
    then "All" else priority_filter in
  get_filtered_tasks search_query status_filter priority_filter.

(** A task as [create_task] builds it: string title and description, a
    list of strings for tags. *)
Definition is_string (v : json) : bool :=
  match v with
  | JString _ => true
  | _ => false
  end.

Definition string_of (v : json) : string :=
  match v with
  | JString s => s
  | _ => EmptyString
  end.

Definition well_typed (t : Task) : bool :=
  is_string (title t) && is_string (description t)
  && match tags t with
     | JArray items => forallb is_string items
     | _ => false
     end.

(** The three filters as one predicate on a well-typed task. *)
Definition search_ok (search_query : string) (t : Task) : bool :=
  negb (truthy search_query)
  || str_in (str_lower search_query) (str_lower (string_of (title t)))
  || str_in (str_lower search_query) (str_lower (string_of (description t)))
  || match tags t with
     | JArray items =>
         existsb (fun tag => str_in (str_lower search_query) (str_lower (string_of tag)))
           items
     | _ => false
     end.

Definition status_ok (status_filter : string) (t : Task) : bool :=
  String.eqb status_filter "All" || json_eq_str (status t) status_filter.

Definition priority_ok (priority_filter : string) (t : Task) : bool :=
  String.eqb priority_filter "All" || json_eq_str (priority t) priority_filter.

(** The search in words: no query, or the lower-cased query occurs in the
    lower-cased title, description or one of the tags. *)
Definition search_hit (search_query : string) (t : Task) : Prop :=
  search_query = ""
  \/ occurs (str_lower search_query) (str_lower (string_of (title t)))
  \/ occurs (str_lower search_query) (str_lower (string_of (description t)))
  \/ exists tag,
      match tags t with JArray items => In tag items | _ => False end
      /\ occurs (str_lower search_query) (str_lower (string_of tag)).

Definition status_values : list json :=
  [JString Status_TODO; JString Status_IN_PROGRESS; JString Status_COMPLETED].

(** A session around a world, nothing shown yet. *)
Definition session_of (w : world) : session := mkSession w [] 0 false.

Definition example_now (n : nat) : string := "2024-01-01T09:00:00".

(** ** Setting up the client *)

(** What [OpenAI(api_key=...)] gives: the answer of the connection test
    [client.models.list()] and the chat service of the client. *)
Record openai_handle := mkHandle {
  models_list : outcome unit;
  chat : OpenAI
}.

(** What [setup_openai_client] finds around it: whether the import of the
    library succeeded, the value of the environment variable
    [OPENAI_API_KEY], and the constructor of the library. *)
Record environment := mkEnvironment {
  OPENAI_AVAILABLE : bool;
  OPENAI_API_KEY : option string;
  OpenAI_new : string -> outcome openai_handle
}.

(** The hint of the branch [elif not api_key], shown once per session. *)
Definition api_key_hint : App unit :=
  (shown <- app_gets api_key_warning_shown ;;
   if shown then app_ret tt
   else
     notify (st_info "💡 Add OPENAI_API_KEY to environment variables for AI translations.") ;;;
     app_modify (set_api_key_warning_shown true))%app.

(** [setup_openai_client]; the result is the value [self.openai_client] is
    left with. *)
Definition setup_openai_client (env : environment) : App (option OpenAI) :=
  (if negb (OPENAI_AVAILABLE env) then app_ret None
   else
     match OPENAI_API_KEY env with
     | Some api_key =>
         if truthy api_key && String.prefix "sk-" api_key then
           match OpenAI_new env api_key with
           | Return handle =>
               match models_list handle with
               | Return _ => app_ret (Some (chat handle))
               | Raise test_error =>
                   notify (st_warning "⚠️ OpenAI API test failed: " test_error) ;;;
                   app_ret None
               end
           | Raise e =>
               notify (st_error "OpenAI client initialization failed: " e) ;;;
               app_ret None
           end
         else if negb (truthy api_key) then api_key_hint ;;; app_ret None
         else app_ret None
     | None => api_key_hint ;;; app_ret None
     end)%app.

(** A working installation, for the examples. *)
Definition working_environment (api_key : option string) : environment :=
  mkEnvironment true api_key
    (fun _ => Return (mkHandle (Return tt) (answering_client "ok"))).

(** ** The order of the task cards

    [render_tasks_list] renders the cards in the order of
    [sorted(filtered_tasks, key=lambda t: (status_order.get(t.status, 3),
    priority_order.get(t.priority, 3)))]. *)

Definition priority_order : list (string * nat) :=
  [(Priority_HIGH, 0%nat); (Priority_MEDIUM, 1%nat); (Priority_LOW, 2%nat)].

Definition status_order : list (string * nat) :=
  [(Status_TODO, 0%nat); (Status_IN_PROGRESS, 1%nat); (Status_COMPLETED, 2%nat)].

(** [d.get(v, 3)] on a dictionary with string keys: a list or a dictionary
    cannot be hashed, any other value that is no key gets the default. *)
Definition order_get (d : list (string * nat)) (v : json) : outcome nat :=
  match v with
  | JString s => Return (default 3%nat (dict_get d s))
  | JArray _ => Raise TypeError
  | JObject _ => Raise TypeError
  | _ => Return 3%nat
  end.

Definition sort_key (t : Task) : outcome (nat * nat) :=
  match order_get status_order (status t) with
  | Raise e => Raise e
  | Return s =>
      match order_get priority_order (priority t) with
      | Raise e => Raise e
      | Return p => Return (s, p)
      end
  end.

(** [sorted] computes the key of every element first, in order. *)
Fixpoint decorate (l : list Task) : outcome (list ((nat * nat) * Task)) :=
  match l with
  | [] => Return []
  | t :: l' =>
      match sort_key t with
      | Raise e => Raise e
      | Return k =>
          match decorate l' with
          | Raise e => Raise e
          | Return rest => Return ((k, t) :: rest)
          end
      end
  end.

(** The order of Python tuples of two integers. *)
Definition key_le (a b : nat * nat) : bool :=
  (fst a <? fst b)%nat || ((fst a =? fst b)%nat && (snd a <=? snd b)%nat).

(** [sorted] is stable; a stable sort by insertion, each element put before
    the first element of the sorted rest whose key is not smaller. *)
Fixpoint insert_keyed (x : (nat * nat) * Task) (l : list ((nat * nat) * Task))
  : list ((nat * nat) * Task) :=
  match l with
  | [] => [x]
  | y :: l' => if key_le (fst x) (fst y) then x :: y :: l' else y :: insert_keyed x l'
  end.

Definition stable_sort (l : list ((nat * nat) * Task)) : list ((nat * nat) * Task) :=
  fold_right insert_keyed [] l.

Definition sorted_tasks (filtered_tasks : list Task) : outcome (list Task) :=
  match decorate filtered_tasks with
  | Raise e => Raise e
  | Return keyed => Return (map snd (stable_sort keyed))
  end.

(** The key of a task whose status and priority can be hashed. *)
Definition hashable (v : json) : bool :=
  match v with
  | JArray _ => false
  | JObject _ => false
  | _ => true
  end.

Definition rank (d : list (string * nat)) (v : json) : nat :=
  match v with
  | JString s => default 3%nat (dict_get d s)
  | _ => 3%nat
  end.

Definition task_key (t : Task) : nat * nat :=
  (rank status_order (status t), rank priority_order (priority t)).

Definition key_eqb (a b : nat * nat) : bool :=
  (fst a =? fst b)%nat && (snd a =? snd b)%nat.

(** ** The model translator, case by case *)

Lemma gpt_unconfigured self text lang w :
  openai_client self = None ->
  translate_text_with_gpt self text lang w
  = (Return ("[Mock AI Translation to " +:+ lang +:+ "] " +:+ text),
     set_trace (EvGpt text lang :: trace w) w).
Proof.
  intros Hc. unfold translate_text_with_gpt. rewrite Hc. reflexivity.
Qed.

Lemma gpt_call_raises self client text lang w e :
  openai_client self = Some client ->
  client (api_requests (trace w)) (gpt_request text lang) = Raise e ->
  translate_text_with_gpt self text lang w
  = (Return text,
     set_trace (EvStError "GPT Translation Error: " e
                :: EvChatCompletion (gpt_request text lang)
                :: EvGpt text lang :: trace w) w).
Proof.
  intros Hc He. unfold translate_text_with_gpt. rewrite Hc.
  unfold try_except, bind, chat_completions_create, bind, gets, emit, modify, lift.
  simpl. rewrite He. reflexivity.
Qed.

Lemma gpt_call_answers self client text lang w response :
  openai_client self = Some client ->
  client (api_requests (trace w)) (gpt_request text lang) = Return response ->
  translate_text_with_gpt self text lang w
  = match first_content response with
    | Return translated =>
        (Return translated,
         set_api_usage_count (api_usage_count w + 1)
           (set_trace (EvChatCompletion (gpt_request text lang)
                       :: EvGpt text lang :: trace w) w))
    | Raise e =>
        (Return text,
         set_api_usage_count (api_usage_count w + 1)
           (set_trace (EvStError "GPT Translation Error: " e
                       :: EvChatCompletion (gpt_request text lang)
                       :: EvGpt text lang :: trace w) w))
    end.
Proof.
  intros Hc He. unfold translate_text_with_gpt. rewrite Hc.
  unfold try_except, bind, chat_completions_create, bind, gets, emit, modify, lift.
  simpl. rewrite He.
  destruct (first_content response); reflexivity.
Qed.

(** Whatever the client does, the model translator returns a text, enters
    itself once, never the resolver, and touches neither the tasks nor the
    cache; the counter stays or goes up by one. *)
Lemma gpt_frame self text lang w :
  exists translated w',
    translate_text_with_gpt self text lang w = (Return translated, w')
    /\ tasks w' = tasks w
    /\ translation_cache w' = translation_cache w
    /\ uuid_drawn w' = uuid_drawn w
    /\ gpt_runs (trace w') = S (gpt_runs (trace w))
    /\ dictionary_runs (trace w') = dictionary_runs (trace w)
    /\ (api_usage_count w' = api_usage_count w
        \/ api_usage_count w' = api_usage_count w + 1).
Proof.
  destruct (openai_client self) as [client|] eqn:Hc.
  - destruct (client (api_requests (trace w)) (gpt_request text lang))
      as [response|e] eqn:He.
    + rewrite (gpt_call_answers _ _ _ _ _ _ Hc He).
      destruct (first_content response);
        eexists _, _; (split; [reflexivity|]); simpl; auto 10.
    + rewrite (gpt_call_raises _ _ _ _ _ _ Hc He).
      eexists _, _; (split; [reflexivity|]); simpl; auto 10.
  - rewrite (gpt_unconfigured _ _ _ _ Hc).
    eexists _, _; (split; [reflexivity|]); simpl; auto 10.
Qed.

(** ** The orchestrator, path by path *)

Lemma truthy_true s : s <> "" -> truthy s = true.
Proof.
  intros Hs. unfold truthy. apply negb_true_iff, String.eqb_neq, Hs.
Qed.

Lemma truthy_empty s : truthy s = false -> s = "".
Proof.
  unfold truthy. intros H. apply negb_false_iff in H. now apply String.eqb_eq.
Qed.

Lemma translate_text_hit self text lang ctx w cached :
  str_strip text <> "" ->
  translation_cache w !! cache_key text lang ctx = Some cached ->
  translate_text self text lang ctx w = (Return (cached, "cached"), w).
Proof.
  intros Hb Hc. unfold translate_text. rewrite (truthy_true _ Hb). simpl.
  unfold bind, gets. rewrite Hc. reflexivity.
Qed.

Lemma translate_text_dictionary self text lang ctx w :
  str_strip text <> "" ->
  translation_cache w !! cache_key text lang ctx = None ->
  dictionary_hit (translate_text_with_dictionary text lang) text = true ->
  translate_text self text lang ctx w
  = (Return (default "" (translate_text_with_dictionary text lang), "dictionary"),
     set_translation_cache
       (<[cache_key text lang ctx := default "" (translate_text_with_dictionary text lang)]>
          (translation_cache w))
       (set_trace (EvDictionary text lang :: trace w) w)).
Proof.
  intros Hb Hc Hd. unfold translate_text. rewrite (truthy_true _ Hb). simpl.
  unfold bind at 1. unfold gets. rewrite Hc.
  unfold bind at 1. unfold emit, modify.
  destruct (translate_text_with_dictionary text lang) as [v|]; [|discriminate Hd].
  simpl in Hd. rewrite Hd. reflexivity.
Qed.

Lemma translate_text_model self text lang ctx w translated w' :
  str_strip text <> "" ->
  translation_cache w !! cache_key text lang ctx = None ->
  dictionary_hit (translate_text_with_dictionary text lang) text = false ->
  translate_text_with_gpt self text lang (set_trace (EvDictionary text lang :: trace w) w)
  = (Return translated, w') ->
  translate_text self text lang ctx w
  = (Return (translated, "gpt"),
     set_translation_cache (<[cache_key text lang ctx := translated]> (translation_cache w')) w').
Proof.
  intros Hb Hc Hd Hg. unfold translate_text. rewrite (truthy_true _ Hb). simpl.
  unfold bind at 1. unfold gets. rewrite Hc.
  unfold bind at 1. unfold emit, modify.
  assert (Hfallback :
            (gpt_translation <- translate_text_with_gpt self text lang ;;
             modify (fun w0 =>
                       set_translation_cache
                         (<[cache_key text lang ctx := gpt_translation]>
                            (translation_cache w0)) w0) ;;;
             ret (gpt_translation, "gpt"))
              (set_trace (EvDictionary text lang :: trace w) w)
            = (Return (translated, "gpt"),
               set_translation_cache
                 (<[cache_key text lang ctx := translated]> (translation_cache w')) w')).
  { unfold bind at 1. rewrite Hg. reflexivity. }
  destruct (translate_text_with_dictionary text lang) as [v|]; simpl in Hd.
  - rewrite Hd. exact Hfallback.
  - exact Hfallback.
Qed.

(** One call of [translate_text] always returns a pair, and on a text that
    is not blank it leaves its own cache key bound to the text it returned. *)
Lemma translate_text_returns self text lang ctx w :
  exists translated source w',
    translate_text self text lang ctx w = (Return (translated, source), w')
    /\ tasks w' = tasks w
    /\ (dictionary_runs (trace w') <= S (dictionary_runs (trace w)))%nat
    /\ (gpt_runs (trace w') <= S (gpt_runs (trace w)))%nat
    /\ (str_strip text <> "" ->
        translation_cache w' !! cache_key text lang ctx = Some translated)
    /\ (forall k v, translation_cache w !! k = Some v -> translation_cache w' !! k = Some v).
Proof.
  destruct (String.eqb (str_strip text) "") eqn:Hb.
  - apply String.eqb_eq in Hb. exists text, "original", w.
    unfold translate_text, truthy. rewrite Hb. simpl.
    repeat split; auto; try lia. intros Hn. now contradiction Hn.
  - apply String.eqb_neq in Hb.
    destruct (translation_cache w !! cache_key text lang ctx) as [cached|] eqn:Hc.
    + exists cached, "cached", w. rewrite (translate_text_hit _ _ _ _ _ _ Hb Hc).
      repeat split; auto; lia.
    + destruct (dictionary_hit (translate_text_with_dictionary text lang) text) eqn:Hd.
      * rewrite (translate_text_dictionary _ _ _ _ _ Hb Hc Hd).
        eexists _, _, _. split; [reflexivity|]. simpl.
        repeat split; auto; try lia.
        -- intros _. apply lookup_insert_eq.
        -- intros k v Hk. rewrite lookup_insert_ne; [exact Hk|]. congruence.
      * destruct (gpt_frame self text lang (set_trace (EvDictionary text lang :: trace w) w))
          as (translated & w' & Hg & Ht & Hcache & _ & Hgr & Hdr & _).
        rewrite (translate_text_model _ _ _ _ _ _ _ Hb Hc Hd Hg).
        eexists _, _, _. split; [reflexivity|]. simpl in *.
        repeat split; auto; try lia.
        -- intros _. apply lookup_insert_eq.
        -- intros k v Hk. rewrite Hcache. simpl.
           rewrite lookup_insert_ne; [exact Hk|]. congruence.
Qed.

(** ** Blank texts have an empty key *)

Lemma isspace_In c : isspace c = true -> In c whitespace_table.
Proof.
  unfold isspace. intros H. apply existsb_exists in H.
  destruct H as (x & Hin & Heq). apply N.eqb_eq in Heq. now subst.
Qed.

Ltac by_whitespace H tac :=
  apply isspace_In in H; cbv [whitespace_table In] in H;
  repeat (destruct H as [<-|H]; [tac|]); destruct H.

Lemma lower_char_space c : isspace c = true -> lower_char c = [c].
Proof. intros H. by_whitespace H ltac:(vm_compute; reflexivity). Qed.

Lemma space_not_sigma c : isspace c = true -> (c =? 931)%N = false.
Proof. intros H. by_whitespace H ltac:(vm_compute; reflexivity). Qed.

Lemma decode_encode_space c s :
  isspace c = true -> decode (encode_char c +:+ s) = c :: decode s.
Proof. intros H. by_whitespace H ltac:(reflexivity). Qed.

Lemma encode_char_cons c : exists a r, encode_char c = String a r.
Proof.
  unfold encode_char.
  destruct (c <? 128)%N; [simpl; eauto|].
  destruct (c <? 2048)%N; [simpl; eauto|].
  destruct (c <? 65536)%N; [simpl; eauto|].
  destruct (c <? raw_base)%N; simpl; eauto.
Qed.

Lemma encode_nil l : encode l = "" -> l = [].
Proof.
  destruct l as [|c l]; [reflexivity|]. simpl.
  destruct (encode_char_cons c) as (a & r & ->). discriminate.
Qed.

Lemma rstrip_chars_nil l : rstrip_chars l = [] -> Forall (fun c => isspace c = true) l.
Proof.
  induction l as [|c l IH]; [constructor|]. simpl.
  destruct (rstrip_chars l) as [|x r]; [|discriminate].
  destruct (isspace c) eqn:Hc; [|discriminate]. intros _. constructor; auto.
Qed.

Lemma lstrip_chars_space l :
  Forall (fun c => isspace c = true) (lstrip_chars l) ->
  Forall (fun c => isspace c = true) l.
Proof.
  induction l as [|c l IH]; simpl; [auto|].
  destruct (isspace c) eqn:Hc; [|auto]. intros H. constructor; auto.
Qed.

Lemma strip_chars_space l :
  Forall (fun c => isspace c = true) l -> rstrip_chars (lstrip_chars l) = [].
Proof.
  induction 1 as [|c l Hc _ IH]; [reflexivity|]. simpl. now rewrite Hc.
Qed.

Lemma lower_chars_space before l :
  Forall (fun c => isspace c = true) l -> lower_chars before l = l.
Proof.
  intros H. revert before. induction H as [|c l Hc _ IH]; intros before; [reflexivity|].
  simpl. rewrite (space_not_sigma c Hc), (lower_char_space c Hc), IH. reflexivity.
Qed.

Lemma decode_encode_spaces l :
  Forall (fun c => isspace c = true) l -> decode (encode l) = l.
Proof.
  induction 1 as [|c l Hc _ IH]; [reflexivity|].
  simpl encode. now rewrite (decode_encode_space c _ Hc), IH.
Qed.

(** The texts [strip] empties, which [translate_text] returns as they are,
    are exactly the texts made of whitespace characters only. *)
Lemma str_strip_blank text : str_strip text = "" <-> blank (decode text).
Proof.
  unfold str_strip, blank. split.
  - intros Hb. now apply lstrip_chars_space, rstrip_chars_nil, encode_nil.
  - intros Hb. now rewrite (strip_chars_space _ Hb).
Qed.

(** A text that [strip] empties is made of blanks only, [lower] leaves it
    as it is, and its key is empty. *)
Lemma normalize_blank text : str_strip text = "" -> normalize text = "".
Proof.
  unfold str_strip. intros Hb. apply encode_nil, rstrip_chars_nil, lstrip_chars_space in Hb.
  unfold normalize, str_strip, str_lower.
  rewrite (lower_chars_space [] _ Hb), (decode_encode_spaces _ Hb),
    (strip_chars_space _ Hb).
  reflexivity.
Qed.

(** ** Blank input *)

(** C8. For every empty or whitespace-only text, [translate_text] returns
    the text itself with source ['original'] and leaves the whole world as
    it was: the cache, the API usage counter, the tasks and the trace (so
    neither the resolver nor the model translator ran).  Such a text is one
    that the code's own test [not text.strip()] accepts, or, which is the
    same, one whose characters are all whitespace for [str.isspace], the
    no-break space and the other Unicode blanks included. *)
Theorem translate_text_blank self text lang ctx w :
  str_strip text = "" \/ blank (decode text) ->
  translate_text self text lang ctx w = (Return (text, "original"), w).
Proof.
  intros Hb.
  assert (Hs : str_strip text = "")
    by (destruct Hb as [Hb|Hb]; [exact Hb|now apply str_strip_blank]).
  unfold translate_text, truthy. rewrite Hs. reflexivity.
Qed.

Lemma translate_text_blank_witness :
  (str_strip "   " = "" \/ blank (decode "   "))
  /\ translate_text offline "   " "Spanish" "title" init_session_state
     = (Return ("   ", "original"), init_session_state).
Proof.
  assert (Hb : str_strip "   " = "" \/ blank (decode "   ")) by (left; reflexivity).
  split; [exact Hb|]. exact (translate_text_blank offline "   " "Spanish" "title"
                               init_session_state Hb).
Defined.

(** The no-break space, the ideographic space and the next-line character
    are blanks for [str.strip] as well: a text made of them is returned as
    it is. *)
Example unicode_blanks_are_blank :
  str_strip no_break_space = ""
  /\ translate_text offline no_break_space "Spanish" "title" init_session_state
     = (Return (no_break_space, "original"), init_session_state)
  /\ translate_text offline (encode [12288; 133; 9; 8239]%N) "Hindi" "task"
       init_session_state
     = (Return (encode [12288; 133; 9; 8239]%N, "original"), init_session_state).
Proof. vm_compute. repeat split; reflexivity. Qed.

(** ** The cache *)

(** On a text that is not blank and whose key is not cached, one call runs
    the resolver once, answers from the dictionary or from the model,
    and binds the key to the text it returns. *)
Lemma translate_text_miss self text lang ctx w :
  str_strip text <> "" ->
  translation_cache w !! cache_key text lang ctx = None ->
  exists translated source w1,
    translate_text self text lang ctx w = (Return (translated, source), w1)
    /\ translation_cache w1 = <[cache_key text lang ctx := translated]> (translation_cache w)
    /\ dictionary_runs (trace w1) = S (dictionary_runs (trace w))
    /\ (source = "dictionary" /\ gpt_runs (trace w1) = gpt_runs (trace w)
        \/ source = "gpt" /\ gpt_runs (trace w1) = S (gpt_runs (trace w))).
Proof.
  intros Hb Hc.
  destruct (dictionary_hit (translate_text_with_dictionary text lang) text) eqn:Hd.
  - rewrite (translate_text_dictionary _ _ _ _ _ Hb Hc Hd).
    eexists _, _, _. split; [reflexivity|]. simpl. auto.
  - destruct (gpt_frame self text lang (set_trace (EvDictionary text lang :: trace w) w))
      as (translated & w' & Hg & _ & Hcache & _ & Hgr & Hdr & _).
    rewrite (translate_text_model _ _ _ _ _ _ _ Hb Hc Hd Hg).
    eexists _, _, _. split; [reflexivity|]. simpl in *.
    rewrite Hcache, Hdr, Hgr. auto.
Qed.

(** C2. For a text that is not blank: a present cache key makes
    [translate_text] return the cached text with source ['cached'], the
    world untouched; and of two calls in a row with the same arguments the
    first leaves the verbatim cache key bound to the text it returns, the
    second returns that same text, is a cache hit that changes nothing, and
    the resolver and the model translator were each entered at most once
    over both.  When the key was absent before the first call, that call
    ran the resolver exactly once, answered from the dictionary (without
    the model translator) or from the model translator (entered once), and
    wrote exactly its own key. *)
Theorem translate_text_idempotent self text lang ctx w :
  str_strip text <> "" ->
  (forall cached,
      translation_cache w !! cache_key text lang ctx = Some cached ->
      translate_text self text lang ctx w = (Return (cached, "cached"), w))
  /\ exists translated source w1,
      translate_text self text lang ctx w = (Return (translated, source), w1)
      /\ translation_cache w1 !! cache_key text lang ctx = Some translated
      /\ translate_text self text lang ctx w1 = (Return (translated, "cached"), w1)
      /\ (dictionary_runs (trace w1) <= S (dictionary_runs (trace w)))%nat
      /\ (gpt_runs (trace w1) <= S (gpt_runs (trace w)))%nat
      /\ (translation_cache w !! cache_key text lang ctx = None ->
          translation_cache w1
          = <[cache_key text lang ctx := translated]> (translation_cache w)
          /\ dictionary_runs (trace w1) = S (dictionary_runs (trace w))
          /\ (source = "dictionary" /\ gpt_runs (trace w1) = gpt_runs (trace w)
              \/ source = "gpt" /\ gpt_runs (trace w1) = S (gpt_runs (trace w)))).
Proof.
  intros Hb. split.
  - intros cached Hc. now apply translate_text_hit.
  - destruct (translation_cache w !! cache_key text lang ctx) as [cached|] eqn:Hc.
    + exists cached, "cached", w.
      split; [now apply translate_text_hit|]. split; [exact Hc|].
      split; [now apply translate_text_hit|].
      split; [lia|]. split; [lia|]. discriminate.
    + destruct (translate_text_miss self text lang ctx w Hb Hc)
        as (translated & source & w1 & Hrun & Hcache & Hdr & Hsrc).
      assert (Hkey : translation_cache w1 !! cache_key text lang ctx = Some translated)
        by (rewrite Hcache; apply lookup_insert_eq).
      exists translated, source, w1.
      split; [exact Hrun|]. split; [exact Hkey|].
      split; [now apply translate_text_hit|].
      split; [lia|]. split; [destruct Hsrc as [[_ ->]|[_ ->]]; lia|].
      intros _. auto.
Qed.

Lemma translate_text_idempotent_witness :
  str_strip "Quantum flux capacitor repair" <> ""
  /\ ((forall cached,
          translation_cache init_session_state
            !! cache_key "Quantum flux capacitor repair" "Spanish" "title" = Some cached ->
          translate_text offline "Quantum flux capacitor repair" "Spanish" "title"
            init_session_state
          = (Return (cached, "cached"), init_session_state))
      /\ exists translated source w1,
          translate_text offline "Quantum flux capacitor repair" "Spanish" "title"
            init_session_state
          = (Return (translated, source), w1)
          /\ translation_cache w1
               !! cache_key "Quantum flux capacitor repair" "Spanish" "title"
             = Some translated
          /\ translate_text offline "Quantum flux capacitor repair" "Spanish" "title" w1
             = (Return (translated, "cached"), w1)
          /\ (dictionary_runs (trace w1) <= S (dictionary_runs (trace init_session_state)))%nat
          /\ (gpt_runs (trace w1) <= S (gpt_runs (trace init_session_state)))%nat
          /\ (translation_cache init_session_state
                !! cache_key "Quantum flux capacitor repair" "Spanish" "title" = None ->
              translation_cache w1
              = <[cache_key "Quantum flux capacitor repair" "Spanish" "title" := translated]>
                  (translation_cache init_session_state)
              /\ dictionary_runs (trace w1) = S (dictionary_runs (trace init_session_state))
              /\ (source = "dictionary"
                  /\ gpt_runs (trace w1) = gpt_runs (trace init_session_state)
                  \/ source = "gpt"
                     /\ gpt_runs (trace w1) = S (gpt_runs (trace init_session_state))))).
Proof.
  assert (Hb : str_strip "Quantum flux capacitor repair" <> "")
    by (intros H; vm_compute in H; discriminate H).
  split; [exact Hb|].
  exact (translate_text_idempotent offline "Quantum flux capacitor repair" "Spanish" "title"
           init_session_state Hb).
Defined.

(** The two calls of the scenario in a fresh session without a key: the
    first answers on the model path, the second from the cache; and the
    no-break space alone is a blank text, answered as ['original'] both
    times with nothing cached. *)
Example translate_text_twice :
  fst quantum_offline_run
  = Return ("[Mock AI Translation to Spanish] Quantum flux capacitor repair", "gpt")
  /\ fst (translate_text offline "Quantum flux capacitor repair" "Spanish" "title"
            (snd quantum_offline_run))
     = Return ("[Mock AI Translation to Spanish] Quantum flux capacitor repair", "cached")
  /\ translate_text offline no_break_space "Spanish" "title" init_session_state
     = (Return (no_break_space, "original"), init_session_state).
Proof. vm_compute. repeat split; reflexivity. Qed.

(** ** Facts about the phrase tables *)

Lemma dict_get_In {V} (d : list (string * V)) k v :
  dict_get d k = Some v -> In (k, v) d.
Proof.
  induction d as [|[k' v'] d IH]; simpl; [discriminate|].
  destruct (String.eqb k' k) eqn:E.
  - apply String.eqb_eq in E. intros [= ->]. left. now subst.
  - intros H. right. auto.
Qed.

Lemma dict_get_table_In tables lang key v :
  dict_get (dict_get_table tables lang) key = Some v ->
  exists table, In (lang, table) tables /\ In (key, v) table.
Proof.
  unfold dict_get_table. destruct (dict_get tables lang) as [table|] eqn:E; simpl.
  - intros H. exists table. split; eauto using dict_get_In.
  - discriminate.
Qed.

Lemma values_truthy_get tables lang key v :
  values_truthy tables = true ->
  dict_get (dict_get_table tables lang) key = Some v ->
  truthy v = true.
Proof.
  intros Hall Hget. destruct (dict_get_table_In _ _ _ _ Hget) as (table & Ht & Hk).
  unfold values_truthy in Hall. rewrite forallb_forall in Hall.
  specialize (Hall _ Ht). simpl in Hall. rewrite forallb_forall in Hall.
  exact (Hall _ Hk).
Qed.

Lemma keys_truthy_get tables lang key v :
  keys_truthy tables = true ->
  dict_get (dict_get_table tables lang) key = Some v ->
  key <> "".
Proof.
  intros Hall Hget. destruct (dict_get_table_In _ _ _ _ Hget) as (table & Ht & Hk).
  unfold keys_truthy in Hall. rewrite forallb_forall in Hall.
  specialize (Hall _ Ht). simpl in Hall. rewrite forallb_forall in Hall.
  specialize (Hall _ Hk). simpl in Hall. intros ->. discriminate Hall.
Qed.

Lemma ui_values_truthy : values_truthy predefined_translations_ui = true.
Proof. vm_compute. reflexivity. Qed.
Lemma tasks_values_truthy : values_truthy predefined_translations_tasks = true.
Proof. vm_compute. reflexivity. Qed.
Lemma ui_keys_truthy : keys_truthy predefined_translations_ui = true.
Proof. vm_compute. reflexivity. Qed.
Lemma tasks_keys_truthy : keys_truthy predefined_translations_tasks = true.
Proof. vm_compute. reflexivity. Qed.

Lemma exact_entry_resolves lang text v :
  exact_entry lang (normalize text) = Some v ->
  translate_text_with_dictionary text lang = Some v
  /\ truthy v = true /\ str_strip text <> "".
Proof.
  unfold exact_entry, translate_text_with_dictionary.
  destruct (dict_get (dict_get_table predefined_translations_ui lang) (normalize text))
    as [u|] eqn:Hu.
  - intros [= ->].
    pose proof (values_truthy_get _ _ _ _ ui_values_truthy Hu) as Ht.
    pose proof (keys_truthy_get _ _ _ _ ui_keys_truthy Hu) as Hk.
    simpl. rewrite Ht. repeat split; auto.
    intros Hb. apply Hk, normalize_blank, Hb.
  - intros Hv.
    pose proof (values_truthy_get _ _ _ _ tasks_values_truthy Hv) as Ht.
    pose proof (keys_truthy_get _ _ _ _ tasks_keys_truthy Hv) as Hk.
    simpl. rewrite Hv. simpl. rewrite Ht. repeat split; auto.
    intros Hb. apply Hk, normalize_blank, Hb.
Qed.

(** ** Dictionary precedence *)

(** C1, as the code has it.  For a text whose normalised key exactly matches
    an entry of the phrase tables in the target language (UI labels first,
    task phrases second) and whose verbatim cache key is absent: when the
    entry's value differs from the text, [translate_text] returns that value
    with source ['dictionary'], binds the cache key to it, and neither
    enters the model translator nor sends a request nor moves the counter;
    when the value is the text itself, the guard
    [dict_translation != text] fails and the call is answered by the model
    translator, entered once, with source ['gpt'] (the placeholder when no
    client is configured), and the key is bound to that answer. *)
Theorem dictionary_precedence self text lang ctx w v :
  exact_entry lang (normalize text) = Some v ->
  translation_cache w !! cache_key text lang ctx = None ->
  (v <> text ->
   exists w',
     translate_text self text lang ctx w = (Return (v, "dictionary"), w')
     /\ translation_cache w' = <[cache_key text lang ctx := v]> (translation_cache w)
     /\ gpt_runs (trace w') = gpt_runs (trace w)
     /\ api_requests (trace w') = api_requests (trace w)
     /\ api_usage_count w' = api_usage_count w)
  /\ (v = text ->
      exists translated w',
        translate_text self text lang ctx w = (Return (translated, "gpt"), w')
        /\ translation_cache w'
           = <[cache_key text lang ctx := translated]> (translation_cache w)
        /\ gpt_runs (trace w') = S (gpt_runs (trace w))
        /\ (openai_client self = None ->
            translated = "[Mock AI Translation to " +:+ lang +:+ "] " +:+ text)).
Proof.
  intros Hentry Hmiss.
  destruct (exact_entry_resolves _ _ _ Hentry) as (Hdict & Htruthy & Hb).
  split.
  - intros Hne.
    assert (Hhit : dictionary_hit (translate_text_with_dictionary text lang) text = true).
    { rewrite Hdict. simpl. rewrite Htruthy. simpl.
      apply negb_true_iff, String.eqb_neq, Hne. }
    rewrite (translate_text_dictionary self _ _ ctx w Hb Hmiss Hhit), Hdict. simpl.
    eexists. split; [reflexivity|]. simpl. auto.
  - intros ->.
    assert (Hhit : dictionary_hit (translate_text_with_dictionary text lang) text = false).
    { rewrite Hdict. simpl. rewrite String.eqb_refl. apply andb_false_r. }
    destruct (gpt_frame self text lang (set_trace (EvDictionary text lang :: trace w) w))
      as (translated & w' & Hg & _ & Hcache & _ & Hgr & _).
    rewrite (translate_text_model _ _ _ _ _ _ _ Hb Hmiss Hhit Hg).
    exists translated. eexists. split; [reflexivity|]. simpl in *.
    rewrite Hcache. split; [reflexivity|]. split; [exact Hgr|].
    intros Hc. rewrite (gpt_unconfigured _ _ _ _ Hc) in Hg. now injection Hg as <- _.
Qed.

Lemma dictionary_precedence_witness :
  exact_entry "Spanish" (normalize "buy groceries") = Some "Comprar comestibles"
  /\ translation_cache init_session_state !! cache_key "buy groceries" "Spanish" "title" = None
  /\ ("Comprar comestibles" <> "buy groceries" ->
      exists w',
        translate_text offline "buy groceries" "Spanish" "title" init_session_state
        = (Return ("Comprar comestibles", "dictionary"), w')
        /\ translation_cache w'
           = <[cache_key "buy groceries" "Spanish" "title" := "Comprar comestibles"]>
               (translation_cache init_session_state)
        /\ gpt_runs (trace w') = gpt_runs (trace init_session_state)
        /\ api_requests (trace w') = api_requests (trace init_session_state)
        /\ api_usage_count w' = api_usage_count init_session_state)
  /\ ("Comprar comestibles" = "buy groceries" ->
      exists translated w',
        translate_text offline "buy groceries" "Spanish" "title" init_session_state
        = (Return (translated, "gpt"), w')
        /\ translation_cache w'
           = <[cache_key "buy groceries" "Spanish" "title" := translated]>
               (translation_cache init_session_state)
        /\ gpt_runs (trace w') = S (gpt_runs (trace init_session_state))
        /\ (openai_client offline = None ->
            translated = "[Mock AI Translation to " +:+ "Spanish" +:+ "] "
                         +:+ "buy groceries")).
Proof.
  assert (H1 : exact_entry "Spanish" (normalize "buy groceries") = Some "Comprar comestibles")
    by (vm_compute; reflexivity).
  assert (H2 : translation_cache init_session_state
                 !! cache_key "buy groceries" "Spanish" "title" = None)
    by (vm_compute; reflexivity).
  split; [exact H1|]. split; [exact H2|].
  exact (dictionary_precedence offline "buy groceries" "Spanish" "title"
           init_session_state "Comprar comestibles" H1 H2).
Defined.

(** The key is taken from the characters of the text: [WOR] followed by the
    Kelvin sign is lowered to [work], no-break spaces around a text are
    trimmed, and both texts are answered from the Spanish table. *)
Example kelvin_sign_is_resolved :
  normalize ("WOR" +:+ kelvin_sign) = "work"
  /\ fst (translate_text offline ("WOR" +:+ kelvin_sign) "Spanish" "title"
            init_session_state)
     = Return ("Trabajo", "dictionary")
  /\ normalize (no_break_space +:+ "Buy Groceries" +:+ no_break_space) = "buy_groceries"
  /\ fst (translate_text offline (no_break_space +:+ "Buy Groceries" +:+ no_break_space)
            "Spanish" "title" init_session_state)
     = Return ("Comprar comestibles", "dictionary").
Proof. vm_compute. repeat split; reflexivity. Qed.

(** The text "Study" matches the English task phrase [study] exactly, its
    key is not cached, and yet the call goes to the model translator: the
    value found is the text itself. *)
Lemma dictionary_precedence_counterexample :
  exact_entry "English" (normalize "Study") = Some "Study"
  /\ translation_cache init_session_state !! cache_key "Study" "English" "title" = None
  /\ fst (translate_text offline "Study" "English" "title" init_session_state)
     = Return ("[Mock AI Translation to English] Study", "gpt")
  /\ gpt_runs (trace (snd (translate_text offline "Study" "English" "title"
                             init_session_state))) = 1%nat.
Proof. vm_compute. repeat split; reflexivity. Qed.

(** ** The empty key *)

Lemma partial_match_empty key : partial_match "" key = true.
Proof. unfold partial_match. destruct key; reflexivity. Qed.

(** C10. For a target language of the task-phrase table and a text that is
    not blank but normalises to the empty key: the partial-match test holds
    for every key of the table, the resolver answers with the value of the
    table's first entry, and an uncached [translate_text] returns that value
    with source ['dictionary'] whenever it differs from the text, without
    entering the model translator. *)
Theorem empty_key_takes_first_entry self text lang ctx w :
  In lang (map fst predefined_translations_tasks) ->
  str_strip text <> "" ->
  normalize text = "" ->
  translation_cache w !! cache_key text lang ctx = None ->
  exists key value rest,
    dict_get_table predefined_translations_tasks lang = (key, value) :: rest
    /\ (forall k, In k (map fst (dict_get_table predefined_translations_tasks lang)) ->
                  partial_match (normalize text) k = true)
    /\ translate_text_with_dictionary text lang = Some value
    /\ (value <> text ->
        exists w',
          translate_text self text lang ctx w = (Return (value, "dictionary"), w')
          /\ translation_cache w' = <[cache_key text lang ctx := value]> (translation_cache w)
          /\ gpt_runs (trace w') = gpt_runs (trace w)
          /\ api_requests (trace w') = api_requests (trace w)).
Proof.
  intros Hlang Hb Hnorm Hmiss.
  assert (Hfirst : exists key value rest,
             dict_get_table predefined_translations_tasks lang = (key, value) :: rest
             /\ translate_text_with_dictionary text lang = Some value
             /\ truthy value = true).
  { unfold translate_text_with_dictionary. rewrite Hnorm.
    simpl in Hlang.
    destruct Hlang as [<-|[<-|[<-|[<-|[<-|[<-|[]]]]]]];
      eexists _, _, _; (split; [vm_compute; reflexivity|]);
      split; vm_compute; reflexivity. }
  destruct Hfirst as (key & value & rest & Htable & Hdict & Htruthy).
  exists key, value, rest. repeat split; auto.
  - intros k _. rewrite Hnorm. apply partial_match_empty.
  - intros Hne.
    assert (Hhit : dictionary_hit (translate_text_with_dictionary text lang) text = true).
    { rewrite Hdict. simpl. rewrite Htruthy. simpl.
      apply negb_true_iff, String.eqb_neq, Hne. }
    rewrite (translate_text_dictionary self _ _ ctx w Hb Hmiss Hhit), Hdict. simpl.
    eexists. split; [reflexivity|]. simpl. auto.
Qed.

Lemma empty_key_takes_first_entry_witness :
  In "Hindi" (map fst predefined_translations_tasks)
  /\ str_strip "!!!" <> ""
  /\ normalize "!!!" = ""
  /\ translation_cache init_session_state !! cache_key "!!!" "Hindi" "title" = None
  /\ exists key value rest,
      dict_get_table predefined_translations_tasks "Hindi" = (key, value) :: rest
      /\ (forall k, In k (map fst (dict_get_table predefined_translations_tasks "Hindi")) ->
                    partial_match (normalize "!!!") k = true)
      /\ translate_text_with_dictionary "!!!" "Hindi" = Some value
      /\ (value <> "!!!" ->
          exists w',
            translate_text offline "!!!" "Hindi" "title" init_session_state
            = (Return (value, "dictionary"), w')
            /\ translation_cache w'
               = <[cache_key "!!!" "Hindi" "title" := value]>
                   (translation_cache init_session_state)
            /\ gpt_runs (trace w') = gpt_runs (trace init_session_state)
            /\ api_requests (trace w') = api_requests (trace init_session_state)).
Proof.
  assert (H1 : In "Hindi" (map fst predefined_translations_tasks))
    by (simpl; auto 10).
  assert (H2 : str_strip "!!!" <> "") by (intros H; vm_compute in H; discriminate H).
  assert (H3 : normalize "!!!" = "") by reflexivity.
  assert (H4 : translation_cache init_session_state !! cache_key "!!!" "Hindi" "title" = None)
    by (vm_compute; reflexivity).
  split; [exact H1|]. split; [exact H2|]. split; [exact H3|]. split; [exact H4|].
  exact (empty_key_takes_first_entry offline "!!!" "Hindi" "title" init_session_state
           H1 H2 H3 H4).
Defined.

Example empty_key_example :
  translate_text offline "!!!" "Spanish" "title" init_session_state
  = (Return ("Comprar comestibles", "dictionary"),
     mkWorld [] (<["!!!_Spanish_title" := "Comprar comestibles"]> ∅) 0 0%nat
       [EvDictionary "!!!" "Spanish"]).
Proof. vm_compute. reflexivity. Qed.

(** A no-break space before the marks is trimmed like any blank: the text
    is not blank, its key is empty, and the first entry answers. *)
Example empty_key_unicode :
  str_strip (no_break_space +:+ "!!!") = "!!!"
  /\ normalize (no_break_space +:+ "!!!") = ""
  /\ fst (translate_text offline (no_break_space +:+ "!!!") "Spanish" "title"
            init_session_state)
     = Return ("Comprar comestibles", "dictionary").
Proof. vm_compute. repeat split; reflexivity. Qed.

(** ** The model path *)

(** C4, as the code has it.  For a text that is not blank, whose key is not
    cached and for which the resolver finds nothing, [translate_text]
    returns a text with the model path's source tag ['gpt'] and binds the
    cache key to it.  The API usage counter goes up by exactly one when a
    configured client's call returns a response; it stays where it was when
    no client is configured and when the call raises. *)
Theorem model_fallback self text lang ctx w :
  str_strip text <> "" ->
  translation_cache w !! cache_key text lang ctx = None ->
  translate_text_with_dictionary text lang = None ->
  exists translated w',
    translate_text self text lang ctx w = (Return (translated, "gpt"), w')
    /\ translation_cache w' = <[cache_key text lang ctx := translated]> (translation_cache w)
    /\ gpt_runs (trace w') = S (gpt_runs (trace w))
    /\ api_usage_count w'
       = match openai_client self with
         | None => api_usage_count w
         | Some client =>
             match client (api_requests (trace w)) (gpt_request text lang) with
             | Return _ => api_usage_count w + 1
             | Raise _ => api_usage_count w
             end
         end.
Proof.
  intros Hb Hmiss Hdict.
  assert (Hhit : dictionary_hit (translate_text_with_dictionary text lang) text = false)
    by (rewrite Hdict; reflexivity).
  set (w0 := set_trace (EvDictionary text lang :: trace w) w).
  destruct (openai_client self) as [client|] eqn:Hc.
  - destruct (client (api_requests (trace w)) (gpt_request text lang))
      as [response|e] eqn:He.
    + pose proof (gpt_call_answers self client text lang w0 response Hc He) as Hg.
      destruct (first_content response);
        rewrite (translate_text_model _ _ _ _ _ _ _ Hb Hmiss Hhit Hg);
        eexists _, _; (split; [reflexivity|]); simpl; auto.
    + pose proof (gpt_call_raises self client text lang w0 e Hc He) as Hg.
      rewrite (translate_text_model _ _ _ _ _ _ _ Hb Hmiss Hhit Hg).
      eexists _, _; (split; [reflexivity|]); simpl; auto.
  - pose proof (gpt_unconfigured self text lang w0 Hc) as Hg.
    rewrite (translate_text_model _ _ _ _ _ _ _ Hb Hmiss Hhit Hg).
    eexists _, _; (split; [reflexivity|]); simpl; auto.
Qed.

Lemma model_fallback_witness :
  str_strip "Quantum flux capacitor repair" <> ""
  /\ translation_cache init_session_state
       !! cache_key "Quantum flux capacitor repair" "Spanish" "title" = None
  /\ translate_text_with_dictionary "Quantum flux capacitor repair" "Spanish" = None
  /\ exists translated w',
      translate_text (mkApp (Some (answering_client " Reparar el condensador ")))
        "Quantum flux capacitor repair" "Spanish" "title" init_session_state
      = (Return (translated, "gpt"), w')
      /\ translation_cache w'
         = <[cache_key "Quantum flux capacitor repair" "Spanish" "title" := translated]>
             (translation_cache init_session_state)
      /\ gpt_runs (trace w') = S (gpt_runs (trace init_session_state))
      /\ api_usage_count w'
         = match openai_client (mkApp (Some (answering_client " Reparar el condensador "))) with
           | None => api_usage_count init_session_state
           | Some client =>
               match client (api_requests (trace init_session_state))
                       (gpt_request "Quantum flux capacitor repair" "Spanish") with
               | Return _ => api_usage_count init_session_state + 1
               | Raise _ => api_usage_count init_session_state
               end
           end.
Proof.
  assert (H1 : str_strip "Quantum flux capacitor repair" <> "")
    by (intros H; vm_compute in H; discriminate H).
  assert (H2 : translation_cache init_session_state
                 !! cache_key "Quantum flux capacitor repair" "Spanish" "title" = None)
    by (vm_compute; reflexivity).
  assert (H3 : translate_text_with_dictionary "Quantum flux capacitor repair" "Spanish" = None)
    by (vm_compute; reflexivity).
  split; [exact H1|]. split; [exact H2|]. split; [exact H3|].
  exact (model_fallback (mkApp (Some (answering_client " Reparar el condensador ")))
           "Quantum flux capacitor repair" "Spanish" "title" init_session_state H1 H2 H3).
Defined.

Example model_fallback_answer :
  let run := translate_text (mkApp (Some (answering_client " Reparar el condensador ")))
               "Quantum flux capacitor repair" "Spanish" "title" init_session_state in
  fst run = Return ("Reparar el condensador", "gpt")
  /\ api_usage_count (snd run) = 1.
Proof. vm_compute. split; reflexivity. Qed.

(** With no client configured, an uncached text without any dictionary match
    is translated on the model path and the counter does not move. *)
Lemma model_fallback_counterexample :
  translate_text_with_dictionary "Quantum flux capacitor repair" "Spanish" = None
  /\ translation_cache init_session_state
       !! cache_key "Quantum flux capacitor repair" "Spanish" "title" = None
  /\ fst quantum_offline_run
     = Return ("[Mock AI Translation to Spanish] Quantum flux capacitor repair", "gpt")
  /\ api_usage_count (snd quantum_offline_run) = api_usage_count init_session_state
  /\ api_usage_count (snd quantum_offline_run) <> api_usage_count init_session_state + 1.
Proof. vm_compute. repeat split; try reflexivity. discriminate. Qed.

(** ** A failing service *)

(** C5. When a client is configured and its call raises, the model
    translator returns the original text unchanged, reports the error
    through [st.error] and leaves the API usage counter (and the cache and
    the tasks) as they were; and [translate_text] itself, whatever its
    arguments and the world, returns a pair and never raises. *)
Theorem model_error_is_fail_soft self client text lang w e :
  openai_client self = Some client ->
  client (api_requests (trace w)) (gpt_request text lang) = Raise e ->
  (exists w',
      translate_text_with_gpt self text lang w = (Return text, w')
      /\ api_usage_count w' = api_usage_count w
      /\ translation_cache w' = translation_cache w
      /\ tasks w' = tasks w
      /\ In (EvStError "GPT Translation Error: " e) (trace w'))
  /\ (forall text' lang' ctx w0,
        exists result w1, translate_text self text' lang' ctx w0 = (Return result, w1)).
Proof.
  intros Hc He. split.
  - rewrite (gpt_call_raises _ _ _ _ _ _ Hc He).
    eexists. split; [reflexivity|]. simpl. auto.
  - intros text' lang' ctx w0.
    destruct (translate_text_returns self text' lang' ctx w0)
      as (translated & source & w1 & Hrun & _).
    now exists (translated, source), w1.
Qed.

Lemma model_error_is_fail_soft_witness :
  openai_client (mkApp (Some failing_client)) = Some failing_client
  /\ failing_client (api_requests (trace init_session_state))
       (gpt_request "Quantum flux capacitor repair" "Spanish")
     = Raise (APIError "connection error")
  /\ (exists w',
        translate_text_with_gpt (mkApp (Some failing_client))
          "Quantum flux capacitor repair" "Spanish" init_session_state
        = (Return "Quantum flux capacitor repair", w')
        /\ api_usage_count w' = api_usage_count init_session_state
        /\ translation_cache w' = translation_cache init_session_state
        /\ tasks w' = tasks init_session_state
        /\ In (EvStError "GPT Translation Error: " (APIError "connection error")) (trace w'))
  /\ (forall text' lang' ctx w0,
        exists result w1,
          translate_text (mkApp (Some failing_client)) text' lang' ctx w0
          = (Return result, w1)).
Proof.
  split; [reflexivity|]. split; [reflexivity|].
  exact (model_error_is_fail_soft (mkApp (Some failing_client)) failing_client
           "Quantum flux capacitor repair" "Spanish" init_session_state
           (APIError "connection error") eq_refl eq_refl).
Defined.

(** ** The placeholder of an unconfigured session *)

(** C6, as the code has it.  Without a client the model translator does not
    fail: it returns the placeholder
    ["[Mock AI Translation to <language>] <text>"], sends nothing and leaves
    the counter alone; and the scenario's call, its key not yet cached,
    returns ["[Mock AI Translation to Spanish] Quantum flux capacitor repair"]
    with the model path's source tag ['gpt']. *)
Theorem mock_translation_when_unconfigured self text lang w :
  openai_client self = None ->
  translate_text_with_gpt self text lang w
  = (Return ("[Mock AI Translation to " +:+ lang +:+ "] " +:+ text),
     set_trace (EvGpt text lang :: trace w) w)
  /\ (translation_cache w
        !! cache_key "Quantum flux capacitor repair" "Spanish" "title" = None ->
      fst (translate_text self "Quantum flux capacitor repair" "Spanish" "title" w)
      = Return ("[Mock AI Translation to Spanish] Quantum flux capacitor repair", "gpt")).
Proof.
  intros Hc. split; [now apply gpt_unconfigured|].
  intros Hmiss.
  assert (Hb : str_strip "Quantum flux capacitor repair" <> "")
    by (intros H; vm_compute in H; discriminate H).
  assert (Hhit : dictionary_hit
                   (translate_text_with_dictionary "Quantum flux capacitor repair" "Spanish")
                   "Quantum flux capacitor repair" = false)
    by (vm_compute; reflexivity).
  rewrite (translate_text_model self _ _ _ w _ _ Hb Hmiss Hhit
             (gpt_unconfigured self _ _ _ Hc)).
  reflexivity.
Qed.

Lemma mock_translation_when_unconfigured_witness :
  openai_client offline = None
  /\ translate_text_with_gpt offline "Quantum flux capacitor repair" "Spanish"
       init_session_state
     = (Return ("[Mock AI Translation to " +:+ "Spanish" +:+ "] "
                +:+ "Quantum flux capacitor repair"),
        set_trace (EvGpt "Quantum flux capacitor repair" "Spanish"
                   :: trace init_session_state) init_session_state)
  /\ (translation_cache init_session_state
        !! cache_key "Quantum flux capacitor repair" "Spanish" "title" = None ->
      fst (translate_text offline "Quantum flux capacitor repair" "Spanish" "title"
             init_session_state)
      = Return ("[Mock AI Translation to Spanish] Quantum flux capacitor repair", "gpt")).
Proof.
  split; [reflexivity|].
  exact (mock_translation_when_unconfigured offline "Quantum flux capacitor repair"
           "Spanish" init_session_state eq_refl).
Defined.

(** The text returned in the scenario is not the placeholder of the
    specification: the code writes "Mock AI Translation". *)
Lemma mock_translation_counterexample :
  fst quantum_offline_run
  = Return ("[Mock AI Translation to Spanish] Quantum flux capacitor repair", "gpt")
  /\ fst quantum_offline_run
     <> Return ("[Mock translation to Spanish] Quantum flux capacitor repair", "gpt")
  /\ fst quantum_offline_run
     <> Return ("[Mock translation to Spanish] Quantum flux capacitor repair", "model").
Proof. vm_compute. repeat split; try reflexivity; discriminate. Qed.

(** ** A failed call stays in the cache *)

Lemma run_translations_keeps self calls w k v :
  translation_cache w !! k = Some v ->
  translation_cache (run_translations self calls w) !! k = Some v.
Proof.
  revert w. induction calls as [|[[text lang] ctx] calls IH]; intros w Hk; simpl; [exact Hk|].
  apply IH.
  destruct (translate_text_returns self text lang ctx w)
    as (translated & source & w' & Hrun & _ & _ & _ & _ & Hkeep).
  rewrite Hrun. simpl. auto.
Qed.

(** A configured client is sent one request by every run of the model
    translator, whatever it answers. *)
Lemma gpt_configured_frame self client text lang w :
  openai_client self = Some client ->
  exists translated w',
    translate_text_with_gpt self text lang w = (Return translated, w')
    /\ translation_cache w' = translation_cache w
    /\ gpt_runs (trace w') = S (gpt_runs (trace w))
    /\ api_requests (trace w') = gpt_request text lang :: api_requests (trace w).
Proof.
  intros Hc.
  destruct (client (api_requests (trace w)) (gpt_request text lang))
    as [response|e] eqn:He.
  - rewrite (gpt_call_answers _ _ _ _ _ _ Hc He).
    destruct (first_content response);
      eexists _, _; (split; [reflexivity|]); simpl; auto.
  - rewrite (gpt_call_raises _ _ _ _ _ _ Hc He).
    eexists _, _; (split; [reflexivity|]); simpl; auto.
Qed.

(** C9, as the code has it.  When the text is not blank, its key not cached,
    the dictionary gives no usable translation and the configured client's
    call raises, [translate_text] returns the original text on the model
    path and binds the verbatim cache key to it.  After any further
    [translate_text] calls of the session, the same call returns that text
    with source ['cached'] and leaves the world as it found it: no new
    request, no new run of the model translator.  That lasts as long as the
    cache is not cleared: once the session's "Clear Translation Cache" has
    emptied it, the same call is answered on the model path again, the
    model translator runs once more and the client is sent a new request. *)
Theorem failed_call_is_cached self client text lang ctx w e :
  openai_client self = Some client ->
  str_strip text <> "" ->
  translation_cache w !! cache_key text lang ctx = None ->
  dictionary_hit (translate_text_with_dictionary text lang) text = false ->
  client (api_requests (trace w)) (gpt_request text lang) = Raise e ->
  exists w1,
    translate_text self text lang ctx w = (Return (text, "gpt"), w1)
    /\ translation_cache w1 = <[cache_key text lang ctx := text]> (translation_cache w)
    /\ api_usage_count w1 = api_usage_count w
    /\ (forall later,
          translate_text self text lang ctx (run_translations self later w1)
          = (Return (text, "cached"), run_translations self later w1))
    /\ (forall later,
          exists translated w2,
            translate_text self text lang ctx
              (clear_translation_cache (run_translations self later w1))
            = (Return (translated, "gpt"), w2)
            /\ gpt_runs (trace w2)
               = S (gpt_runs (trace (run_translations self later w1)))
            /\ api_requests (trace w2)
               = gpt_request text lang
                 :: api_requests (trace (run_translations self later w1))).
Proof.
  intros Hc Hb Hmiss Hhit He.
  set (w0 := set_trace (EvDictionary text lang :: trace w) w).
  pose proof (gpt_call_raises self client text lang w0 e Hc He) as Hg.
  rewrite (translate_text_model _ _ _ _ _ _ _ Hb Hmiss Hhit Hg).
  eexists. split; [reflexivity|]. simpl. split; [reflexivity|]. split; [reflexivity|].
  split.
  - intros later. apply translate_text_hit; [exact Hb|].
    apply run_translations_keeps. simpl. apply lookup_insert_eq.
  - intros later.
    match goal with |- context [run_translations self later ?w1] =>
      set (wl := run_translations self later w1) end.
    set (wc := set_trace (EvDictionary text lang :: trace (clear_translation_cache wl))
                 (clear_translation_cache wl)).
    destruct (gpt_configured_frame self client text lang wc Hc)
      as (translated & w2 & Hg2 & _ & Hgr & Hreq).
    assert (Hmiss2 : translation_cache (clear_translation_cache wl)
                       !! cache_key text lang ctx = None) by apply lookup_empty.
    rewrite (translate_text_model _ _ _ _ _ _ _ Hb Hmiss2 Hhit Hg2).
    eexists _, _. split; [reflexivity|]. simpl. split; [exact Hgr|exact Hreq].
Qed.

Lemma failed_call_is_cached_witness :
  openai_client (mkApp (Some failing_client)) = Some failing_client
  /\ str_strip "Quantum flux capacitor repair" <> ""
  /\ translation_cache init_session_state
       !! cache_key "Quantum flux capacitor repair" "Spanish" "title" = None
  /\ dictionary_hit (translate_text_with_dictionary "Quantum flux capacitor repair" "Spanish")
       "Quantum flux capacitor repair" = false
  /\ failing_client (api_requests (trace init_session_state))
       (gpt_request "Quantum flux capacitor repair" "Spanish")
     = Raise (APIError "connection error")
  /\ exists w1,
      translate_text (mkApp (Some failing_client)) "Quantum flux capacitor repair" "Spanish"
        "title" init_session_state
      = (Return ("Quantum flux capacitor repair", "gpt"), w1)
      /\ translation_cache w1
         = <[cache_key "Quantum flux capacitor repair" "Spanish" "title"
             := "Quantum flux capacitor repair"]> (translation_cache init_session_state)
      /\ api_usage_count w1 = api_usage_count init_session_state
      /\ (forall later,
            translate_text (mkApp (Some failing_client)) "Quantum flux capacitor repair"
              "Spanish" "title" (run_translations (mkApp (Some failing_client)) later w1)
            = (Return ("Quantum flux capacitor repair", "cached"),
               run_translations (mkApp (Some failing_client)) later w1))
      /\ (forall later,
            exists translated w2,
              translate_text (mkApp (Some failing_client)) "Quantum flux capacitor repair"
                "Spanish" "title"
                (clear_translation_cache
                   (run_translations (mkApp (Some failing_client)) later w1))
              = (Return (translated, "gpt"), w2)
              /\ gpt_runs (trace w2)
                 = S (gpt_runs (trace (run_translations (mkApp (Some failing_client))
                                         later w1)))
              /\ api_requests (trace w2)
                 = gpt_request "Quantum flux capacitor repair" "Spanish"
                   :: api_requests (trace (run_translations (mkApp (Some failing_client))
                                             later w1))).
Proof.
  assert (H2 : str_strip "Quantum flux capacitor repair" <> "")
    by (intros H; vm_compute in H; discriminate H).
  assert (H3 : translation_cache init_session_state
                 !! cache_key "Quantum flux capacitor repair" "Spanish" "title" = None)
    by (vm_compute; reflexivity).
  assert (H4 : dictionary_hit
                 (translate_text_with_dictionary "Quantum flux capacitor repair" "Spanish")
                 "Quantum flux capacitor repair" = false)
    by (vm_compute; reflexivity).
  split; [reflexivity|]. split; [exact H2|]. split; [exact H3|]. split; [exact H4|].
  split; [reflexivity|].
  exact (failed_call_is_cached (mkApp (Some failing_client)) failing_client
           "Quantum flux capacitor repair" "Spanish" "title" init_session_state
           (APIError "connection error") eq_refl H2 H3 H4 eq_refl).
Defined.

(** The scenario's call fails against the service and its text is cached;
    the cache is cleared; the same call, a subsequent call of the same
    session, is not answered from the cache: it goes to the model
    translator a second time and the client is sent a second request. *)
Lemma failed_call_is_cached_counterexample :
  fst quantum_failed_run = Return ("Quantum flux capacitor repair", "gpt")
  /\ translation_cache (snd quantum_failed_run)
       !! cache_key "Quantum flux capacitor repair" "Spanish" "title"
     = Some "Quantum flux capacitor repair"
  /\ fst quantum_retry_run = Return ("Quantum flux capacitor repair", "gpt")
  /\ fst quantum_retry_run <> Return ("Quantum flux capacitor repair", "cached")
  /\ gpt_runs (trace (snd quantum_failed_run)) = 1%nat
  /\ gpt_runs (trace (snd quantum_retry_run)) = 2%nat
  /\ length (api_requests (trace (snd quantum_retry_run))) = 2%nat.
Proof. vm_compute. repeat split; try reflexivity. discriminate. Qed.

(** ** The normaliser *)

Lemma append_nil_l s : "" +:+ s = s.
Proof. reflexivity. Qed.

Lemma append_cons_l c s t : String c s +:+ t = String c (s +:+ t).
Proof. reflexivity. Qed.

Ltac by_character c :=
  destruct c as [[] [] [] [] [] [] [] []];
  cbn; rewrite ?append_cons_l, ?append_nil_l; cbn.

Lemma normalize_chain s :
  str_replace "?" ""
    (str_replace "!" "" (str_replace "," "" (str_replace "." "" (str_replace " " "_" s))))
  = str_flat_map normalize_char s.
Proof.
  induction s as [|c s IH]; [reflexivity|].
  by_character c; rewrite <- ?IH; reflexivity.
Qed.

Lemma count_underscores s :
  count_char "_" (str_flat_map normalize_char s)
  = (count_char " " s + count_char "_" s)%nat.
Proof.
  induction s as [|c s IH]; [reflexivity|].
  by_character c; rewrite ?IH; lia.
Qed.

Lemma key_chars s : str_forall key_char (str_flat_map normalize_char s) = true.
Proof.
  induction s as [|c s IH]; [reflexivity|].
  by_character c; rewrite ?IH; reflexivity.
Qed.

(** [strip] removes a run of blanks at the start and a run of blanks at
    the end, and what it keeps neither starts nor ends with a blank. *)
Lemma lstrip_chars_split l :
  exists before,
    l = before ++ lstrip_chars l
    /\ blank before
    /\ (forall c r, lstrip_chars l = c :: r -> isspace c = false).
Proof.
  induction l as [|x l (before & Hl & Hb & Hhead)].
  - exists []. split; [reflexivity|]. split; [constructor|discriminate].
  - simpl. destruct (isspace x) eqn:Hx.
    + exists (x :: before). split; [simpl; congruence|].
      split; [constructor; assumption|exact Hhead].
    + exists []. split; [reflexivity|]. split; [constructor|].
      intros c r [= <- _]. exact Hx.
Qed.

Lemma rstrip_chars_split l :
  exists after,
    l = rstrip_chars l ++ after
    /\ blank after
    /\ (forall r c, rstrip_chars l = r ++ [c] -> isspace c = false).
Proof.
  induction l as [|x l (after & Hl & Hb & Hlast)].
  - exists []. split; [reflexivity|]. split; [constructor|].
    intros [|y r] c; discriminate.
  - simpl. destruct (rstrip_chars l) as [|y r0] eqn:Hr.
    + simpl in Hl. destruct (isspace x) eqn:Hx.
      * exists (x :: after). split; [simpl; congruence|].
        split; [constructor; assumption|]. intros [|z r] c; discriminate.
      * exists after. split; [simpl; congruence|]. split; [exact Hb|].
        intros [|z r] c; simpl; [intros [= <-]; exact Hx|].
        intros [= _ H]. destruct r; discriminate H.
    + exists after. split; [simpl; f_equal; exact Hl|]. split; [exact Hb|].
      intros [|z r] c; simpl; [discriminate|].
      intros [= _ H]. exact (Hlast r c H).
Qed.

Lemma rstrip_chars_head l c r :
  rstrip_chars l = c :: r -> exists r', l = c :: r'.
Proof.
  destruct l as [|x l]; simpl; [discriminate|].
  destruct (rstrip_chars l); [destruct (isspace x)|];
    intros [= <- _]; eauto.
Qed.

Lemma strip_chars_split l :
  exists before after,
    l = before ++ rstrip_chars (lstrip_chars l) ++ after
    /\ blank before /\ blank after /\ trimmed (rstrip_chars (lstrip_chars l)).
Proof.
  destruct (lstrip_chars_split l) as (before & Hl & Hb & Hhead).
  destruct (rstrip_chars_split (lstrip_chars l)) as (after & Hr & Ha & Hlast).
  exists before, after. split; [congruence|]. split; [exact Hb|]. split; [exact Ha|].
  split; [|exact Hlast].
  intros c r Hc. destruct (rstrip_chars_head _ _ _ Hc) as (r' & Hl'). eauto.
Qed.

(** [lower] works character by character, but for the capital sigma. *)
Lemma lower_chars_no_sigma before l :
  ~ In 931%N l -> lower_chars before l = flat_map lower_char l.
Proof.
  revert before. induction l as [|c l IH]; intros before Hs; [reflexivity|].
  simpl. destruct (c =? 931)%N eqn:Hc.
  - apply N.eqb_eq in Hc. contradiction Hs. now left.
  - rewrite IH; [reflexivity|]. intros Hin. apply Hs. now right.
Qed.

(** On an ASCII character [lower] is the lower case of ASCII. *)
Lemma lower_ascii_byte a :
  (N_of_ascii a <? 128)%N = true ->
  (N_of_ascii a =? 931)%N = false
  /\ lower_char (N_of_ascii a) = [N_of_ascii (ascii_lower a)]
  /\ encode_char (N_of_ascii (ascii_lower a)) = String (ascii_lower a) "".
Proof.
  destruct a as [[] [] [] [] [] [] [] []]; intros H; vm_compute in H;
    try discriminate H; vm_compute; repeat split; reflexivity.
Qed.

Lemma lower_ascii_text before s :
  ascii_text s = true ->
  encode (lower_chars before (decode s)) = str_map ascii_lower s.
Proof.
  revert before. induction s as [|a s IH]; intros before Hs; [reflexivity|].
  unfold ascii_text in Hs. simpl in Hs. apply andb_prop in Hs as [Ha Hs].
  destruct (lower_ascii_byte a Ha) as (Hsigma & Hlow & Henc).
  cbn [decode]. rewrite Ha. cbn [lower_chars]. rewrite Hsigma, Hlow.
  cbn [app encode]. rewrite Henc, (IH _ Hs). reflexivity.
Qed.

(** C7, as the code has it.  [normalize] is a total function of the text
    alone and the empty text has the empty key, as has every text of blanks
    only.  For every text the key is the lower-cased, trimmed text with
    each space character turned into one underscore (so a run of [n] spaces
    gives [n] underscores, and other blanks inside the text are kept), the
    characters [. , ! ?] dropped and every other character kept; it holds
    no space and none of those four marks.  Trimming removes a run of
    whitespace characters at either end and keeps a text that neither
    starts nor ends with one.  Lower-casing maps the text character by
    character through the lower-case table, the capital sigma apart, whose
    lower case depends on its neighbours; on an ASCII text it turns the
    letters [A] to [Z] into [a] to [z] and changes nothing else. *)
Theorem normalize_spec :
  normalize "" = ""
  /\ forall text,
      normalize text = str_flat_map normalize_char (str_strip (str_lower text))
      /\ str_forall key_char (normalize text) = true
      /\ count_char "_" (normalize text)
         = (count_char " " (str_strip (str_lower text))
            + count_char "_" (str_strip (str_lower text)))%nat
      /\ (blank (decode text) -> normalize text = "")
      /\ (exists before kept after,
            decode (str_lower text) = before ++ kept ++ after
            /\ blank before /\ blank after /\ trimmed kept
            /\ str_strip (str_lower text) = encode kept)
      /\ (~ In 931%N (decode text) ->
          str_lower text = encode (flat_map lower_char (decode text)))
      /\ (ascii_text text = true -> str_lower text = str_map ascii_lower text).
Proof.
  split; [reflexivity|]. intros text.
  assert (Hchain : normalize text
                   = str_flat_map normalize_char (str_strip (str_lower text)))
    by apply normalize_chain.
  split; [exact Hchain|]. split; [rewrite Hchain; apply key_chars|].
  split; [rewrite Hchain; apply count_underscores|].
  split; [intros Hb; apply normalize_blank, str_strip_blank, Hb|].
  split.
  - destruct (strip_chars_split (decode (str_lower text)))
      as (before & after & Hl & Hb & Ha & Ht).
    exists before, (rstrip_chars (lstrip_chars (decode (str_lower text)))), after.
    auto.
  - split.
    + intros Hs. unfold str_lower. now rewrite lower_chars_no_sigma.
    + intros Ha. unfold str_lower. now apply lower_ascii_text.
Qed.

(** The lower case and the margins of texts outside ASCII: the accented
    capital, the Kelvin sign, the capital I with a dot (two characters in
    lower case), the capital sigma at the end of a word and elsewhere; the
    no-break space and the ideographic space at the margins. *)
Example normalize_unicode :
  str_lower "CAFÉ" = "café"
  /\ normalize ("WOR" +:+ kelvin_sign) = "work"
  /\ decode (str_lower capital_i_with_dot) = [105; 775]%N
  /\ str_lower "ΟΔΟΣ" = "οδος"
  /\ str_lower "ΣΟΦΟΣ ΟΔΟΣ." = "σοφος οδος."
  /\ str_strip (no_break_space +:+ "buy groceries" +:+ encode [12288]%N) = "buy groceries"
  /\ normalize (no_break_space +:+ "Buy  Groceries!" +:+ no_break_space)
     = "buy__groceries".
Proof. vm_compute. repeat split; reflexivity. Qed.

(** A run of two spaces inside the text gives two underscores, not one, and
    a tab inside the text gives none. *)
Lemma normalize_counterexample :
  normalize "buy  groceries" = "buy__groceries"
  /\ count_char "_" (normalize "buy  groceries") = 2%nat
  /\ normalize ("buy" +:+ String "009" "groceries") = "buy" +:+ String "009" "groceries"
  /\ count_char "_" (normalize ("buy" +:+ String "009" "groceries")) = 0%nat.
Proof. vm_compute. repeat split; reflexivity. Qed.

(** ** Importing a batch *)

Section ImportFacts.

Variable uuid4 : nat -> string.

Lemma build_task_complete r w :
  complete_record r = true ->
  build_task uuid4 r w
  = (Return (task_of_record (uuid4 (uuid_drawn w)) r), set_uuid_drawn (S (uuid_drawn w)) w).
Proof.
  destruct r as [| | | | | |members]; try discriminate. simpl.
  unfold has_field, build_task, draw_uuid, bind, lift, gets, modify, ret, task_of_record.
  simpl.
  destruct (dict_get members "title"); [|discriminate].
  destruct (dict_get members "description"); [|discriminate].
  destruct (dict_get members "priority"); [|discriminate].
  destruct (dict_get members "status"); [|discriminate].
  destruct (dict_get members "created_at"); [|discriminate].
  reflexivity.
Qed.

Lemma build_task_lacking r w :
  lacks_field r = true ->
  exists k, In k required_fields
            /\ build_task uuid4 r w = (Raise (KeyError k), set_uuid_drawn (S (uuid_drawn w)) w).
Proof.
  destruct r as [| | | | | |members]; try discriminate. simpl.
  unfold has_field, build_task, draw_uuid, bind, lift, gets, modify, ret.
  simpl.
  destruct (dict_get members "title");
    [|intros _; exists "title"; split; [simpl; tauto|reflexivity]].
  destruct (dict_get members "description");
    [|intros _; exists "description"; split; [simpl; tauto|reflexivity]].
  destruct (dict_get members "priority");
    [|intros _; exists "priority"; split; [simpl; tauto|reflexivity]].
  destruct (dict_get members "status");
    [|intros _; exists "status"; split; [simpl; tauto|reflexivity]].
  destruct (dict_get members "created_at");
    [|intros _; exists "created_at"; split; [simpl; tauto|reflexivity]].
  discriminate.
Qed.

(** The loop keeps what it appended before the record that raises. *)
Lemma import_loop_prefix good bad rest n w :
  forallb complete_record good = true ->
  lacks_field bad = true ->
  exists k w',
    In k required_fields
    /\ import_loop uuid4 (good ++ bad :: rest) n w = (Raise (KeyError k), w')
    /\ tasks w' = tasks w ++ tasks_of_records uuid4 (uuid_drawn w) good
    /\ trace w' = trace w
    /\ translation_cache w' = translation_cache w
    /\ api_usage_count w' = api_usage_count w.
Proof.
  intros Hgood Hbad. revert n w.
  induction good as [|r good IH]; intros n w; simpl.
  - destruct (build_task_lacking bad w Hbad) as (k & Hk & Hraise).
    exists k. eexists. split; [exact Hk|].
    unfold bind at 1. rewrite Hraise. split; [reflexivity|]. simpl.
    rewrite app_nil_r. auto.
  - simpl in Hgood. apply andb_true_iff in Hgood. destruct Hgood as [Hr Hgood].
    unfold bind at 1. rewrite (build_task_complete r w Hr).
    unfold bind at 1. unfold modify at 1.
    destruct (IH Hgood (n + 1)
                (set_tasks (tasks (set_uuid_drawn (S (uuid_drawn w)) w)
                            ++ [task_of_record (uuid4 (uuid_drawn w)) r])
                   (set_uuid_drawn (S (uuid_drawn w)) w)))
      as (k & w' & Hk & Hrun & Htasks & Htrace & Hcache & Hcount).
    exists k, w'. split; [exact Hk|]. split; [exact Hrun|].
    simpl in *. rewrite Htasks, <- app_assoc. auto.
Qed.

End ImportFacts.

(** C3, as the code has it.  An import whose text the decoder rejects, or
    whose decoded array holds a record lacking a required field ([title],
    [description], [priority], [status] or [created_at]), reports the
    failure: it returns [False] after [st.error].  When the text is rejected
    the task list is exactly as before.  When a record lacks a field, the
    tasks of the complete records before the first such record have been
    appended and stay; nothing is added for that record or a later one.  The
    cache and the counter are untouched. *)
Theorem import_failure json_loads uuid4 json_data good w :
  failing_batch good (json_loads json_data) ->
  exists e w',
    import_tasks_json json_loads uuid4 json_data w = (Return false, w')
    /\ tasks w' = tasks w ++ tasks_of_records uuid4 (uuid_drawn w) good
    /\ (good = [] -> tasks w' = tasks w)
    /\ trace w' = EvStError "❌ Import failed: " e :: trace w
    /\ translation_cache w' = translation_cache w
    /\ api_usage_count w' = api_usage_count w.
Proof.
  intros Hfail. unfold import_tasks_json, try_except.
  inversion Hfail as [e Hg Hloads|good' bad rest Hgood Hbad Hg Hloads].
  - exists e, (set_trace (EvStError "❌ Import failed: " e :: trace w) w).
    simpl. rewrite app_nil_r. auto 10.
  - destruct (import_loop_prefix uuid4 good bad rest 0 w Hgood Hbad)
      as (k & w' & _ & Hrun & Htasks & Htrace & Hcache & Hcount).
    exists (KeyError k), (set_trace (EvStError "❌ Import failed: " (KeyError k) :: trace w') w').
    unfold bind at 1. unfold lift at 1.
    unfold bind at 1. unfold lift at 1. simpl py_iter. cbv iota beta.
    unfold bind at 1. rewrite Hrun.
    split; [reflexivity|]. simpl. rewrite Htasks, Htrace.
    split; [reflexivity|].
    split; [intros ->; simpl; apply app_nil_r|]. auto.
Qed.

Lemma import_failure_witness :
  failing_batch [partial_batch_first] (example_loads partial_batch_text)
  /\ exists e w',
      import_tasks_json example_loads example_uuid4 partial_batch_text init_session_state
      = (Return false, w')
      /\ tasks w'
         = tasks init_session_state
           ++ tasks_of_records example_uuid4 (uuid_drawn init_session_state)
                [partial_batch_first]
      /\ ([partial_batch_first] = [] -> tasks w' = tasks init_session_state)
      /\ trace w' = EvStError "❌ Import failed: " e :: trace init_session_state
      /\ translation_cache w' = translation_cache init_session_state
      /\ api_usage_count w' = api_usage_count init_session_state.
Proof.
  assert (H : failing_batch [partial_batch_first] (example_loads partial_batch_text)).
  { change (example_loads partial_batch_text)
      with (Return (JArray ([partial_batch_first] ++ partial_batch_second :: []))).
    apply batch_defective; reflexivity. }
  split; [exact H|].
  exact (import_failure example_loads example_uuid4 partial_batch_text
           [partial_batch_first] init_session_state H).
Defined.

(** The second record of the example batch has no [status]: the import
    reports failure, and the task of the first record has been added. *)
Lemma import_failure_counterexample :
  example_loads partial_batch_text = Return (JArray [partial_batch_first; partial_batch_second])
  /\ complete_record partial_batch_first = true
  /\ lacks_field partial_batch_second = true
  /\ fst partial_import_run = Return false
  /\ tasks (snd partial_import_run)
     = [mkTask (JString "t1") (JString "Buy milk") (JString "") (JString "High")
          (JString "Todo") (JString "2024-01-01T09:00:00") (JArray []) (JObject [])]
  /\ tasks (snd partial_import_run) <> tasks init_session_state.
Proof. vm_compute. repeat split; try reflexivity. discriminate. Qed.

(** ** What one translation changes *)

Lemma translate_text_effect self text lang ctx w :
  exists translated source w',
    translate_text self text lang ctx w = (Return (translated, source), w')
    /\ tasks w' = tasks w
    /\ uuid_drawn w' = uuid_drawn w
    /\ (api_usage_count w' = api_usage_count w
        \/ api_usage_count w' = api_usage_count w + 1)
    /\ (translation_cache w' = translation_cache w
        \/ (translation_cache w !! cache_key text lang ctx = None
            /\ translation_cache w'
               = <[cache_key text lang ctx := translated]> (translation_cache w)))
    /\ In source source_tags.
Proof.
  destruct (String.eqb (str_strip text) "") eqn:Hb.
  - apply String.eqb_eq in Hb. exists text, "original", w.
    unfold translate_text, truthy. rewrite Hb. simpl. auto 10.
  - apply String.eqb_neq in Hb.
    destruct (translation_cache w !! cache_key text lang ctx) as [cached|] eqn:Hc.
    + exists cached, "cached", w. rewrite (translate_text_hit _ _ _ _ _ _ Hb Hc).
      simpl. auto 10.
    + destruct (dictionary_hit (translate_text_with_dictionary text lang) text) eqn:Hd.
      * rewrite (translate_text_dictionary _ _ _ _ _ Hb Hc Hd).
        eexists _, _, _. split; [reflexivity|]. simpl. auto 10.
      * destruct (gpt_frame self text lang (set_trace (EvDictionary text lang :: trace w) w))
          as (translated & w' & Hg & Ht & Hcache & Hu & _ & _ & Hcount).
        rewrite (translate_text_model _ _ _ _ _ _ _ Hb Hc Hd Hg).
        eexists _, _, _. split; [reflexivity|]. simpl in *.
        rewrite Hcache. auto 10.
Qed.

(** X1. One call of [translate_text], whatever its arguments: it returns a
    pair whose tag is one of the four source tags, leaves the tasks alone,
    moves the counter by zero or one, keeps every binding the cache had and
    changes the cache at no key but its own. *)
Theorem translate_text_frame self text lang ctx w :
  exists translated source w',
    translate_text self text lang ctx w = (Return (translated, source), w')
    /\ In source source_tags
    /\ tasks w' = tasks w
    /\ api_usage_count w <= api_usage_count w' <= api_usage_count w + 1
    /\ (forall k v, translation_cache w !! k = Some v -> translation_cache w' !! k = Some v)
    /\ (forall k, k <> cache_key text lang ctx ->
                  translation_cache w' !! k = translation_cache w !! k).
Proof.
  destruct (translate_text_effect self text lang ctx w)
    as (translated & source & w' & Hrun & Ht & _ & Hcount & Hcache & Hsrc).
  exists translated, source, w'.
  split; [exact Hrun|]. split; [exact Hsrc|]. split; [exact Ht|].
  split; [lia|]. split.
  - intros k v Hk. destruct Hcache as [->|[Hmiss ->]]; [exact Hk|].
    rewrite lookup_insert_ne; [exact Hk|]. congruence.
  - intros k Hk. destruct Hcache as [->|[_ ->]]; [reflexivity|].
    now rewrite lookup_insert_ne.
Qed.

(** X2. After the cache has been cleared, a call on a text that is not blank
    is no hit: the resolver runs once more, the result comes from the
    dictionary or the model path, and the cache holds that one binding. *)
Theorem cleared_cache_resolves_again self text lang ctx w :
  str_strip text <> "" ->
  exists translated source w',
    translate_text self text lang ctx (clear_translation_cache w)
    = (Return (translated, source), w')
    /\ (source = "dictionary" \/ source = "gpt")
    /\ dictionary_runs (trace w') = S (dictionary_runs (trace w))
    /\ translation_cache w' = {[ cache_key text lang ctx := translated ]}.
Proof.
  intros Hb.
  assert (Hmiss : translation_cache (clear_translation_cache w)
                    !! cache_key text lang ctx = None) by apply lookup_empty.
  destruct (dictionary_hit (translate_text_with_dictionary text lang) text) eqn:Hd.
  - rewrite (translate_text_dictionary _ _ _ _ _ Hb Hmiss Hd).
    eexists _, _, _. split; [reflexivity|]. simpl. auto.
  - destruct (gpt_frame self text lang
                (set_trace (EvDictionary text lang :: trace (clear_translation_cache w))
                   (clear_translation_cache w)))
      as (translated & w' & Hg & _ & Hcache & _ & _ & Hdr & _).
    rewrite (translate_text_model _ _ _ _ _ _ _ Hb Hmiss Hd Hg).
    eexists _, _, _. split; [reflexivity|]. simpl in *.
    rewrite Hcache, Hdr. auto.
Qed.

Lemma cleared_cache_resolves_again_witness :
  str_strip "buy groceries" <> ""
  /\ exists translated source w',
      translate_text offline "buy groceries" "Spanish" "title"
        (clear_translation_cache (snd quantum_offline_run))
      = (Return (translated, source), w')
      /\ (source = "dictionary" \/ source = "gpt")
      /\ dictionary_runs (trace w') = S (dictionary_runs (trace (snd quantum_offline_run)))
      /\ translation_cache w' = {[ cache_key "buy groceries" "Spanish" "title" := translated ]}.
Proof.
  assert (Hb : str_strip "buy groceries" <> "")
    by (intros H; vm_compute in H; discriminate H).
  split; [exact Hb|].
  exact (cleared_cache_resolves_again offline "buy groceries" "Spanish" "title"
           (snd quantum_offline_run) Hb).
Defined.

(** ** Cache keys *)

Lemma str_app_assoc a b c : (a +:+ b) +:+ c = a +:+ (b +:+ c).
Proof.
  induction a as [|x a IH]; [reflexivity|]. now rewrite !append_cons_l, IH.
Qed.

Lemma list_ascii_of_app a b :
  list_ascii_of_string (a +:+ b) = list_ascii_of_string a ++ list_ascii_of_string b.
Proof.
  induction a as [|x a IH]; [reflexivity|].
  rewrite append_cons_l. simpl. now rewrite IH.
Qed.

Lemma str_app_inv_tail a b x : a +:+ x = b +:+ x -> a = b.
Proof.
  intros H. apply (f_equal list_ascii_of_string) in H.
  rewrite !list_ascii_of_app in H. apply app_inv_tail in H.
  apply (f_equal string_of_list_ascii) in H.
  now rewrite !string_of_list_ascii_of_string in H.
Qed.

Lemma str_app_inv_head x a b : x +:+ a = x +:+ b -> a = b.
Proof.
  induction x as [|c x IH]; [auto|]. rewrite !append_cons_l. intros [= H]. auto.
Qed.

Lemma cache_key_text_inj t1 t2 lang ctx :
  cache_key t1 lang ctx = cache_key t2 lang ctx -> t1 = t2.
Proof. unfold cache_key. apply str_app_inv_tail. Qed.

Lemma cache_key_context_inj text lang c1 c2 :
  cache_key text lang c1 = cache_key text lang c2 -> c1 = c2.
Proof.
  unfold cache_key. intros H.
  apply str_app_inv_head in H. change ("_" +:+ ?x) with (String "_" x) in H.
  injection H as H.
  apply str_app_inv_head in H. change ("_" +:+ ?x) with (String "_" x) in H.
  now injection H.
Qed.

Lemma cache_key_shift t l l' ctx :
  cache_key (t +:+ "_" +:+ l) l' ctx = cache_key t (l +:+ "_" +:+ l') ctx.
Proof.
  unfold cache_key. now rewrite !str_app_assoc, !append_cons_l, !append_nil_l.
Qed.

(** X3. The cache key is a plain concatenation, so it does not separate its
    parts: for a text [t] that is not blank and a text [t_l] that is not
    blank either, after translating [t_l] into language [l'], a request for
    [t] into the language named [l_l'], same context, is answered from the
    cache with the text of the first call. *)
Theorem cache_key_collision self t l l' ctx w translated source w1 :
  str_strip t <> "" ->
  str_strip (t +:+ "_" +:+ l) <> "" ->
  translate_text self (t +:+ "_" +:+ l) l' ctx w = (Return (translated, source), w1) ->
  translate_text self t (l +:+ "_" +:+ l') ctx w1 = (Return (translated, "cached"), w1).
Proof.
  intros Ht Htl Hrun.
  destruct (translate_text_returns self (t +:+ "_" +:+ l) l' ctx w)
    as (translated' & source' & w' & Hrun' & _ & _ & _ & Hkey & _).
  rewrite Hrun in Hrun'. injection Hrun' as -> -> ->.
  apply translate_text_hit; [exact Ht|].
  rewrite <- cache_key_shift. now apply Hkey.
Qed.

Lemma cache_key_collision_witness :
  str_strip "pay" <> ""
  /\ str_strip ("pay" +:+ "_" +:+ "bills") <> ""
  /\ translate_text offline ("pay" +:+ "_" +:+ "bills") "Spanish" "title" init_session_state
     = (Return ("Pagar facturas", "dictionary"),
        mkWorld [] (<["pay_bills_Spanish_title" := "Pagar facturas"]> ∅) 0 0%nat
          [EvDictionary "pay_bills" "Spanish"])
  /\ translate_text offline "pay" ("bills" +:+ "_" +:+ "Spanish") "title"
       (mkWorld [] (<["pay_bills_Spanish_title" := "Pagar facturas"]> ∅) 0 0%nat
          [EvDictionary "pay_bills" "Spanish"])
     = (Return ("Pagar facturas", "cached"),
        mkWorld [] (<["pay_bills_Spanish_title" := "Pagar facturas"]> ∅) 0 0%nat
          [EvDictionary "pay_bills" "Spanish"]).
Proof.
  assert (H1 : str_strip "pay" <> "") by (intros H; vm_compute in H; discriminate H).
  assert (H2 : str_strip ("pay" +:+ "_" +:+ "bills") <> "")
    by (intros H; vm_compute in H; discriminate H).
  assert (H3 : translate_text offline ("pay" +:+ "_" +:+ "bills") "Spanish" "title"
                 init_session_state
               = (Return ("Pagar facturas", "dictionary"),
                  mkWorld [] (<["pay_bills_Spanish_title" := "Pagar facturas"]> ∅) 0 0%nat
                    [EvDictionary "pay_bills" "Spanish"]))
    by (vm_compute; reflexivity).
  split; [exact H1|]. split; [exact H2|]. split; [exact H3|].
  exact (cache_key_collision offline "pay" "bills" "Spanish" "title" init_session_state
           _ _ _ H1 H2 H3).
Defined.

(** X4. The cache is keyed on the verbatim arguments: a call for one text
    and context leaves unbound the key of any other text in the same
    context, and the key of the same text in any other context, so the title
    and the description of a task are resolved separately even when they
    are the same text. *)
Theorem other_keys_stay_unbound self t1 c1 t2 c2 lang w :
  (t1 <> t2 /\ c1 = c2) \/ (t1 = t2 /\ c1 <> c2) ->
  translation_cache w !! cache_key t2 lang c2 = None ->
  translation_cache (snd (translate_text self t1 lang c1 w)) !! cache_key t2 lang c2 = None.
Proof.
  intros Hdiff Hmiss.
  destruct (translate_text_effect self t1 lang c1 w)
    as (translated & source & w' & Hrun & _ & _ & _ & Hcache & _).
  rewrite Hrun. simpl.
  destruct Hcache as [->|[_ ->]]; [exact Hmiss|].
  rewrite lookup_insert_ne; [exact Hmiss|].
  intros Heq. destruct Hdiff as [[Ht ->]|[-> Hc]].
  - apply Ht. now apply cache_key_text_inj in Heq.
  - apply Hc. now apply cache_key_context_inj in Heq.
Qed.

Lemma other_keys_stay_unbound_witness :
  (("Exercise" <> "Exercise" /\ "title" = "description")
   \/ ("Exercise" = "Exercise" /\ "title" <> "description"))
  /\ translation_cache init_session_state !! cache_key "Exercise" "Spanish" "description" = None
  /\ translation_cache
       (snd (translate_text offline "Exercise" "Spanish" "title" init_session_state))
       !! cache_key "Exercise" "Spanish" "description" = None.
Proof.
  assert (H1 : ("Exercise" <> "Exercise" /\ "title" = "description")
               \/ ("Exercise" = "Exercise" /\ "title" <> "description"))
    by (right; split; [reflexivity|discriminate]).
  assert (H2 : translation_cache init_session_state
                 !! cache_key "Exercise" "Spanish" "description" = None)
    by (vm_compute; reflexivity).
  split; [exact H1|]. split; [exact H2|].
  exact (other_keys_stay_unbound offline "Exercise" "title" "Exercise" "description"
           "Spanish" init_session_state H1 H2).
Defined.

(** ** The resolver *)

(** X5. The resolver ignores the letter case of ASCII texts: two texts of
    ASCII characters that differ only in the case of the letters [A] to [Z]
    have the same key and get the same answer in every language. *)
Theorem dictionary_ignores_ascii_case a b lang :
  ascii_text a = true ->
  ascii_text b = true ->
  str_map ascii_lower a = str_map ascii_lower b ->
  normalize a = normalize b
  /\ translate_text_with_dictionary a lang = translate_text_with_dictionary b lang.
Proof.
  intros Ha Hb Hab.
  assert (Hlower : str_lower a = str_lower b).
  { unfold str_lower. now rewrite (lower_ascii_text [] a Ha), (lower_ascii_text [] b Hb). }
  assert (Hkey : normalize a = normalize b) by (unfold normalize; now rewrite Hlower).
  split; [exact Hkey|].
  unfold translate_text_with_dictionary. now rewrite Hkey.
Qed.

Lemma dictionary_ignores_ascii_case_witness :
  ascii_text "Buy Groceries" = true
  /\ ascii_text "BUY groceries" = true
  /\ str_map ascii_lower "Buy Groceries" = str_map ascii_lower "BUY groceries"
  /\ normalize "Buy Groceries" = normalize "BUY groceries"
  /\ translate_text_with_dictionary "Buy Groceries" "German"
     = translate_text_with_dictionary "BUY groceries" "German".
Proof.
  split; [reflexivity|]. split; [reflexivity|]. split; [reflexivity|].
  exact (dictionary_ignores_ascii_case "Buy Groceries" "BUY groceries" "German"
           eq_refl eq_refl eq_refl).
Defined.

Lemma dict_get_None {V} (d : list (string * V)) k :
  ~ In k (map fst d) -> dict_get d k = None.
Proof.
  induction d as [|[k' v] d IH]; simpl; [reflexivity|].
  intros Hn. destruct (String.eqb k' k) eqn:E.
  - apply String.eqb_eq in E. exfalso. apply Hn. now left.
  - apply IH. intros Hin. apply Hn. now right.
Qed.

Lemma dict_get_Some_key {V} (d : list (string * V)) k v :
  dict_get d k = Some v -> In k (map fst d).
Proof.
  intros H. apply dict_get_In in H. apply in_map_iff. now exists (k, v).
Qed.

Lemma table_languages_ui : map fst predefined_translations_ui = supported_languages.
Proof. reflexivity. Qed.

Lemma table_languages_tasks : map fst predefined_translations_tasks = supported_languages.
Proof. reflexivity. Qed.

Lemma unknown_language_table tables lang :
  ~ In lang (map fst tables) -> dict_get_table tables lang = [].
Proof. intros Hn. unfold dict_get_table. now rewrite (dict_get_None _ _ Hn). Qed.

Lemma resolver_unknown_language lang text :
  ~ In lang supported_languages -> translate_text_with_dictionary text lang = None.
Proof.
  intros Hn. unfold translate_text_with_dictionary.
  rewrite !unknown_language_table; [reflexivity| |].
  - now rewrite table_languages_tasks.
  - now rewrite table_languages_ui.
Qed.

(** X6. A target language outside the six supported ones is no error: the
    resolver finds nothing for any text, and [get_ui_text] answers with the
    key it was given. *)
Theorem unknown_language_has_no_entry lang :
  ~ In lang supported_languages ->
  (forall text, translate_text_with_dictionary text lang = None)
  /\ (forall key selected, get_ui_text key (Some lang) selected = key).
Proof.
  intros Hn. split.
  - intros text. now apply resolver_unknown_language.
  - intros key selected. unfold get_ui_text. simpl.
    rewrite unknown_language_table; [reflexivity|]. now rewrite table_languages_ui.
Qed.

Lemma unknown_language_has_no_entry_witness :
  ~ In "Klingon" supported_languages
  /\ (forall text, translate_text_with_dictionary text "Klingon" = None)
  /\ (forall key selected, get_ui_text key (Some "Klingon") selected = key).
Proof.
  assert (Hn : ~ In "Klingon" supported_languages).
  { simpl. intros [H|[H|[H|[H|[H|[H|[]]]]]]]; discriminate H. }
  split; [exact Hn|]. exact (unknown_language_has_no_entry "Klingon" Hn).
Defined.

Lemma partial_scan_In key items v :
  partial_scan key items = Some v ->
  exists k, In (k, v) items /\ partial_match key k = true.
Proof.
  induction items as [|[k' v'] items IH]; simpl; [discriminate|].
  destruct (partial_match key k') eqn:E.
  - intros [= ->]. exists k'. auto.
  - intros H. destruct (IH H) as (k & Hin & Hm). exists k. auto.
Qed.

Lemma partial_scan_None key items :
  partial_scan key items = None <->
  (forall k v, In (k, v) items -> partial_match key k = false).
Proof.
  induction items as [|[k' v'] items IH]; simpl.
  - split; [intros _ k v []|reflexivity].
  - destruct (partial_match key k') eqn:E.
    + split; [discriminate|]. intros H. rewrite (H k' v') in E; [discriminate|now left].
    + rewrite IH. split.
      * intros H k v [[= <- <-]|Hin]; [exact E|eauto].
      * intros H k v Hin. apply (H k v). now right.
Qed.

(** X7. Whatever the resolver returns is a non-empty phrase of the tables of
    the requested language, which is then one of the supported ones. *)
Theorem dictionary_answers_come_from_the_tables text lang v :
  translate_text_with_dictionary text lang = Some v ->
  In lang supported_languages
  /\ v <> ""
  /\ exists k,
      In (k, v) (dict_get_table predefined_translations_ui lang)
      \/ In (k, v) (dict_get_table predefined_translations_tasks lang).
Proof.
  intros Hv.
  assert (Hlang : In lang supported_languages).
  { destruct (in_dec string_dec lang supported_languages) as [Hin|Hn]; [exact Hin|].
    rewrite (resolver_unknown_language lang text Hn) in Hv. discriminate Hv. }
  split; [exact Hlang|].
  assert (Hfrom : exists k,
             In (k, v) (dict_get_table predefined_translations_ui lang)
             \/ In (k, v) (dict_get_table predefined_translations_tasks lang)).
  { unfold translate_text_with_dictionary in Hv.
    destruct (dict_get (dict_get_table predefined_translations_ui lang) (normalize text))
      as [u|] eqn:Hu; simpl in Hv.
    - rewrite (values_truthy_get _ _ _ _ ui_values_truthy Hu) in Hv.
      injection Hv as ->. exists (normalize text). left. now apply dict_get_In.
    - destruct (dict_get (dict_get_table predefined_translations_tasks lang)
                  (normalize text)) as [t|] eqn:Ht; simpl in Hv.
      + rewrite (values_truthy_get _ _ _ _ tasks_values_truthy Ht) in Hv.
        injection Hv as ->. exists (normalize text). right. now apply dict_get_In.
      + destruct (partial_scan_In _ _ _ Hv) as (k & Hin & _). exists k. now right. }
  split; [|exact Hfrom].
  destruct Hfrom as (k & [Hin|Hin]); intros ->.
  - assert (Ht : truthy "" = true); [|discriminate Ht].
    unfold dict_get_table in Hin.
    destruct (dict_get predefined_translations_ui lang) as [table|] eqn:E; [|destruct Hin].
    simpl in Hin. apply dict_get_In in E.
    pose proof ui_values_truthy as Hall. unfold values_truthy in Hall.
    rewrite forallb_forall in Hall. specialize (Hall _ E). simpl in Hall.
    rewrite forallb_forall in Hall. exact (Hall _ Hin).
  - assert (Ht : truthy "" = true); [|discriminate Ht].
    unfold dict_get_table in Hin.
    destruct (dict_get predefined_translations_tasks lang) as [table|] eqn:E; [|destruct Hin].
    simpl in Hin. apply dict_get_In in E.
    pose proof tasks_values_truthy as Hall. unfold values_truthy in Hall.
    rewrite forallb_forall in Hall. specialize (Hall _ E). simpl in Hall.
    rewrite forallb_forall in Hall. exact (Hall _ Hin).
Qed.

Lemma dictionary_answers_come_from_the_tables_witness :
  translate_text_with_dictionary "Buy groceries!" "French" = Some "Acheter des courses"
  /\ In "French" supported_languages
  /\ "Acheter des courses" <> ""
  /\ exists k,
      In (k, "Acheter des courses") (dict_get_table predefined_translations_ui "French")
      \/ In (k, "Acheter des courses") (dict_get_table predefined_translations_tasks "French").
Proof.
  assert (H : translate_text_with_dictionary "Buy groceries!" "French"
              = Some "Acheter des courses") by (vm_compute; reflexivity).
  split; [exact H|].
  exact (dictionary_answers_come_from_the_tables "Buy groceries!" "French"
           "Acheter des courses" H).
Defined.

Lemma str_prefix_refl s : String.prefix s s = true.
Proof.
  induction s as [|c s IH]; simpl; [reflexivity|].
  destruct (ascii_dec c c) as [_|Hn]; [exact IH|now contradiction Hn].
Qed.

Lemma partial_match_refl key : partial_match key key = true.
Proof.
  unfold partial_match. destruct key; simpl; [reflexivity|].
  destruct (ascii_dec a a) as [_|Hn]; [|now contradiction Hn].
  now rewrite str_prefix_refl.
Qed.

(** The substring test of the loop, in words: [needle in hay] holds
    exactly when [hay] is some text, then [needle], then some text. *)
Lemma prefix_occurs needle hay :
  String.prefix needle hay = true <-> exists after, hay = needle +:+ after.
Proof.
  revert needle. induction hay as [|b hay IH]; intros [|a needle]; simpl.
  - split; [intros _; now exists ""|reflexivity].
  - split; [discriminate|]. intros (after & H). discriminate H.
  - split; [intros _; now exists (String b hay)|reflexivity].
  - destruct (ascii_dec a b) as [<-|Hn].
    + rewrite IH. split.
      * intros (after & ->). now exists after.
      * intros (after & H). rewrite append_cons_l in H. injection H as ->.
        now exists after.
    + split; [discriminate|]. intros (after & H). rewrite append_cons_l in H.
      injection H as <- _. now contradiction Hn.
Qed.

Lemma str_in_occurs needle hay : str_in needle hay = true <-> occurs needle hay.
Proof.
  unfold occurs. induction hay as [|b hay IH].
  - cbn [str_in]. rewrite orb_false_r, prefix_occurs. split.
    + intros (after & H). now exists "", after.
    + intros (before & after & H). destruct before as [|c before]; [|discriminate H].
      now exists after.
  - cbn [str_in]. rewrite orb_true_iff, prefix_occurs, IH. split.
    + intros [(after & H)|(before & after & H)].
      * now exists "", after.
      * exists (String b before), after. now rewrite append_cons_l, H.
    + intros ([|c before] & after & H).
      * left. now exists after.
      * right. rewrite append_cons_l in H. injection H as _ ->. now exists before, after.
Qed.

Lemma partial_match_occurs key k :
  partial_match key k = false <-> ~ occurs key k /\ ~ occurs k key.
Proof.
  unfold partial_match. rewrite orb_false_iff, <- !str_in_occurs.
  rewrite !not_true_iff_false. reflexivity.
Qed.

(** X8. The resolver gives up exactly when the normalised key is no key of
    the language's UI table and, for every key of its task-phrase table,
    neither occurs in that key nor has that key occurring in it. *)
Theorem dictionary_miss_iff text lang :
  translate_text_with_dictionary text lang = None
  <-> dict_get (dict_get_table predefined_translations_ui lang) (normalize text) = None
      /\ forall k v, In (k, v) (dict_get_table predefined_translations_tasks lang) ->
                     ~ occurs (normalize text) k /\ ~ occurs k (normalize text).
Proof.
  assert (Hwords :
            (forall k v, In (k, v) (dict_get_table predefined_translations_tasks lang) ->
                         partial_match (normalize text) k = false)
            <-> (forall k v, In (k, v) (dict_get_table predefined_translations_tasks lang) ->
                             ~ occurs (normalize text) k /\ ~ occurs k (normalize text))).
  { split; intros H k v Hin; apply partial_match_occurs, (H k v Hin). }
  rewrite <- Hwords. clear Hwords.
  unfold translate_text_with_dictionary.
  destruct (dict_get (dict_get_table predefined_translations_ui lang) (normalize text))
    as [u|] eqn:Hu; simpl.
  - rewrite (values_truthy_get _ _ _ _ ui_values_truthy Hu).
    split; [discriminate|]. intros [H _]. discriminate H.
  - destruct (dict_get (dict_get_table predefined_translations_tasks lang) (normalize text))
      as [t|] eqn:Ht; simpl.
    + rewrite (values_truthy_get _ _ _ _ tasks_values_truthy Ht).
      split; [discriminate|]. intros [_ H].
      apply dict_get_In in Ht. specialize (H _ _ Ht).
      rewrite partial_match_refl in H. discriminate H.
    + rewrite partial_scan_None. split; [auto|]. now intros [_ H].
Qed.

(** [WOR] with the Kelvin sign has the key [work], which is a Spanish task
    phrase; [wor] occurs in that key and is answered by the scan; a text
    with no relation to any key is given up. *)
Example dictionary_miss_examples :
  translate_text_with_dictionary ("WOR" +:+ kelvin_sign) "Spanish" = Some "Trabajo"
  /\ translate_text_with_dictionary "wor" "Spanish" = Some "Trabajo"
  /\ translate_text_with_dictionary "Quantum flux capacitor repair" "Spanish" = None.
Proof. vm_compute. repeat split; reflexivity. Qed.

Lemma english_ui_keys lang :
  In lang supported_languages ->
  map fst (dict_get_table predefined_translations_ui lang)
  = map fst (dict_get_table predefined_translations_ui "English").
Proof.
  simpl. intros [<-|[<-|[<-|[<-|[<-|[<-|[]]]]]]]; reflexivity.
Qed.

Lemma dict_get_is_Some {V} (d : list (string * V)) k :
  In k (map fst d) -> exists v, dict_get d k = Some v.
Proof.
  induction d as [|[k' v'] d IH]; simpl; [intros []|].
  destruct (String.eqb k' k) eqn:E; [eauto|].
  intros [H|H]; [|auto]. apply String.eqb_neq in E. now contradiction E.
Qed.

(** X9. The six UI tables have the same keys.  For a supported language
    [get_ui_text] returns, for a key of the English table, the non-empty
    label of that language's table, and for any other key the key itself. *)
Theorem get_ui_text_label lang key selected :
  In lang supported_languages ->
  (In key (map fst (dict_get_table predefined_translations_ui "English")) ->
   exists label,
     dict_get (dict_get_table predefined_translations_ui lang) key = Some label
     /\ get_ui_text key (Some lang) selected = label
     /\ label <> "")
  /\ (~ In key (map fst (dict_get_table predefined_translations_ui "English")) ->
      get_ui_text key (Some lang) selected = key).
Proof.
  intros Hlang. pose proof (english_ui_keys lang Hlang) as Hkeys. split.
  - intros Hkey. rewrite <- Hkeys in Hkey.
    destruct (dict_get_is_Some _ _ Hkey) as (label & Hget).
    exists label. split; [exact Hget|]. split.
    + unfold get_ui_text. simpl. now rewrite Hget.
    + intros ->. pose proof (values_truthy_get _ _ _ _ ui_values_truthy Hget) as Ht.
      discriminate Ht.
  - intros Hn. rewrite <- Hkeys in Hn.
    unfold get_ui_text. simpl. now rewrite (dict_get_None _ _ Hn).
Qed.

Lemma get_ui_text_label_witness :
  In "German" supported_languages
  /\ (In "add_task" (map fst (dict_get_table predefined_translations_ui "English")) ->
      exists label,
        dict_get (dict_get_table predefined_translations_ui "German") "add_task" = Some label
        /\ get_ui_text "add_task" (Some "German") "English" = label
        /\ label <> "")
  /\ (~ In "add_task" (map fst (dict_get_table predefined_translations_ui "English")) ->
      get_ui_text "add_task" (Some "German") "English" = "add_task").
Proof.
  assert (H : In "German" supported_languages) by (simpl; auto 10).
  split; [exact H|].
  exact (get_ui_text_label "German" "add_task" "English" H).
Defined.

(** ** Importing, beyond the failing batch *)

Section ImportMore.

Variable uuid4 : nat -> string.

Lemma post_init_initialised t : initialised (post_init t).
Proof.
  unfold initialised, post_init. simpl.
  split; [destruct (tags t)|destruct (translations t)]; discriminate.
Qed.

Lemma build_task_frame r w :
  exists o w',
    build_task uuid4 r w = (o, w')
    /\ tasks w' = tasks w
    /\ trace w' = trace w
    /\ translation_cache w' = translation_cache w
    /\ api_usage_count w' = api_usage_count w
    /\ (forall t, o = Return t -> initialised t).
Proof.
  destruct r as [| | | | | |members];
    try (eexists _, _; split; [reflexivity|]; simpl; repeat split; auto; discriminate).
  unfold build_task, draw_uuid, bind, lift, gets, modify, ret. simpl.
  destruct (dict_get members "title");
    [|eexists _, _; split; [reflexivity|]; simpl; repeat split; auto; discriminate].
  destruct (dict_get members "description");
    [|eexists _, _; split; [reflexivity|]; simpl; repeat split; auto; discriminate].
  destruct (dict_get members "priority");
    [|eexists _, _; split; [reflexivity|]; simpl; repeat split; auto; discriminate].
  destruct (dict_get members "status");
    [|eexists _, _; split; [reflexivity|]; simpl; repeat split; auto; discriminate].
  destruct (dict_get members "created_at");
    [|eexists _, _; split; [reflexivity|]; simpl; repeat split; auto; discriminate].
  eexists _, _; split; [reflexivity|]. simpl.
  split; [reflexivity|]. split; [reflexivity|]. split; [reflexivity|].
  split; [reflexivity|]. intros t [= <-]. apply post_init_initialised.
Qed.

Lemma import_loop_frame items n w :
  exists o w' added,
    import_loop uuid4 items n w = (o, w')
    /\ tasks w' = tasks w ++ added
    /\ Forall initialised added
    /\ trace w' = trace w
    /\ translation_cache w' = translation_cache w
    /\ api_usage_count w' = api_usage_count w
    /\ (forall m, o = Return m -> m = n + Z.of_nat (length added)).
Proof.
  revert n w. induction items as [|r items IH]; intros n w; simpl.
  - exists (Return n), w, []. rewrite app_nil_r. simpl.
    repeat split; auto. intros m [= <-]. lia.
  - destruct (build_task_frame r w) as (o & w1 & Hb & Ht & Htr & Hc & Hn & Hinit).
    unfold bind at 1. rewrite Hb. destruct o as [t|e].
    + unfold bind at 1. unfold modify at 1.
      destruct (IH (n + 1) (set_tasks (tasks w1 ++ [t]) w1))
        as (o' & w' & added & Hrun & Htasks & Hall & Htrace & Hcache & Hcount & Hlen).
      exists o', w', (t :: added). split; [exact Hrun|]. simpl in *.
      rewrite Htasks, Ht, <- app_assoc. simpl.
      split; [reflexivity|]. split; [constructor; auto|].
      split; [congruence|]. split; [congruence|]. split; [congruence|].
      intros m Hm. rewrite (Hlen m Hm). lia.
    + exists (Raise e), w1, []. rewrite app_nil_r.
      repeat split; auto. discriminate.
Qed.

Lemma import_loop_complete records n w :
  forallb complete_record records = true ->
  exists w',
    import_loop uuid4 records n w = (Return (n + Z.of_nat (length records)), w')
    /\ tasks w' = tasks w ++ tasks_of_records uuid4 (uuid_drawn w) records
    /\ uuid_drawn w' = (uuid_drawn w + length records)%nat
    /\ trace w' = trace w
    /\ translation_cache w' = translation_cache w
    /\ api_usage_count w' = api_usage_count w.
Proof.
  revert n w. induction records as [|r records IH]; intros n w Hall; simpl.
  - exists w. rewrite app_nil_r, Z.add_0_r, Nat.add_0_r. auto 10.
  - simpl in Hall. apply andb_true_iff in Hall. destruct Hall as [Hr Hall].
    unfold bind at 1. rewrite (build_task_complete uuid4 r w Hr).
    unfold bind at 1. unfold modify at 1.
    destruct (IH (n + 1)
                (set_tasks (tasks (set_uuid_drawn (S (uuid_drawn w)) w)
                            ++ [task_of_record (uuid4 (uuid_drawn w)) r])
                   (set_uuid_drawn (S (uuid_drawn w)) w)) Hall)
      as (w' & Hrun & Htasks & Hu & Htrace & Hcache & Hcount).
    exists w'. simpl in *. rewrite Hrun, Htasks, Hu, <- app_assoc. simpl.
    split; [f_equal; f_equal; lia|]. split; [reflexivity|].
    split; [lia|]. auto.
Qed.

End ImportMore.

(** X10. When the decoder returns an array whose records all have the five
    required fields, the import returns [True], appends one task per record
    in the order of the array, draws one identifier per record, reports the
    number of records and leaves the cache and the counter alone. *)
Theorem import_complete_batch json_loads uuid4 json_data records w :
  json_loads json_data = Return (JArray records) ->
  forallb complete_record records = true ->
  exists w',
    import_tasks_json json_loads uuid4 json_data w = (Return true, w')
    /\ tasks w' = tasks w ++ tasks_of_records uuid4 (uuid_drawn w) records
    /\ uuid_drawn w' = (uuid_drawn w + length records)%nat
    /\ trace w' = EvStSuccess (Z.of_nat (length records)) :: trace w
    /\ translation_cache w' = translation_cache w
    /\ api_usage_count w' = api_usage_count w.
Proof.
  intros Hloads Hall.
  destruct (import_loop_complete uuid4 records 0 w Hall)
    as (w' & Hrun & Htasks & Hu & Htrace & Hcache & Hcount).
  unfold import_tasks_json, try_except.
  unfold bind at 1. unfold lift at 1. rewrite Hloads.
  unfold bind at 1. unfold lift at 1. simpl py_iter. cbv iota beta.
  unfold bind at 1. rewrite Hrun.
  eexists. split; [reflexivity|]. simpl. rewrite Htrace. auto 10.
Qed.

Lemma import_complete_batch_witness :
  one_task_loads "one-task-export" = Return (JArray (map asdict (tasks one_task_session)))
  /\ forallb complete_record (map asdict (tasks one_task_session)) = true
  /\ exists w',
      import_tasks_json one_task_loads example_uuid4 "one-task-export" init_session_state
      = (Return true, w')
      /\ tasks w'
         = tasks init_session_state
           ++ tasks_of_records example_uuid4 (uuid_drawn init_session_state)
                (map asdict (tasks one_task_session))
      /\ uuid_drawn w'
         = (uuid_drawn init_session_state
            + length (map asdict (tasks one_task_session)))%nat
      /\ trace w'
         = EvStSuccess (Z.of_nat (length (map asdict (tasks one_task_session))))
           :: trace init_session_state
      /\ translation_cache w' = translation_cache init_session_state
      /\ api_usage_count w' = api_usage_count init_session_state.
Proof.
  split; [reflexivity|]. split; [reflexivity|].
  exact (import_complete_batch one_task_loads example_uuid4 "one-task-export"
           (map asdict (tasks one_task_session)) init_session_state eq_refl eq_refl).
Defined.

(** X11. Whatever the decoder and the text, [import_tasks_json] returns a
    Boolean and never raises; what was in the task list stays in place as a
    prefix, every task it adds has tags and translations that are not
    [None], the cache and the counter are untouched, and exactly one notice
    is shown: the count of the added tasks on success, an error otherwise. *)
Theorem import_tasks_json_frame json_loads uuid4 json_data w :
  exists ok w' added,
    import_tasks_json json_loads uuid4 json_data w = (Return ok, w')
    /\ tasks w' = tasks w ++ added
    /\ Forall initialised added
    /\ translation_cache w' = translation_cache w
    /\ api_usage_count w' = api_usage_count w
    /\ (ok = true -> trace w' = EvStSuccess (Z.of_nat (length added)) :: trace w)
    /\ (ok = false -> exists e, trace w' = EvStError "❌ Import failed: " e :: trace w).
Proof.
  unfold import_tasks_json, try_except.
  unfold bind at 1. unfold lift at 1.
  destruct (json_loads json_data) as [v|e].
  - unfold bind at 1. unfold lift at 1.
    destruct (py_iter v) as [items|e].
    + destruct (import_loop_frame uuid4 items 0 w)
        as (o & w' & added & Hrun & Htasks & Hall & Htrace & Hcache & Hcount & Hlen).
      unfold bind at 1. rewrite Hrun. destruct o as [m|e].
      * exists true. eexists. exists added. split; [reflexivity|]. simpl.
        rewrite (Hlen m eq_refl), Htrace. repeat split; auto. discriminate.
      * exists false. eexists. exists added. split; [reflexivity|]. simpl.
        rewrite Htrace. repeat split; auto; [discriminate|]. eauto.
    + exists false. eexists. exists []. split; [reflexivity|]. simpl.
      rewrite app_nil_r. repeat split; auto; [discriminate|]. eauto.
  - exists false. eexists. exists []. split; [reflexivity|]. simpl.
    rewrite app_nil_r. repeat split; auto; [discriminate|]. eauto.
Qed.

(** A text that is not empty has a first character. *)
Lemma decode_cons c s : exists n l, decode (String c s) = n :: l.
Proof.
  cbn [decode].
  repeat match goal with
         | |- context [if ?b then _ else _] => destruct b
         | |- context [match ?x with EmptyString => _ | String _ _ => _ end] =>
             destruct x
         end; eauto.
Qed.

(** X12. A decoded document that is no array adds no task and draws no
    identifier.  The import still returns [True], reporting zero tasks, for
    the empty object and the empty string; for every other such document
    it returns [False]. *)
Theorem import_non_array json_loads uuid4 json_data v w :
  json_loads json_data = Return v ->
  is_array v = false ->
  exists w',
    import_tasks_json json_loads uuid4 json_data w = (Return (empty_container v), w')
    /\ tasks w' = tasks w
    /\ uuid_drawn w' = uuid_drawn w
    /\ (empty_container v = true -> trace w' = EvStSuccess 0 :: trace w).
Proof.
  intros Hloads Harr.
  unfold import_tasks_json, try_except.
  unfold bind at 1. unfold lift at 1. rewrite Hloads.
  destruct v as [| b | n | f | s | items | members]; try discriminate Harr;
    try (eexists; split; [reflexivity|]; simpl; repeat split; auto; discriminate).
  - destruct s as [|c s].
    + eexists; (split; [reflexivity|]); simpl; repeat split; auto; discriminate.
    + unfold py_iter. destruct (decode_cons c s) as (n & l & ->).
      eexists; (split; [reflexivity|]); simpl; repeat split; auto; discriminate.
  - destruct members as [|[k x] members];
      eexists; (split; [reflexivity|]); simpl; repeat split; auto; discriminate.
Qed.

Lemma import_non_array_witness :
  (fun _ : string => Return (JObject [])) "{}" = Return (JObject [])
  /\ is_array (JObject []) = false
  /\ exists w',
      import_tasks_json (fun _ : string => Return (JObject [])) example_uuid4 "{}"
        one_task_session
      = (Return (empty_container (JObject [])), w')
      /\ tasks w' = tasks one_task_session
      /\ uuid_drawn w' = uuid_drawn one_task_session
      /\ (empty_container (JObject []) = true ->
          trace w' = EvStSuccess 0 :: trace one_task_session).
Proof.
  split; [reflexivity|]. split; [reflexivity|].
  exact (import_non_array (fun _ : string => Return (JObject [])) example_uuid4 "{}"
           (JObject []) one_task_session eq_refl eq_refl).
Defined.

Lemma tasks_of_exported uuid4 n ts :
  tasks_of_records uuid4 n (map asdict ts) = map post_init ts.
Proof.
  revert n. induction ts as [|t ts IH]; intros n; simpl; [reflexivity|].
  now rewrite IH.
Qed.

Lemma exported_complete ts : forallb complete_record (map asdict ts) = true.
Proof. induction ts as [|t ts IH]; simpl; [reflexivity|exact IH]. Qed.

(** X13. Export then import, for a codec pair that decodes its own dump:
    the export is a pure read, and importing its text returns [True] and
    appends a copy of every task of the session, in order, with the
    identifiers it had (the tasks are duplicated, not merged). *)
Theorem export_import_round_trip json_dumps json_loads uuid4 w :
  json_loads (json_dumps (JArray (map asdict (tasks w))))
  = Return (JArray (map asdict (tasks w))) ->
  exists text w',
    export_tasks_json json_dumps w = (Return text, w)
    /\ import_tasks_json json_loads uuid4 text w = (Return true, w')
    /\ tasks w' = tasks w ++ map post_init (tasks w)
    /\ map id (tasks w') = map id (tasks w) ++ map id (tasks w).
Proof.
  intros Hcodec.
  exists (json_dumps (JArray (map asdict (tasks w)))).
  destruct (import_loop_complete uuid4 (map asdict (tasks w)) 0 w (exported_complete _))
    as (w' & Hrun & Htasks & _ & Htrace & _ & _).
  eexists. split; [reflexivity|].
  unfold import_tasks_json, try_except.
  unfold bind at 1. unfold lift at 1. rewrite Hcodec.
  unfold bind at 1. unfold lift at 1. simpl py_iter. cbv iota beta.
  unfold bind at 1. rewrite Hrun.
  split; [reflexivity|]. simpl. rewrite Htasks, tasks_of_exported.
  split; [reflexivity|]. rewrite map_app, map_map. reflexivity.
Qed.

Lemma export_import_round_trip_witness :
  one_task_loads (one_task_dumps (JArray (map asdict (tasks one_task_session))))
  = Return (JArray (map asdict (tasks one_task_session)))
  /\ exists text w',
      export_tasks_json one_task_dumps one_task_session = (Return text, one_task_session)
      /\ import_tasks_json one_task_loads example_uuid4 text one_task_session
         = (Return true, w')
      /\ tasks w' = tasks one_task_session ++ map post_init (tasks one_task_session)
      /\ map id (tasks w') = map id (tasks one_task_session) ++ map id (tasks one_task_session).
Proof.
  split; [reflexivity|].
  exact (export_import_round_trip one_task_dumps one_task_loads example_uuid4
           one_task_session eq_refl).
Defined.

(** ** The task store *)

Lemma json_eq_str_true v s : json_eq_str v s = true <-> v = JString s.
Proof.
  destruct v; simpl; try (split; [discriminate|intros [=]]).
  rewrite String.eqb_eq. split; [now intros ->|now intros [= ->]].
Qed.

Lemma json_eq_str_false v s : json_eq_str v s = false <-> v <> JString s.
Proof.
  rewrite <- json_eq_str_true. destruct (json_eq_str v s); split; auto; try discriminate.
  intros H. now contradiction H.
Qed.

Lemma filter_id_absent task_id (ts : list Task) :
  Forall (fun t => id t <> JString task_id) ts ->
  List.filter (fun task => negb (json_eq_str (id task) task_id)) ts = ts.
Proof.
  induction 1 as [|t ts Ht _ IH]; [reflexivity|].
  cbn [List.filter]. apply json_eq_str_false in Ht. rewrite Ht. simpl. now rewrite IH.
Qed.

(** X14. [delete_task] never raises and shows its notice; afterwards no task
    carries the identifier (every duplicate is gone too), the other tasks
    are all still there in their order, and a list without the identifier
    is left as it was.  The cache and the counter are untouched. *)
Theorem delete_task_removes_every_match task_id s :
  exists s',
    delete_task task_id s = (Return tt, s')
    /\ Forall (fun t => id t <> JString task_id) (tasks (state s'))
    /\ tasks (state s') `sublist_of` tasks (state s)
    /\ (forall t, In t (tasks (state s)) -> id t <> JString task_id ->
                  In t (tasks (state s')))
    /\ (Forall (fun t => id t <> JString task_id) (tasks (state s)) ->
        tasks (state s') = tasks (state s))
    /\ translation_cache (state s') = translation_cache (state s)
    /\ api_usage_count (state s') = api_usage_count (state s)
    /\ notices s' = st_success "🗑️ Task deleted successfully!" :: notices s.
Proof.
  eexists. split; [reflexivity|]. simpl.
  split; [|split; [|split; [|split]]].
  - apply List.Forall_forall. intros t Hin. apply filter_In in Hin. destruct Hin as [_ Hne].
    apply negb_true_iff, json_eq_str_false in Hne. exact Hne.
  - induction (tasks (state s)) as [|t ts IH]; simpl; [constructor|].
    destruct (negb (json_eq_str (id t) task_id)); now constructor.
  - intros t Hin Hne. apply filter_In. split; [exact Hin|].
    now apply negb_true_iff, json_eq_str_false.
  - apply filter_id_absent.
  - auto.
Qed.

Lemma filter_app_last task_id (ts : list Task) t :
  Forall (fun t => id t <> JString task_id) ts ->
  id t = JString task_id ->
  List.filter (fun task => negb (json_eq_str (id task) task_id)) (ts ++ [t]) = ts.
Proof.
  intros Hall Ht. rewrite List.filter_app, (filter_id_absent _ _ Hall). cbn [List.filter].
  apply json_eq_str_true in Ht. rewrite Ht. simpl. apply app_nil_r.
Qed.

(** X15. Creating a task and deleting it by the identifier it was given
    brings the task list back, provided no task had that identifier before;
    the created task sits at the end of the list with status Todo, the
    given tags (none when [tags] is [None]) and no translations. *)
Theorem create_then_delete uuid4 now_isoformat title description priority tags s :
  Forall (fun t => id t <> JString (uuid4 (uuid_drawn (state s)))) (tasks (state s)) ->
  exists s1 s2,
    create_task uuid4 now_isoformat title description priority tags s = (Return tt, s1)
    /\ tasks (state s1)
       = tasks (state s)
         ++ [mkTask (JString (uuid4 (uuid_drawn (state s)))) (JString title)
               (JString description) (JString priority) (JString Status_TODO)
               (JString (now_isoformat (now_drawn s)))
               (JArray (map JString (default [] tags))) (JObject [])]
    /\ delete_task (uuid4 (uuid_drawn (state s))) s1 = (Return tt, s2)
    /\ tasks (state s2) = tasks (state s).
Proof.
  intros Hfresh.
  unfold create_task, delete_task, app_draw_uuid, app_now, set_session_tasks, notify,
    app_bind, app_gets, app_modify, app_ret. simpl.
  eexists _, _. split; [reflexivity|]. simpl.
  split; [reflexivity|]. split; [reflexivity|]. simpl.
  now apply filter_app_last.
Qed.

Lemma create_then_delete_witness :
  Forall (fun t => id t <> JString (example_uuid4 (uuid_drawn (state (session_of one_task_session)))))
    (tasks (state (session_of one_task_session)))
  /\ exists s1 s2,
      create_task example_uuid4 example_now "Call doctor" "" Priority_LOW None
        (session_of one_task_session) = (Return tt, s1)
      /\ tasks (state s1)
         = tasks (state (session_of one_task_session))
           ++ [mkTask (JString (example_uuid4 (uuid_drawn (state (session_of one_task_session)))))
                 (JString "Call doctor") (JString "") (JString Priority_LOW)
                 (JString Status_TODO)
                 (JString (example_now (now_drawn (session_of one_task_session))))
                 (JArray (map JString (default [] None))) (JObject [])]
      /\ delete_task (example_uuid4 (uuid_drawn (state (session_of one_task_session)))) s1
         = (Return tt, s2)
      /\ tasks (state s2) = tasks (state (session_of one_task_session)).
Proof.
  assert (H : Forall (fun t => id t
                               <> JString (example_uuid4
                                             (uuid_drawn (state (session_of one_task_session)))))
                (tasks (state (session_of one_task_session)))).
  { repeat constructor. discriminate. }
  split; [exact H|].
  exact (create_then_delete example_uuid4 example_now "Call doctor" "" Priority_LOW None
           (session_of one_task_session) H).
Defined.

Lemma update_first_absent task_id kwargs ts :
  Forall (fun t => id t <> JString task_id) ts -> update_first task_id kwargs ts = ts.
Proof.
  induction 1 as [|t ts Ht _ IH]; [reflexivity|].
  simpl. apply json_eq_str_false in Ht. rewrite Ht. now rewrite IH.
Qed.

Lemma update_first_split task_id kwargs before t after :
  Forall (fun t => id t <> JString task_id) before ->
  id t = JString task_id ->
  update_first task_id kwargs (before ++ t :: after)
  = before ++ fold_left (fun t kv => setattr t (fst kv) (snd kv)) kwargs t :: after.
Proof.
  intros Hall Ht. induction Hall as [|b before Hb _ IH]; simpl.
  - apply json_eq_str_true in Ht. now rewrite Ht.
  - apply json_eq_str_false in Hb. rewrite Hb. now rewrite IH.
Qed.

Lemma update_first_length task_id kwargs ts :
  length (update_first task_id kwargs ts) = length ts.
Proof.
  induction ts as [|t ts IH]; simpl; [reflexivity|].
  destruct (json_eq_str (id t) task_id); simpl; [reflexivity|]. now rewrite IH.
Qed.

(** X16. [update_task] never raises and keeps the number of tasks.  Only the
    first task that carries the identifier receives the keyword values, in
    the order given; the tasks before and after it, also later tasks with
    the same identifier, stay as they were; and when no task carries the
    identifier nothing changes at all. *)
Theorem update_task_changes_first_match task_id kwargs s :
  exists s',
    update_task task_id kwargs s = (Return tt, s')
    /\ length (tasks (state s')) = length (tasks (state s))
    /\ notices s' = notices s
    /\ (Forall (fun t => id t <> JString task_id) (tasks (state s)) -> s' = s)
    /\ (forall before t after,
          tasks (state s) = before ++ t :: after ->
          Forall (fun t => id t <> JString task_id) before ->
          id t = JString task_id ->
          tasks (state s')
          = before ++ fold_left (fun t kv => setattr t (fst kv) (snd kv)) kwargs t :: after).
Proof.
  eexists. split; [reflexivity|]. simpl.
  split; [apply update_first_length|]. split; [reflexivity|]. split.
  - intros Hall. rewrite (update_first_absent _ _ _ Hall).
    destruct s as [[] ? ? ?]; reflexivity.
  - intros before t after Hts Hall Ht. rewrite Hts. now apply update_first_split.
Qed.

(** ** Filtering *)

Lemma any_tag_matches_strings q items :
  forallb is_string items = true ->
  any_tag_matches q items
  = Return (existsb (fun tag => str_in q (str_lower (string_of tag))) items).
Proof.
  induction items as [|tag items IH]; simpl; [reflexivity|].
  intros H. apply andb_true_iff in H. destruct H as [Htag Hitems].
  destruct tag; try discriminate Htag. simpl.
  destruct (str_in q (str_lower s)); [reflexivity|]. now apply IH.
Qed.

Lemma search_condition_well_typed q t :
  well_typed t = true ->
  search_condition q t
  = Return (str_in q (str_lower (string_of (title t)))
            || str_in q (str_lower (string_of (description t)))
            || match tags t with
               | JArray items =>
                   existsb (fun tag => str_in q (str_lower (string_of tag))) items
               | _ => false
               end).
Proof.
  unfold well_typed, search_condition. intros H.
  apply andb_true_iff in H. destruct H as [H Htags].
  apply andb_true_iff in H. destruct H as [Htitle Hdesc].
  destruct (title t); try discriminate Htitle.
  destruct (description t); try discriminate Hdesc.
  destruct (tags t); try discriminate Htags. simpl.
  destruct (str_in q (str_lower s)); [reflexivity|].
  destruct (str_in q (str_lower s0)); [reflexivity|].
  simpl. now apply any_tag_matches_strings.
Qed.

Lemma comprehension_total {A} (cond : A -> outcome bool) (p : A -> bool) l :
  Forall (fun x => cond x = Return (p x)) l ->
  comprehension cond l = Return (List.filter p l).
Proof.
  induction 1 as [|x l Hx _ IH]; simpl; [reflexivity|].
  rewrite Hx, IH. reflexivity.
Qed.

Lemma comprehension_raises {A} (cond : A -> outcome bool) l :
  Exists (fun x => exists e, cond x = Raise e) l ->
  exists e, comprehension cond l = Raise e.
Proof.
  induction 1 as [x l (e & He)|x l _ (e & IH)]; simpl.
  - rewrite He. eauto.
  - destruct (cond x) as [keep|e']; [|eauto]. rewrite IH. eauto.
Qed.

Lemma filter_filter {A} (p q : A -> bool) l :
  List.filter q (List.filter p l) = List.filter (fun x => p x && q x) l.
Proof.
  induction l as [|x l IH]; simpl; [reflexivity|].
  destruct (p x); simpl; [|exact IH]. destruct (q x); now rewrite IH.
Qed.

Lemma filter_all {A} (p : A -> bool) l :
  (forall x, p x = true) -> List.filter p l = l.
Proof.
  intros Hp. induction l as [|x l IH]; simpl; [reflexivity|]. now rewrite Hp, IH.
Qed.

Lemma filter_sublist {A} (p : A -> bool) l : List.filter p l `sublist_of` l.
Proof.
  induction l as [|x l IH]; simpl; [constructor|]. destruct (p x); now constructor.
Qed.

Lemma filter_stage status_filter priority_filter (l : list Task) :
  (if negb (String.eqb priority_filter "All")
   then List.filter (fun task => json_eq_str (priority task) priority_filter)
          (if negb (String.eqb status_filter "All")
           then List.filter (fun task => json_eq_str (status task) status_filter) l
           else l)
   else if negb (String.eqb status_filter "All")
        then List.filter (fun task => json_eq_str (status task) status_filter) l
        else l)
  = List.filter (fun t => status_ok status_filter t && priority_ok priority_filter t) l.
Proof.
  unfold status_ok, priority_ok.
  destruct (String.eqb status_filter "All"), (String.eqb priority_filter "All"); simpl;
    rewrite ?filter_filter; try (symmetry; now apply filter_all);
    apply filter_ext; intros t; simpl; rewrite ?andb_true_r; reflexivity.
Qed.

Lemma search_ok_hit search_query t :
  search_ok search_query t = true <-> search_hit search_query t.
Proof.
  unfold search_ok, search_hit.
  rewrite !orb_true_iff, !str_in_occurs, negb_true_iff.
  assert (Hq : truthy search_query = false <-> search_query = "").
  { split; [apply truthy_empty|intros ->; reflexivity]. }
  rewrite Hq.
  assert (Htags :
            match tags t with
            | JArray items =>
                existsb (fun tag => str_in (str_lower search_query)
                                      (str_lower (string_of tag))) items
            | _ => false
            end = true
            <-> exists tag,
                match tags t with JArray items => In tag items | _ => False end
                /\ occurs (str_lower search_query) (str_lower (string_of tag))).
  { destruct (tags t); try (split; [discriminate|intros (tag & [] & _)]).
    rewrite existsb_exists.
    split; intros (tag & Hin & H); exists tag; (split; [exact Hin|]);
      now apply str_in_occurs. }
  rewrite Htags. tauto.
Qed.

(** X17. On tasks whose title and description are strings and whose tags are
    a list of strings, [get_filtered_tasks] never raises and changes
    nothing: it returns, in their order, exactly the tasks that pass the
    search (if one is given; case is ignored and the title, the description
    and the tags are searched), the status filter and the priority filter
    (each off when it is "All").  A task passes the search when there is no
    query or the lower-cased query occurs in its lower-cased title,
    description or one of its tags. *)
Theorem get_filtered_tasks_well_typed search_query status_filter priority_filter s :
  Forall (fun t => well_typed t = true) (tasks (state s)) ->
  get_filtered_tasks search_query status_filter priority_filter s
  = (Return (List.filter
               (fun t => search_ok search_query t && status_ok status_filter t
                         && priority_ok priority_filter t)
               (tasks (state s))), s)
  /\ List.filter
       (fun t => search_ok search_query t && status_ok status_filter t
                 && priority_ok priority_filter t)
       (tasks (state s)) `sublist_of` tasks (state s)
  /\ (forall t, search_ok search_query t = true <-> search_hit search_query t).
Proof.
  intros Hall. split; [|split; [apply filter_sublist|intros t; apply search_ok_hit]].
  assert (Hfuse : forall l : list Task,
             List.filter (fun t => status_ok status_filter t && priority_ok priority_filter t)
               (List.filter (search_ok search_query) l)
             = List.filter
                 (fun t => search_ok search_query t && status_ok status_filter t
                           && priority_ok priority_filter t) l).
  { intros l. rewrite filter_filter. apply filter_ext. intros t.
    now rewrite andb_assoc. }
  unfold get_filtered_tasks, app_bind, app_gets, app_ret, app_lift.
  destruct (truthy search_query) eqn:Hq; cbv beta.
  - rewrite (comprehension_total _
               (fun t => str_in (str_lower search_query) (str_lower (string_of (title t)))
                         || str_in (str_lower search_query)
                              (str_lower (string_of (description t)))
                         || match tags t with
                            | JArray items =>
                                existsb (fun tag => str_in (str_lower search_query)
                                                      (str_lower (string_of tag))) items
                            | _ => false
                            end)).
    + cbv iota beta. rewrite filter_stage, <- Hfuse. f_equal. f_equal. f_equal.
      apply filter_ext. intros t. unfold search_ok. rewrite Hq. reflexivity.
    + eapply List.Forall_impl; [|exact Hall]. intros t Ht. simpl in Ht.
      now apply search_condition_well_typed.
  - cbv iota beta. rewrite filter_stage, <- Hfuse. f_equal. f_equal. f_equal.
    symmetry. apply filter_all. intros t. unfold search_ok. now rewrite Hq.
Qed.

Lemma get_filtered_tasks_well_typed_witness :
  Forall (fun t => well_typed t = true) (tasks (state (session_of one_task_session)))
  /\ get_filtered_tasks "MILK" "All" "High" (session_of one_task_session)
     = (Return (List.filter
                  (fun t => search_ok "MILK" t && status_ok "All" t && priority_ok "High" t)
                  (tasks (state (session_of one_task_session)))),
        session_of one_task_session)
  /\ List.filter
       (fun t => search_ok "MILK" t && status_ok "All" t && priority_ok "High" t)
       (tasks (state (session_of one_task_session)))
     `sublist_of` tasks (state (session_of one_task_session))
  /\ (forall t, search_ok "MILK" t = true <-> search_hit "MILK" t).
Proof.
  assert (H : Forall (fun t => well_typed t = true)
                (tasks (state (session_of one_task_session))))
    by (repeat constructor).
  split; [exact H|].
  exact (get_filtered_tasks_well_typed "MILK" "All" "High" (session_of one_task_session) H).
Defined.

Example search_finds_milk :
  fst (get_filtered_tasks "MILK" "All" "High" (session_of one_task_session))
  = Return (tasks one_task_session).
Proof. vm_compute. reflexivity. Qed.

(** Case is ignored outside ASCII as well: the query [é] finds the task
    titled [CAFÉ], and so does the query [caf] followed by the capital. *)
Example search_finds_accented_title :
  let cafe := mkTask (JString "t1") (JString "CAFÉ") (JString "") (JString "High")
                (JString "Todo") (JString "2024-01-01T09:00:00") (JArray []) (JObject []) in
  let s := session_of (mkWorld [cafe] ∅ 0 0%nat []) in
  well_typed cafe = true
  /\ fst (get_filtered_tasks "é" "All" "All" s) = Return [cafe]
  /\ fst (get_filtered_tasks "cafÉ" "All" "All" s) = Return [cafe]
  /\ fst (get_filtered_tasks "e" "All" "All" s) = Return [].
Proof. vm_compute. repeat split; reflexivity. Qed.

(** X18. A task whose title is not a string (the import accepts one, for
    instance a [null] title) makes every search with a non-empty query
    raise, whatever the other tasks and filters are. *)
Theorem search_raises_on_untyped_title search_query status_filter priority_filter s :
  search_query <> "" ->
  Exists (fun t => is_string (title t) = false) (tasks (state s)) ->
  exists e,
    get_filtered_tasks search_query status_filter priority_filter s = (Raise e, s).
Proof.
  intros Hq Hex.
  unfold get_filtered_tasks, app_bind, app_gets, app_ret, app_lift.
  rewrite (truthy_true _ Hq).
  destruct (comprehension_raises (search_condition (str_lower search_query))
              (tasks (state s))) as (e & He).
  { eapply List.Exists_impl; [|exact Hex]. intros t Ht. simpl in Ht.
    exists AttributeError. unfold search_condition.
    destruct (title t); try reflexivity. discriminate Ht. }
  exists e. now rewrite He.
Qed.

Lemma all_option_not_english selected_language :
  selected_language <> "English" ->
  String.eqb (all_option selected_language) "All" = false
  /\ forall v, In v status_values -> json_eq_str v (all_option selected_language) = false.
Proof.
  intros Hne. unfold all_option, get_ui_text. cbv zeta.
  change (default selected_language None) with selected_language.
  destruct (in_dec string_dec selected_language supported_languages) as [Hin|Hn].
  - simpl in Hin.
    destruct Hin as [<-|[<-|[<-|[<-|[<-|[<-|[]]]]]]]; try (now contradiction Hne);
      (split; [vm_compute; reflexivity|]);
      intros v [<-|[<-|[<-|[]]]]; vm_compute; reflexivity.
  - rewrite unknown_language_table by (now rewrite table_languages_ui).
    split; [reflexivity|]. intros v [<-|[<-|[<-|[]]]]; reflexivity.
Qed.

Lemma filter_none {A} (p : A -> bool) l :
  Forall (fun x => p x = false) l -> List.filter p l = [].
Proof.
  induction 1 as [|x l Hx _ IH]; simpl; [reflexivity|]. now rewrite Hx.
Qed.

(** X19. The opening view of "Manage Tasks".  In every language, with no
    search and both select boxes on their first option, the filter step of
    [run] lists every task.  This rests on its turning the label back into
    "All": [get_filtered_tasks] itself switches a filter off for the
    literal "All" only, and given the label of a language other than
    English it returns no task whose status is one of the [Status] values. *)
Theorem opening_view_lists_every_task selected_language s :
  manage_tasks_filter selected_language "" (all_option selected_language)
    (all_option selected_language) s
  = (Return (tasks (state s)), s)
  /\ (selected_language <> "English" ->
      Forall (fun t => In (status t) status_values) (tasks (state s)) ->
      get_filtered_tasks "" (all_option selected_language) (all_option selected_language) s
      = (Return [], s)).
Proof.
  split.
  - unfold manage_tasks_filter, all_option. now rewrite String.eqb_refl.
  - intros Hne Hstatus.
    destruct (all_option_not_english selected_language Hne) as [Hall Hvalues].
    unfold get_filtered_tasks, app_bind, app_gets, app_ret, app_lift. simpl.
    rewrite Hall. simpl.
    rewrite (filter_none (fun task => json_eq_str (status task) (all_option selected_language))).
    + reflexivity.
    + eapply List.Forall_impl; [|exact Hstatus]. intros t Ht. simpl in Ht. auto.
Qed.

Example spanish_label_is_no_filter_value :
  all_option "Spanish" = "Todos"
  /\ fst (get_filtered_tasks "" (all_option "Spanish") (all_option "Spanish")
            (session_of (set_tasks [mkTask (JString "t1") (JString "Buy milk") (JString "")
                                      (JString Priority_HIGH) (JString Status_TODO)
                                      (JString "2024-01-01T09:00:00") (JArray [])
                                      (JObject [])]
                           init_session_state)))
     = Return [].
Proof. vm_compute. split; reflexivity. Qed.

(** ** Setting up the client *)

(** X20. [setup_openai_client] never raises and leaves the tasks, the
    translation cache, the usage counter and the clock of the session
    alone; of the session state it writes the flag of the missing-key hint
    only, which it never takes back, and a run that ends with a client
    changes nothing at all.  It ends with a client exactly when the library
    was imported, the key is set and starts with "sk-", the constructor
    returned and the connection test passed; the client is then the one
    constructed. *)
Theorem setup_openai_client_configured env s :
  exists client s',
    setup_openai_client env s = (Return client, s')
    /\ state s' = state s
    /\ now_drawn s' = now_drawn s
    /\ (api_key_warning_shown s = true -> api_key_warning_shown s' = true)
    /\ (client <> None -> s' = s)
    /\ forall c,
        client = Some c
        <-> OPENAI_AVAILABLE env = true
            /\ exists api_key handle,
                OPENAI_API_KEY env = Some api_key
                /\ String.prefix "sk-" api_key = true
                /\ OpenAI_new env api_key = Return handle
                /\ models_list handle = Return tt
                /\ c = chat handle.
Proof.
  assert (Hframe : forall (client : option OpenAI) s',
             setup_openai_client env s = (Return client, s') ->
             state s' = state s
             /\ now_drawn s' = now_drawn s
             /\ (api_key_warning_shown s = true -> api_key_warning_shown s' = true)
             /\ (client <> None -> s' = s)).
  { intros client s'. unfold setup_openai_client, api_key_hint, app_bind, app_gets, app_ret,
      notify, app_modify.
    destruct (OPENAI_AVAILABLE env); simpl;
      [|intros [= <- <-]; auto].
    destruct (OPENAI_API_KEY env) as [api_key|];
      [destruct (truthy api_key); simpl;
       [destruct (String.prefix "sk-" api_key);
        [destruct (OpenAI_new env api_key) as [handle|e];
         [destruct (models_list handle) as [[]|e]|]|]|]|];
      try (destruct (api_key_warning_shown s) eqn:Hshown);
      intros [= <- <-]; simpl; repeat split; auto;
      try (intros Hn; now contradiction Hn); try congruence. }
  assert (Hrun : exists client s',
             setup_openai_client env s = (Return client, s')
             /\ forall c,
                 client = Some c
                 <-> OPENAI_AVAILABLE env = true
                     /\ exists api_key handle,
                         OPENAI_API_KEY env = Some api_key
                         /\ String.prefix "sk-" api_key = true
                         /\ OpenAI_new env api_key = Return handle
                         /\ models_list handle = Return tt
                         /\ c = chat handle).
  { unfold setup_openai_client.
    destruct (OPENAI_AVAILABLE env) eqn:Hav; simpl.
    - destruct (OPENAI_API_KEY env) as [api_key|] eqn:Hkey.
      + destruct (truthy api_key) eqn:Ht; simpl.
        * destruct (String.prefix "sk-" api_key) eqn:Hp.
          -- destruct (OpenAI_new env api_key) as [handle|e] eqn:Hnew.
             ++ destruct (models_list handle) as [[]|e] eqn:Htest.
                ** eexists _, _. split; [reflexivity|].
                   intros c. split.
                   --- intros [= <-]. split; [reflexivity|]. exists api_key, handle. auto.
                   --- intros (_ & k & h & [= <-] & _ & Hn & _ & ->).
                       rewrite Hnew in Hn. now injection Hn as <-.
                ** eexists _, _. split; [reflexivity|].
                   intros c. split; [discriminate|].
                   intros (_ & k & h & [= <-] & _ & Hn & Hl & _).
                   rewrite Hnew in Hn. injection Hn as <-. rewrite Htest in Hl. discriminate.
             ++ eexists _, _. split; [reflexivity|].
                intros c. split; [discriminate|].
                intros (_ & k & h & [= <-] & _ & Hn & _). rewrite Hnew in Hn. discriminate.
          -- eexists _, _. split; [reflexivity|].
             intros c. split; [discriminate|].
             intros (_ & k & h & [= <-] & Hp' & _). rewrite Hp in Hp'. discriminate.
        * apply truthy_empty in Ht. subst api_key.
          unfold api_key_hint, app_bind, app_gets, app_ret, notify, app_modify.
          destruct (api_key_warning_shown s);
            (eexists _, _; split; [reflexivity|]);
            intros c; (split; [discriminate|]);
            intros (_ & k & h & [= <-] & Hp' & _); discriminate.
      + unfold api_key_hint, app_bind, app_gets, app_ret, notify, app_modify.
        destruct (api_key_warning_shown s);
          (eexists _, _; split; [reflexivity|]);
          intros c; (split; [discriminate|]);
          intros (_ & k & h & Hk & _); discriminate.
    - eexists _, _. split; [reflexivity|].
      intros c. split; [discriminate|]. intros [H _]. discriminate. }
  destruct Hrun as (client & s' & Hrun & Hclient).
  destruct (Hframe client s' Hrun) as (H1 & H2 & H3 & H4).
  exists client, s'. auto 10.
Qed.

(** A first run without a key shows the hint and sets its flag; the tasks
    and the cache are those of before. *)
Example setup_openai_client_first_run :
  let run := setup_openai_client (working_environment None) (session_of one_task_session) in
  fst run = Return None
  /\ state (snd run) = one_task_session
  /\ api_key_warning_shown (session_of one_task_session) = false
  /\ api_key_warning_shown (snd run) = true
  /\ length (notices (snd run)) = 1%nat.
Proof. vm_compute. repeat split; reflexivity. Qed.

Lemma api_key_hint_shown s :
  api_key_warning_shown s = true ->
  (api_key_hint ;;; app_ret (@None OpenAI))%app s = (Return None, s).
Proof.
  intros H. unfold api_key_hint, app_bind, app_gets, app_ret. now rewrite H.
Qed.

Lemma api_key_hint_first s :
  api_key_warning_shown s = false ->
  (api_key_hint ;;; app_ret (@None OpenAI))%app s
  = (Return None,
     set_api_key_warning_shown true
       (set_notices
          (st_info "💡 Add OPENAI_API_KEY to environment variables for AI translations."
           :: notices s) s)).
Proof.
  intros H. unfold api_key_hint, app_bind, app_gets, app_ret, notify, app_modify.
  now rewrite H.
Qed.

Lemma setup_without_key env s :
  OPENAI_AVAILABLE env = true ->
  OPENAI_API_KEY env = None \/ OPENAI_API_KEY env = Some "" ->
  setup_openai_client env s = (api_key_hint ;;; app_ret (@None OpenAI))%app s.
Proof.
  intros Hav Hkey. unfold setup_openai_client. rewrite Hav.
  destruct Hkey as [->| ->]; reflexivity.
Qed.

(** X21. What the user is told.  A key that is set but does not start with
    "sk-" ends without a client and without any notice; without the
    library nothing is shown either; and the hint for a missing key is
    shown by the first run only: a later run with no key leaves the session
    exactly as it found it. *)
Theorem setup_openai_client_notices env s :
  (forall api_key,
      OPENAI_API_KEY env = Some api_key -> api_key <> "" ->
      String.prefix "sk-" api_key = false ->
      setup_openai_client env s = (Return None, s))
  /\ (OPENAI_AVAILABLE env = false -> setup_openai_client env s = (Return None, s))
  /\ (OPENAI_AVAILABLE env = true ->
      OPENAI_API_KEY env = None \/ OPENAI_API_KEY env = Some "" ->
      exists s1,
        setup_openai_client env s = (Return None, s1)
        /\ api_key_warning_shown s1 = true
        /\ (api_key_warning_shown s = false -> length (notices s1) = S (length (notices s)))
        /\ setup_openai_client env s1 = (Return None, s1)).
Proof.
  split; [|split].
  - intros api_key Hkey Hne Hp. unfold setup_openai_client.
    rewrite Hkey, (truthy_true _ Hne), Hp. simpl.
    destruct (OPENAI_AVAILABLE env); reflexivity.
  - intros Hav. unfold setup_openai_client. now rewrite Hav.
  - intros Hav Hkey. destruct (api_key_warning_shown s) eqn:Hshown.
    + exists s. rewrite (setup_without_key env s Hav Hkey).
      rewrite (api_key_hint_shown s Hshown).
      split; [reflexivity|]. split; [exact Hshown|]. split; [discriminate|reflexivity].
    + eexists. rewrite (setup_without_key env s Hav Hkey).
      split; [exact (api_key_hint_first s Hshown)|].
      split; [reflexivity|]. split; [reflexivity|].
      rewrite (setup_without_key env _ Hav Hkey). now apply api_key_hint_shown.
Qed.

(** ** The order of the task cards *)

Lemma sort_key_hashable t :
  hashable (status t) = true -> hashable (priority t) = true ->
  sort_key t = Return (task_key t).
Proof.
  unfold sort_key, task_key.
  destruct (status t); try discriminate; destruct (priority t); try discriminate;
    reflexivity.
Qed.

Lemma decorate_hashable l :
  Forall (fun t => hashable (status t) = true /\ hashable (priority t) = true) l ->
  decorate l = Return (map (fun t => (task_key t, t)) l).
Proof.
  induction 1 as [|t l [Hs Hp] _ IH]; simpl; [reflexivity|].
  now rewrite (sort_key_hashable t Hs Hp), IH.
Qed.

Lemma key_le_total a b : key_le a b = false -> key_le b a = true.
Proof.
  unfold key_le. destruct a as [a1 a2], b as [b1 b2]. simpl.
  destruct (Nat.ltb_spec a1 b1), (Nat.ltb_spec b1 a1), (Nat.eqb_spec a1 b1),
    (Nat.eqb_spec b1 a1), (Nat.leb_spec a2 b2), (Nat.leb_spec b2 a2);
    simpl; intros; try reflexivity; try discriminate; lia.
Qed.

Lemma key_le_trans a b c : key_le a b = true -> key_le b c = true -> key_le a c = true.
Proof.
  unfold key_le. destruct a as [a1 a2], b as [b1 b2], c as [c1 c2]. simpl.
  destruct (Nat.ltb_spec a1 b1), (Nat.ltb_spec b1 c1), (Nat.ltb_spec a1 c1),
    (Nat.eqb_spec a1 b1), (Nat.eqb_spec b1 c1), (Nat.eqb_spec a1 c1),
    (Nat.leb_spec a2 b2), (Nat.leb_spec b2 c2), (Nat.leb_spec a2 c2);
    simpl; intros; try reflexivity; try discriminate; lia.
Qed.

Lemma key_eqb_le a b : key_eqb a b = true -> key_le a b = true.
Proof.
  unfold key_eqb, key_le. destruct a as [a1 a2], b as [b1 b2]. simpl.
  destruct (Nat.eqb_spec a1 b1), (Nat.eqb_spec a2 b2); try discriminate.
  intros _. subst. rewrite Nat.leb_refl, orb_true_r. reflexivity.
Qed.

Lemma key_eqb_trans_l a b k : key_eqb a k = true -> key_eqb b k = true -> key_eqb a b = true.
Proof.
  unfold key_eqb. destruct a as [a1 a2], b as [b1 b2], k as [k1 k2]. simpl.
  destruct (Nat.eqb_spec a1 k1), (Nat.eqb_spec a2 k2), (Nat.eqb_spec b1 k1),
    (Nat.eqb_spec b2 k2); try discriminate.
  intros _ _. subst. now rewrite !Nat.eqb_refl.
Qed.

Lemma insert_keyed_perm x l : Permutation (insert_keyed x l) (x :: l).
Proof.
  induction l as [|y l IH]; simpl; [reflexivity|].
  destruct (key_le (fst x) (fst y)); [reflexivity|].
  rewrite IH. apply perm_swap.
Qed.

Lemma stable_sort_perm l : Permutation (stable_sort l) l.
Proof.
  induction l as [|x l IH]; simpl; [reflexivity|].
  rewrite insert_keyed_perm. now constructor.
Qed.

Lemma insert_keyed_sorted x l :
  StronglySorted (fun a b => key_le (fst a) (fst b) = true) l ->
  StronglySorted (fun a b => key_le (fst a) (fst b) = true) (insert_keyed x l).
Proof.
  induction 1 as [|y l Hsorted IH Hy]; simpl.
  - repeat constructor.
  - destruct (key_le (fst x) (fst y)) eqn:E.
    + constructor; [now constructor|]. constructor; [exact E|].
      eapply List.Forall_impl; [|exact Hy]. intros z Hz. simpl in Hz.
      eapply key_le_trans; eauto.
    + constructor; [exact IH|].
      apply key_le_total in E.
      apply (Permutation_Forall (Permutation_sym (insert_keyed_perm x l))).
      now constructor.
Qed.

Lemma stable_sort_sorted l :
  StronglySorted (fun a b => key_le (fst a) (fst b) = true) (stable_sort l).
Proof.
  induction l as [|x l IH]; simpl; [constructor|]. now apply insert_keyed_sorted.
Qed.

Lemma insert_keyed_stable k x l :
  List.filter (fun y => key_eqb (fst y) k) (insert_keyed x l)
  = List.filter (fun y => key_eqb (fst y) k) (x :: l).
Proof.
  induction l as [|y l IH]; [reflexivity|].
  cbn [insert_keyed]. destruct (key_le (fst x) (fst y)) eqn:E; [reflexivity|].
  cbn [List.filter] in *. rewrite IH.
  destruct (key_eqb (fst x) k) eqn:Ex, (key_eqb (fst y) k) eqn:Ey; try reflexivity.
  rewrite (key_eqb_le _ _ (key_eqb_trans_l _ _ _ Ex Ey)) in E. discriminate E.
Qed.

Lemma stable_sort_stable k l :
  List.filter (fun y => key_eqb (fst y) k) (stable_sort l)
  = List.filter (fun y => key_eqb (fst y) k) l.
Proof.
  induction l as [|x l IH]; [reflexivity|].
  simpl stable_sort. rewrite insert_keyed_stable. cbn [List.filter]. now rewrite IH.
Qed.

Lemma stable_sort_keys l :
  Forall (fun y => fst y = task_key (snd y)) l ->
  Forall (fun y => fst y = task_key (snd y)) (stable_sort l).
Proof.
  apply (Permutation_Forall (Permutation_sym (stable_sort_perm l))).
Qed.

Lemma sorted_map_snd l :
  StronglySorted (fun a b => key_le (fst a) (fst b) = true) l ->
  Forall (fun y => fst y = task_key (snd y)) l ->
  StronglySorted (fun a b => key_le (task_key a) (task_key b) = true) (map snd l).
Proof.
  induction 1 as [|y l Hsorted IH Hy]; intros Hkeys; simpl; [constructor|].
  inversion Hkeys as [|? ? Hk Hrest]; subst.
  constructor; [now apply IH|].
  apply List.Forall_forall. intros t Hin. apply in_map_iff in Hin.
  destruct Hin as (z & <- & Hz).
  rewrite List.Forall_forall in Hy, Hrest.
  rewrite <- Hk, <- (Hrest z Hz). now apply Hy.
Qed.

Lemma filter_map_snd (p : Task -> bool) (l : list ((nat * nat) * Task)) :
  List.filter p (map snd l) = map snd (List.filter (fun y => p (snd y)) l).
Proof.
  induction l as [|y l IH]; simpl; [reflexivity|].
  destruct (p (snd y)); simpl; now rewrite IH.
Qed.

Lemma filter_keyed k l :
  Forall (fun y => fst y = task_key (snd y)) l ->
  List.filter (fun y => key_eqb (task_key (snd y)) k) l
  = List.filter (fun y => key_eqb (fst y) k) l.
Proof.
  intros H. apply filter_ext_in. intros y Hy.
  rewrite List.Forall_forall in H. now rewrite (H y Hy).
Qed.

Lemma keyed_invariant (l : list Task) :
  Forall (fun y => fst y = task_key (snd y)) (map (fun t => (task_key t, t)) l).
Proof. induction l; simpl; constructor; auto. Qed.

Lemma map_snd_keyed (l : list Task) : map snd (map (fun t => (task_key t, t)) l) = l.
Proof. induction l as [|t l IH]; simpl; [reflexivity|]. now rewrite IH. Qed.

(** X22. The order of the cards, for tasks whose status and priority can be
    hashed: [sorted_tasks] returns a rearrangement of the tasks it was given,
    ordered by status (Todo, In Progress, Completed, anything else) and,
    within a status, by priority (High, Medium, Low, anything else); tasks
    with the same status and priority keep the order they came in. *)
Theorem sorted_tasks_spec filtered_tasks :
  Forall (fun t => hashable (status t) = true /\ hashable (priority t) = true)
    filtered_tasks ->
  exists sorted,
    sorted_tasks filtered_tasks = Return sorted
    /\ Permutation sorted filtered_tasks
    /\ StronglySorted (fun a b => key_le (task_key a) (task_key b) = true) sorted
    /\ forall k,
        List.filter (fun t => key_eqb (task_key t) k) sorted
        = List.filter (fun t => key_eqb (task_key t) k) filtered_tasks.
Proof.
  intros Hall. unfold sorted_tasks. rewrite (decorate_hashable _ Hall).
  set (keyed := map (fun t => (task_key t, t)) filtered_tasks).
  pose proof (keyed_invariant filtered_tasks) as Hkeys. fold keyed in Hkeys.
  eexists. split; [reflexivity|]. split; [|split].
  - rewrite (Permutation_map snd (stable_sort_perm keyed)).
    unfold keyed. now rewrite map_snd_keyed.
  - apply sorted_map_snd; [apply stable_sort_sorted|now apply stable_sort_keys].
  - intros k.
    rewrite (filter_map_snd (fun t => key_eqb (task_key t) k)).
    rewrite (filter_keyed k _ (stable_sort_keys _ Hkeys)).
    rewrite stable_sort_stable, <- (filter_keyed k _ Hkeys).
    rewrite <- (filter_map_snd (fun t => key_eqb (task_key t) k)).
    unfold keyed. now rewrite map_snd_keyed.
Qed.

Lemma sorted_tasks_spec_witness :
  Forall (fun t => hashable (status t) = true /\ hashable (priority t) = true)
    [mkTask (JString "a") (JString "done") (JString "") (JString Priority_HIGH)
       (JString Status_COMPLETED) (JString "") (JArray []) (JObject []);
     mkTask (JString "b") (JString "later") (JString "") (JString Priority_LOW)
       (JString Status_TODO) (JString "") (JArray []) (JObject []);
     mkTask (JString "c") (JString "now") (JString "") (JString Priority_HIGH)
       (JString Status_TODO) (JString "") (JArray []) (JObject [])]
  /\ exists sorted,
      sorted_tasks
        [mkTask (JString "a") (JString "done") (JString "") (JString Priority_HIGH)
           (JString Status_COMPLETED) (JString "") (JArray []) (JObject []);
         mkTask (JString "b") (JString "later") (JString "") (JString Priority_LOW)
           (JString Status_TODO) (JString "") (JArray []) (JObject []);
         mkTask (JString "c") (JString "now") (JString "") (JString Priority_HIGH)
           (JString Status_TODO) (JString "") (JArray []) (JObject [])]
      = Return sorted
      /\ Permutation sorted
           [mkTask (JString "a") (JString "done") (JString "") (JString Priority_HIGH)
              (JString Status_COMPLETED) (JString "") (JArray []) (JObject []);
            mkTask (JString "b") (JString "later") (JString "") (JString Priority_LOW)
              (JString Status_TODO) (JString "") (JArray []) (JObject []);
            mkTask (JString "c") (JString "now") (JString "") (JString Priority_HIGH)
              (JString Status_TODO) (JString "") (JArray []) (JObject [])]
      /\ StronglySorted (fun a b => key_le (task_key a) (task_key b) = true) sorted
      /\ forall k,
          List.filter (fun t => key_eqb (task_key t) k) sorted
          = List.filter (fun t => key_eqb (task_key t) k)
              [mkTask (JString "a") (JString "done") (JString "") (JString Priority_HIGH)
                 (JString Status_COMPLETED) (JString "") (JArray []) (JObject []);
               mkTask (JString "b") (JString "later") (JString "") (JString Priority_LOW)
                 (JString Status_TODO) (JString "") (JArray []) (JObject []);
               mkTask (JString "c") (JString "now") (JString "") (JString Priority_HIGH)
                 (JString Status_TODO) (JString "") (JArray []) (JObject [])].
Proof.
  assert (H : Forall (fun t => hashable (status t) = true /\ hashable (priority t) = true)
                [mkTask (JString "a") (JString "done") (JString "") (JString Priority_HIGH)
                   (JString Status_COMPLETED) (JString "") (JArray []) (JObject []);
                 mkTask (JString "b") (JString "later") (JString "") (JString Priority_LOW)
                   (JString Status_TODO) (JString "") (JArray []) (JObject []);
                 mkTask (JString "c") (JString "now") (JString "") (JString Priority_HIGH)
                   (JString Status_TODO) (JString "") (JArray []) (JObject [])])
    by (repeat constructor).
  split; [exact H|]. exact (sorted_tasks_spec _ H).
Defined.

Example sorted_tasks_example :
  option_map (map id)
    (match sorted_tasks
             [mkTask (JString "a") (JString "done") (JString "") (JString Priority_HIGH)
                (JString Status_COMPLETED) (JString "") (JArray []) (JObject []);
              mkTask (JString "b") (JString "later") (JString "") (JString Priority_LOW)
                (JString Status_TODO) (JString "") (JArray []) (JObject []);
              mkTask (JString "c") (JString "now") (JString "") (JString Priority_HIGH)
                (JString Status_TODO) (JString "") (JArray []) (JObject [])] with
     | Return l => Some l
     | Raise _ => None
     end)
  = Some [JString "c"; JString "b"; JString "a"].
Proof. vm_compute. reflexivity. Qed.

Lemma decorate_unhashable l :
  Exists (fun t => hashable (status t) = false \/ hashable (priority t) = false) l ->
  decorate l = Raise TypeError.
Proof.
  induction 1 as [t l Ht|t l _ IH]; simpl.
  - assert (Hkey : sort_key t = Raise TypeError).
    { unfold sort_key.
      destruct Ht as [Ht|Ht].
      - destruct (status t); try discriminate Ht; reflexivity.
      - destruct (status t); try reflexivity;
          destruct (priority t); try discriminate Ht; reflexivity. }
    now rewrite Hkey.
  - rewrite IH. destruct (sort_key t) as [k|e] eqn:E; [reflexivity|].
    unfold sort_key in E.
    destruct (status t); try (now injection E as <-);
      destruct (priority t); try discriminate E; now injection E as <-.
Qed.

(** X23. One task whose status or priority is a list or an object (the
    import accepts such a record) makes the ordering of any list that holds
    it raise [TypeError]: no card is rendered. *)
Theorem sorted_tasks_unhashable filtered_tasks :
  Exists (fun t => hashable (status t) = false \/ hashable (priority t) = false)
    filtered_tasks ->
  sorted_tasks filtered_tasks = Raise TypeError.
Proof.
  intros H. unfold sorted_tasks. now rewrite (decorate_unhashable _ H).
Qed.

Lemma sorted_tasks_unhashable_witness :
  Exists (fun t => hashable (status t) = false \/ hashable (priority t) = false)
    [mkTask (JString "a") (JString "x") (JString "") (JString Priority_HIGH)
       (JArray []) (JString "") (JArray []) (JObject [])]
  /\ sorted_tasks
       [mkTask (JString "a") (JString "x") (JString "") (JString Priority_HIGH)
          (JArray []) (JString "") (JArray []) (JObject [])]
     = Raise TypeError.
Proof.
  assert (H : Exists (fun t => hashable (status t) = false \/ hashable (priority t) = false)
                [mkTask (JString "a") (JString "x") (JString "") (JString Priority_HIGH)
                   (JArray []) (JString "") (JArray []) (JObject [])])
    by (left; left; reflexivity).
  split; [exact H|]. exact (sorted_tasks_unhashable _ H).
Defined.

(** ** An invariant of the task store *)

Lemma forallb_is_string_map l : forallb is_string (map JString l) = true.
Proof. induction l as [|x l IH]; simpl; [reflexivity|exact IH]. Qed.

Lemma update_first_status_well_typed task_id v ts :
  Forall (fun t => well_typed t = true) ts ->
  Forall (fun t => well_typed t = true) (update_first task_id [(f_status, v)] ts).
Proof.
  induction 1 as [|t ts Ht Hts IH]; simpl; [constructor|].
  destruct (json_eq_str (id t) task_id).
  - constructor; [exact Ht|exact Hts].
  - constructor; [exact Ht|exact IH].
Qed.

(** X24. The task store keeps its tasks well typed: when every task has a
    string title, a string description and a list of strings for tags,
    this is still so after [create_task], after [delete_task] and after the
    status change [update_task(task_id, status=...)] of the task card, so
    that searching never raises on a list built with them. *)
Theorem store_keeps_tasks_well_typed uuid4 now_isoformat s :
  Forall (fun t => well_typed t = true) (tasks (state s)) ->
  (forall title description priority tags,
      Forall (fun t => well_typed t = true)
        (tasks (state (snd (create_task uuid4 now_isoformat title description priority
                              tags s)))))
  /\ (forall task_id,
        Forall (fun t => well_typed t = true) (tasks (state (snd (delete_task task_id s)))))
  /\ (forall task_id new_status,
        Forall (fun t => well_typed t = true)
          (tasks (state (snd (update_task task_id [(f_status, JString new_status)] s))))).
Proof.
  intros Hall. split; [|split].
  - intros title description priority tags.
    unfold create_task, app_draw_uuid, app_now, set_session_tasks, notify,
      app_bind, app_gets, app_modify, app_ret. simpl.
    apply Forall_app. split; [exact Hall|]. constructor; [|constructor].
    unfold well_typed. simpl. apply forallb_is_string_map.
  - intros task_id. simpl.
    apply List.Forall_forall. intros t Hin. apply filter_In in Hin.
    rewrite List.Forall_forall in Hall. apply Hall, Hin.
  - intros task_id new_status. simpl. now apply update_first_status_well_typed.
Qed.

Lemma store_keeps_tasks_well_typed_witness :
  Forall (fun t => well_typed t = true) (tasks (state (session_of one_task_session)))
  /\ (forall title description priority tags,
        Forall (fun t => well_typed t = true)
          (tasks (state (snd (create_task example_uuid4 example_now title description
                                priority tags (session_of one_task_session))))))
  /\ (forall task_id,
        Forall (fun t => well_typed t = true)
          (tasks (state (snd (delete_task task_id (session_of one_task_session))))))
  /\ (forall task_id new_status,
        Forall (fun t => well_typed t = true)
          (tasks (state (snd (update_task task_id [(f_status, JString new_status)]
                                (session_of one_task_session)))))).
Proof.
  assert (H : Forall (fun t => well_typed t = true)
                (tasks (state (session_of one_task_session))))
    by (repeat constructor).
  split; [exact H|].
  exact (store_keeps_tasks_well_typed example_uuid4 example_now
           (session_of one_task_session) H).
Defined.

Lemma search_raises_on_untyped_title_witness :
  "milk" <> ""
  /\ Exists (fun t => is_string (title t) = false)
       (tasks (state (session_of
          (set_tasks [mkTask (JString "t1") JNull (JString "") (JString Priority_HIGH)
                        (JString Status_TODO) (JString "2024-01-01T09:00:00") (JArray [])
                        (JObject [])]
             init_session_state))))
  /\ exists e,
      get_filtered_tasks "milk" "All" "All"
        (session_of
           (set_tasks [mkTask (JString "t1") JNull (JString "") (JString Priority_HIGH)
                         (JString Status_TODO) (JString "2024-01-01T09:00:00") (JArray [])
                         (JObject [])]
              init_session_state))
      = (Raise e,
         session_of
           (set_tasks [mkTask (JString "t1") JNull (JString "") (JString Priority_HIGH)
                         (JString Status_TODO) (JString "2024-01-01T09:00:00") (JArray [])
                         (JObject [])]
              init_session_state)).
Proof.
  assert (H1 : "milk" <> "") by discriminate.
  assert (H2 : Exists (fun t => is_string (title t) = false)
                 (tasks (state (session_of
                    (set_tasks [mkTask (JString "t1") JNull (JString "")
                                  (JString Priority_HIGH) (JString Status_TODO)
                                  (JString "2024-01-01T09:00:00") (JArray []) (JObject [])]
                       init_session_state)))))
    by (left; reflexivity).
  split; [exact H1|]. split; [exact H2|].
  exact (search_raises_on_untyped_title "milk" "All" "All" _ H1 H2).
Defined.
